(** * vesta-driver-mssql: the MSSQL adapter of the vesta query language

    A shallow embedding of [src/MSSQL.ts] in its latest revision (the
    transaction-aware one, [src/unnamed/part_000] from line 1171 on), and
    the properties of its query compiler, result assembly and write
    pipeline.  Module [Legacy] embeds the result normalizer and the bulk
    insert of the earlier revision [src/src/MSSQL.ts], which differ.

    Conventions of the embedding:
    - JavaScript values are the inductive [value]; numbers are the
      integers and [NaN] (no fractions), objects are association lists in
      insertion order, strings are [string]s of code units below 256.
    - A function that can throw returns [result]; a function that returns
      a promise is a computation of the monad [promise] over the driver's
      replies and the trace of statements sent to it. *)

From Stdlib Require Import ZArith List String Ascii Bool Lia.
From Stdlib Require Import Numbers.DecimalString.
Import ListNotations.

Open Scope string_scope.
Open Scope Z_scope.

Set Implicit Arguments.
Set Warnings "-register-all".

(** ** Strings *)

Module Str.

(** [Array.prototype.join] on strings. *)
Fixpoint join (sep : string) (l : list string) : string :=
  match l with
  | [] => ""
  | [x] => x
  | x :: rest => x ++ sep ++ join sep rest
  end.

Fixpoint drop (n : nat) (s : string) : string :=
  match n, s with
  | O, _ => s
  | S n', String _ s' => drop n' s'
  | S _, EmptyString => EmptyString
  end.

(** [s.replace(pat, rep)] with a string pattern: only the first
    occurrence is replaced ([rep] holds no [$] pattern at any call). *)
Fixpoint replace_first (pat rep s : string) : string :=
  if prefix pat s then rep ++ drop (String.length pat) s
  else match s with
       | EmptyString => EmptyString
       | String c s' => String c (replace_first pat rep s')
       end.

(** White space and line terminators of [String.prototype.trim] among
    the code units below 256. *)
Definition is_space (c : ascii) : bool :=
  let n := nat_of_ascii c in
  ((9 <=? n) && (n <=? 13) || (n =? 32) || (n =? 160))%nat.

Fixpoint trim_start (s : string) : string :=
  match s with
  | EmptyString => EmptyString
  | String c s' => if is_space c then trim_start s' else s
  end.

Fixpoint trim_end (s : string) : string :=
  match s with
  | EmptyString => EmptyString
  | String c s' =>
      match trim_end s' with
      | EmptyString => if is_space c then EmptyString else String c EmptyString
      | t => String c t
      end
  end.

Definition trim (s : string) : string := trim_end (trim_start s).

(** The first code unit upper- or lower-cased, ASCII letters only. *)
Definition lower (c : ascii) : ascii :=
  let n := nat_of_ascii c in
  if ((65 <=? n) && (n <=? 90))%nat then ascii_of_nat (n + 32) else c.

Definition upper (c : ascii) : ascii :=
  let n := nat_of_ascii c in
  if ((97 <=? n) && (n <=? 122))%nat then ascii_of_nat (n - 32) else c.

Definition non_empty (s : string) : bool :=
  match s with EmptyString => false | _ => true end.

Definition of_Z (z : Z) : string := NilEmpty.string_of_int (Z.to_int z).

Fixpoint last_char (s : string) : option ascii :=
  match s with
  | EmptyString => None
  | String c EmptyString => Some c
  | String _ s' => last_char s'
  end.

Fixpoint contains (pat s : string) : bool :=
  prefix pat s ||
  match s with
  | EmptyString => false
  | String _ s' => contains pat s'
  end.

End Str.

(** ** JavaScript values *)

Inductive value : Type :=
| VUndefined
| VNull
| VBool (b : bool)
| VNum (n : Z)
| VNaN
| VStr (s : string)
| VArr (items : list value)
| VObj (props : list (string * value)).

Definition object := list (string * value).

Module Js.

Inductive type_name := TUndefined | TObject | TBoolean | TNumber | TString.

Definition typeof (v : value) : type_name :=
  match v with
  | VUndefined => TUndefined
  | VNull | VArr _ | VObj _ => TObject
  | VBool _ => TBoolean
  | VNum _ | VNaN => TNumber
  | VStr _ => TString
  end.

Definition truthy (v : value) : bool :=
  match v with
  | VUndefined | VNull | VNaN => false
  | VBool b => b
  | VNum n => negb (n =? 0)
  | VStr s => Str.non_empty s
  | VArr _ | VObj _ => true
  end.

Definition is_nullish (v : value) : bool :=
  match v with VUndefined | VNull => true | _ => false end.

(** Own-property lookup in an object literal: the first binding. *)
Fixpoint lookup (k : string) (o : object) : option value :=
  match o with
  | [] => None
  | (k', v) :: o' => if String.eqb k k' then Some v else lookup k o'
  end.

Definition has_own (k : string) (o : object) : bool :=
  match lookup k o with Some _ => true | None => false end.

(** [o[k] = v]: an existing property keeps its place, a new one goes last. *)
Fixpoint set (k : string) (v : value) (o : object) : object :=
  match o with
  | [] => [(k, v)]
  | (k', v') :: o' =>
      if String.eqb k k' then (k, v) :: o' else (k', v') :: set k v o'
  end.

(** [delete o[k]]. *)
Fixpoint delete (k : string) (o : object) : object :=
  match o with
  | [] => []
  | (k', v') :: o' =>
      if String.eqb k k' then delete k o' else (k', v') :: delete k o'
  end.

(** [ToString]: template literals, [+] with a string and [join]. *)
Fixpoint to_string (v : value) : string :=
  match v with
  | VUndefined => "undefined"
  | VNull => "null"
  | VBool b => if b then "true" else "false"
  | VNum n => Str.of_Z n
  | VNaN => "NaN"
  | VStr s => s
  | VArr items =>
      Str.join ","
        ((fix each (l : list value) : list string :=
            match l with
            | [] => []
            | x :: l' =>
                (match x with
                 | VUndefined | VNull => ""
                 | _ => to_string x
                 end) :: each l'
            end) items)
  | VObj _ => "[object Object]"
  end.

(** [arr.join(sep)]: [null] and [undefined] elements give the empty string. *)
Definition join (sep : string) (items : list value) : string :=
  Str.join sep
    (map (fun x => if is_nullish x then "" else to_string x) items).

Definition is_digit (c : ascii) : bool :=
  let n := nat_of_ascii c in ((48 <=? n) && (n <=? 57))%nat.

Fixpoint digits (acc : Z) (s : string) : option Z :=
  match s with
  | EmptyString => Some acc
  | String c s' =>
      if is_digit c
      then digits (10 * acc + Z.of_nat (nat_of_ascii c - 48)) s'
      else None
  end.

(** [StringToNumber] on the integer literals; every other text is [NaN]
    here (fractions, exponents and hexadecimal are outside [value]). *)
Definition string_to_number (s : string) : value :=
  match Str.trim s with
  | EmptyString => VNum 0
  | String "-" (String c r) =>
      match digits 0 (String c r) with
      | Some n => VNum (- n)
      | None => VNaN
      end
  | String "+" (String c r) =>
      match digits 0 (String c r) with
      | Some n => VNum n
      | None => VNaN
      end
  | t => match digits 0 t with Some n => VNum n | None => VNaN end
  end.

(** Unary plus. *)
Definition to_number (v : value) : value :=
  match v with
  | VUndefined => VNaN
  | VNull => VNum 0
  | VBool b => VNum (if b then 1 else 0)
  | VNum _ | VNaN => v
  | VStr s => string_to_number s
  | VArr _ | VObj _ => string_to_number (to_string v)
  end.

(** [v[k]] on a value that is not [null] or [undefined]; [None] is the
    [TypeError] of a property read on those two. *)
Definition get (v : value) (k : string) : option value :=
  match v with
  | VUndefined | VNull => None
  | VObj o => Some (match lookup k o with Some x => x | None => VUndefined end)
  | VArr items =>
      if String.eqb k "length" then Some (VNum (Z.of_nat (List.length items)))
      else Some VUndefined
  | VStr s =>
      if String.eqb k "length" then Some (VNum (Z.of_nat (String.length s)))
      else Some VUndefined
  | _ => Some VUndefined
  end.

(** The names an object literal answers for without having them as its
    own properties: those of [Object.prototype].  What it answers with
    is a function (for [__proto__], the prototype itself): a truthy
    value that has none of the properties the driver reads next. *)
Definition inherited (k : string) : bool :=
  existsb (String.eqb k)
    ["constructor"; "hasOwnProperty"; "isPrototypeOf"; "propertyIsEnumerable";
     "toLocaleString"; "toString"; "valueOf"; "__proto__";
     "__defineGetter__"; "__defineSetter__"; "__lookupGetter__"; "__lookupSetter__"].

End Js.

(** ** Errors and throwing functions *)

(** The codes of [Err.Code] the driver uses. *)
Inductive ErrCode := DBConnection | DBQuery | DBInsert | DBUpdate | DBDelete | WrongInput.

(** What is thrown or what a promise is rejected with.  [Err code cause]
    is [new Err(code, err && err.message)] for the caught [err = cause];
    [DatabaseError code cause] is [new DatabaseError(code, err)]. *)
Inductive error : Type :=
| TypeError
| Raised (v : value)
| JsError (message : string)
| Err (code : ErrCode) (cause : error)
| ErrMessage (code : ErrCode) (message : string)
| DatabaseError (code : ErrCode) (cause : error).

(** [if (err)] on a caught reason: engine and library errors are objects. *)
Definition error_truthy (e : error) : bool :=
  match e with
  | Raised v => Js.truthy v
  | _ => true
  end.

(** The errors the driver builds itself, with a code of the taxonomy. *)
Definition structured (e : error) : bool :=
  match e with
  | Err _ _ | ErrMessage _ _ | DatabaseError _ _ => true
  | _ => false
  end.

Inductive result (A : Type) : Type :=
| OK (a : A)
| Throw (e : error).

Arguments OK {A} a.
Arguments Throw {A} e.

Definition bind {A B : Type} (r : result A) (f : A -> result B) : result B :=
  match r with
  | OK a => f a
  | Throw e => Throw e
  end.

Notation "'let*' x ':=' r 'in' k" := (bind r (fun x => k))
  (at level 10, x pattern, r at level 100, k at level 200).

Definition of_option {A : Type} (o : option A) : result A :=
  match o with
  | Some a => OK a
  | None => Throw TypeError
  end.

(** ** The schema registry *)

Inductive RelationType := One2One | One2Many | Many2Many | Reverse.

(** [properties.relation]: the related model (by the name of its schema),
    the kind of relation and the owned ("week") flag. *)
Record Relationship := {
  rel_model : string;
  rel_type : RelationType;
  isWeek : bool
}.

(** [properties.type]; a field of type [Relation] carries its
    [properties.relation], which vesta's [Field] sets together with the type. *)
Inductive FieldType :=
| TString | TText | TPassword | TTel | TEMail | TURL | TNumber | TInteger
| TFloat | TFile | TTimestamp | TBoolean | TObject | TEnum | TList
| TRelation (relation : Relationship).

Module Field.
Record t := {
  fieldName : string;
  type : FieldType;
  primary : bool
}.

Definition relation (f : t) : option Relationship :=
  match type f with
  | TRelation r => Some r
  | _ => None
  end.

Definition is_relation (f : t) : bool :=
  match type f with TRelation _ => true | _ => false end.

Definition is_list (f : t) : bool :=
  match type f with TList => true | _ => false end.

Definition is_object (f : t) : bool :=
  match type f with TObject => true | _ => false end.

(** [relation.type == One2Many || relation.type == One2One] under
    [type == Relation]. *)
Definition is_to_one (f : t) : bool :=
  match type f with
  | TRelation r =>
      match rel_type r with One2Many | One2One => true | _ => false end
  | _ => false
  end.
End Field.

Module Schema.
Record t := {
  name : string;
  fields : list Field.t
}.

(** [getField(name)]: the field the schema declares under the name. *)
Definition getField (s : t) (fieldName : string) : option Field.t :=
  find (fun f => String.eqb (Field.fieldName f) fieldName) (fields s).

(** [getFields()[name]].  The fields are kept in an object literal (the
    driver calls its [hasOwnProperty]), so a name the schema does not
    declare is still found when [Object.prototype] has it. *)
Inductive entry :=
| Own (f : Field.t)
| Inherited
| Absent.

Definition index (s : t) (fieldName : string) : entry :=
  match getField s fieldName with
  | Some f => Own f
  | None => if Js.inherited fieldName then Inherited else Absent
  end.

Definition getFieldsNames (s : t) : list string :=
  map Field.fieldName (fields s).
End Schema.

(** ** Conditions and queries of the vesta query language *)

Inductive ConnectorOp := And | Or.

Inductive ComparisonOp :=
| EqualTo | NotEqualTo | GreaterThan | GreaterThanOrEqualTo
| LessThan | LessThanOrEqualTo | Like | NotLike.

Record Comparison := {
  field : string;
  cvalue : value;
  isValueOfTypeField : bool
}.

(** A [Condition]: [isConnector] is fixed by the operator, so a node is a
    comparison (whose [comparison] is unset until [compare] is called) or
    a connector with its children.  [model] is the optional owning entity. *)
Inductive Condition : Type :=
| Leaf (model : option string) (operator : ComparisonOp) (comparison : option Comparison)
| Connector (model : option string) (operator : ConnectorOp) (children : list Condition).

Module Vql.
Inductive join_type := Join | LeftJoin | RightJoin | InnerJoin | OtherJoin.

Inductive relation_request :=
| Name (name : string)
| WithFields (name : string) (fields : list string).

Definition relation_name (r : relation_request) : string :=
  match r with Name n => n | WithFields n _ => n end.

Record order := { order_field : string; ascending : bool }.

(** A field of [fields] is a column name or a sub-query; a join is
    (kind, local field, joined query). *)
Inductive t : Type := Query {
  model : string;
  fields : list (string + t);
  condition : option Condition;
  orderBy : list order;
  limit : Z;
  offset : Z;
  page : Z;
  relations : list relation_request;
  joins : list (join_type * string * t)
}.
End Vql.

(** ** The driver: schema lookups, escaping and the condition translator *)

Section Driver.

(** [this.models] and [this.schemaList]: the constructor registers every
    model under the name of its schema, and a relation's target model is
    resolved through the same registry. *)
Variable models : list Schema.t.

(** [this.quote] *)
Definition quote : string := "<#quote#>".

(** [this.schemaList[modelName]] *)
Definition schemaOf (modelName : string) : option Schema.t :=
  find (fun s => String.eqb (Schema.name s) modelName) models.

(** [pk(modelName)]: the first field flagged primary, ['id'] otherwise; a
    [TypeError] on a model that is not registered.  The cache
    [this.primaryKeys] holds the same value. *)
Definition pk (modelName : string) : result string :=
  let* schema := of_option (schemaOf modelName) in
  OK (match find Field.primary (Schema.fields schema) with
      | Some f => Field.fieldName f
      | None => "id"
      end).

(** [str[0].toLowerCase() + str.slice(1)]; [str[0]] is [undefined] on the
    empty string. *)
Definition camelCase (str : string) : result string :=
  match str with
  | EmptyString => Throw TypeError
  | String c rest => OK (String (Str.lower c) rest)
  end.

Definition pascalCase (str : string) : result string :=
  match str with
  | EmptyString => Throw TypeError
  | String c rest => OK (String (Str.upper c) rest)
  end.

(** [escape(value)]: a number as it is, a boolean as 1 or 0, and for the
    rest [value.replace], which only strings have. *)
Definition escape (val : value) : result value :=
  match val with
  | VNum _ | VNaN => OK val
  | VBool b => OK (VNum (if b then 1 else 0))
  | VStr s => OK (VStr ("N'" ++ Str.replace_first "'" "''" s ++ "'"))
  | VUndefined | VNull | VArr _ | VObj _ => Throw TypeError
  end.

Definition connectorSymbol (operator : ConnectorOp) : string :=
  match operator with
  | And => "AND"
  | Or => "OR"
  end.

Definition comparisonSymbol (operator : ComparisonOp) : string :=
  match operator with
  | EqualTo => "="
  | NotEqualTo => "<>"
  | GreaterThan => ">"
  | GreaterThanOrEqualTo => ">="
  | LessThan => "<"
  | LessThanOrEqualTo => "<="
  | Like => "LIKE"
  | NotLike => "NOT LIKE"
  end.

(** [condition.model || model] *)
Definition model_or (own : option string) (model : string) : string :=
  match own with
  | Some m => if Str.non_empty m then m else model
  | None => model
  end.

(** The right-hand side of a comparison: the value as it is when it names
    a field, else [escape(isUndefined(value.id) ? value : +value.id)]. *)
Definition rightHandSide (c : Comparison) : result string :=
  if isValueOfTypeField c then OK (Js.to_string (cvalue c))
  else
    let* id := of_option (Js.get (cvalue c) "id") in
    let* escaped :=
      escape (match id with
              | VUndefined => cvalue c
              | _ => Js.to_number id
              end) in
    OK (Js.to_string escaped).

(** The fragment of a comparison whose field the schema declares. *)
Definition leafFragment (alias : string) (operator : ComparisonOp) (c : Comparison)
    (rhs : string) : string :=
  "([" ++ alias ++ "]." ++ field c ++ " " ++ comparisonSymbol operator ++ " " ++ rhs ++ ")".

(** What a connector makes of the (trimmed, non-empty) fragments of its
    children. *)
Definition connectorFragment (operator : ConnectorOp) (childrenCondition : list string)
    : string :=
  let childrenConditionStr :=
    Str.trim (Str.join (" " ++ connectorSymbol operator ++ " ") childrenCondition) in
  if Str.non_empty childrenConditionStr then "(" ++ childrenConditionStr ++ ")" else "".

(** [getCondition(model, condition, alias = model)].  The recursive call
    passes no alias, so a child is compiled against the model's name. *)
Fixpoint getCondition (model : string) (condition : Condition) (alias : string)
    {struct condition} : result string :=
  match condition with
  | Leaf own operator comparison =>
      let model := model_or own model in
      let* schema := of_option (schemaOf model) in
      let* c := of_option comparison in
      match Schema.getField schema (field c) with
      | None => OK ""
      | Some _ =>
          let* rhs := rightHandSide c in
          OK (leafFragment alias operator c rhs)
      end
  | Connector own operator children =>
      let model := model_or own model in
      let* childrenCondition :=
        (fix each (l : list Condition) : result (list string) :=
           match l with
           | [] => OK []
           | child :: rest =>
               let* compiled := getCondition model child model in
               let childCondition := Str.trim compiled in
               let* others := each rest in
               OK (if Str.non_empty childCondition
                   then childCondition :: others else others)
           end) children in
      OK (connectorFragment operator childrenCondition)
  end.

End Driver.

(** ** The query parameter compiler *)

Module ICalculatedQueryOptions.
Record t := {
  limit : string;
  orderBy : string;
  fields : string;
  fieldsList : list string;
  condition : string;
  join : string
}.
End ICalculatedQueryOptions.

(** The double quote and the line feed as strings. *)
Definition dquote : string := String "034"%char EmptyString.
Definition newline : string := String "010"%char EmptyString.

Section Compiler.

Variable models : list Schema.t.

(** [query.offset ? query.offset : (query.page ? query.page - 1 : 0) * query.limit] *)
Definition queryOffset (query : Vql.t) : Z :=
  if negb (Vql.offset query =? 0) then Vql.offset query
  else (if negb (Vql.page query =? 0) then Vql.page query - 1 else 0) * Vql.limit query.

(** [params.limit]: empty unless [+query.limit] is truthy. *)
Definition limitClause (query : Vql.t) : string :=
  if negb (Vql.limit query =? 0)
  then " OFFSET " ++ Str.of_Z (queryOffset query) ++ " ROWS FETCH NEXT "
       ++ Str.of_Z (Vql.limit query) ++ " ROWS ONLY "
  else "".

(** The explicit sort keys whose field the schema declares. *)
Definition orderArray (schema : Schema.t) (alias : string) (orderBy : list Vql.order)
    : list string :=
  flat_map
    (fun o =>
       match Schema.getField schema (Vql.order_field o) with
       | Some _ =>
           ["[" ++ alias ++ "]." ++ Vql.order_field o ++ " "
            ++ (if Vql.ascending o then "ASC" else "DESC")]
       | None => []
       end)
    orderBy.

(** [params.orderBy] before the joins, with the [defaultSort] flag. *)
Definition ownOrderBy (query : Vql.t) (schema : Schema.t) (alias : string)
    : result (string * bool) :=
  match Vql.orderBy query with
  | _ :: _ => OK (Str.join "," (orderArray schema alias (Vql.orderBy query)), false)
  | [] =>
      if Str.non_empty (limitClause query)
      then let* key := pk models (Vql.model query) in OK (key, true)
      else OK ("", false)
  end.

(** [query.relations.indexOf(fieldName) < 0]: only a relation requested
    by its bare name is found. *)
Definition requestedByName (relations : list Vql.relation_request) (fieldName : string)
    : bool :=
  existsb
    (fun r => match r with
              | Vql.Name n => String.eqb n fieldName
              | Vql.WithFields _ _ => false
              end)
    relations.

(** The projection when no field is selected: every column but the
    lists, a relation only as the foreign key of a to-one relation that
    is not expanded. *)
Definition defaultFields (schema : Schema.t) (alias : string)
    (relations : list Vql.relation_request) : list string :=
  flat_map
    (fun f =>
       if Field.is_list f then []
       else if negb (Field.is_relation f)
       then ["[" ++ alias ++ "]." ++ Field.fieldName f]
       else if negb (requestedByName relations (Field.fieldName f)) && Field.is_to_one f
       then ["[" ++ alias ++ "]." ++ Field.fieldName f]
       else [])
    (Schema.fields schema).

(** One ["field":"value"] pair of the JSON text built by [CONCAT]. *)
Definition jsonPair (name column : string) : string :=
  "'" ++ quote ++ name ++ quote ++ ":','" ++ quote ++ "'," ++ column ++ ",'" ++ quote ++ "'".

(** The pairs of the related model's fields a relation request asks for:
    no list, no relation other than a to-one. *)
Definition relationPairs (related : Schema.t) (request : Vql.relation_request)
    : result (list string) :=
  fold_right
    (fun fname acc =>
       let* rest := acc in
       let asked :=
         match request with
         | Vql.Name _ => true
         | Vql.WithFields _ wanted => existsb (String.eqb fname) wanted
         end in
       if asked then
         let* rf := of_option (Schema.getField related fname) in
         if negb (Field.is_list rf) && (negb (Field.is_relation rf) || Field.is_to_one rf)
         then OK (jsonPair fname ("c." ++ fname) :: rest)
         else OK rest
       else OK rest)
    (OK [])
    (Schema.getFieldsNames related).

(** The sub-select of one requested relation ([None]: nothing to add).
    [modelFields[relationName]] must be truthy; what is found on the
    prototype passes that test and has no [properties] to read a type
    from. *)
Definition relationField (query : Vql.t) (schema : Schema.t) (alias : string)
    (request : Vql.relation_request) : result (option string) :=
  let relationName := Vql.relation_name request in
  match Schema.index schema relationName with
  | Schema.Absent =>
      Throw (Raised (VStr ("FIELD " ++ relationName ++ " NOT FOUND IN model "
                           ++ Vql.model query ++ " as " ++ alias)))
  | Schema.Inherited => Throw TypeError
  | Schema.Own field =>
      match Field.type field with
      | TRelation r =>
          match rel_type r with
          | One2Many | One2One =>
              let* related := of_option (schemaOf models (rel_model r)) in
              let* modelFiledList := relationPairs related request in
              match modelFiledList with
              | [] => OK None
              | _ =>
                  let name := Schema.name related in
                  let* key := pk models name in
                  OK (Some ("(SELECT CONCAT('{',"
                            ++ Str.join ("," ++ dquote ++ "," ++ dquote ++ ",") modelFiledList
                            ++ ",'}') FROM [" ++ name ++ "] as c WHERE c." ++ key
                            ++ " = [" ++ alias ++ "]." ++ Field.fieldName field
                            ++ "  LIMIT 1) as " ++ Field.fieldName field))
              end
          | _ => OK None
          end
      | _ => OK None
      end
  end.

(** The loop over [query.relations]: it stops at the first throw. *)
Fixpoint relationFields (query : Vql.t) (schema : Schema.t) (alias : string)
    (requests : list Vql.relation_request) : result (list string) :=
  match requests with
  | [] => OK []
  | request :: rest =>
      let* one := relationField query schema alias request in
      let* others := relationFields query schema alias rest in
      OK (match one with Some f => f :: others | None => others end)
  end.

Definition joinKeyword (type : Vql.join_type) : string :=
  match type with
  | Vql.Join => "FULL OUTER JOIN"
  | Vql.LeftJoin => "LEFT JOIN"
  | Vql.RightJoin => "RIGHT JOIN"
  | Vql.InnerJoin => "INNER JOIN"
  | Vql.OtherJoin => "LEFT JOIN"
  end.

(** What the loop over the joins carries: the projection, the condition,
    the order and the join clauses so far. *)
Record joinState := {
  js_fields : list string;
  js_condition : string;
  js_orderBy : string;
  js_joins : list string
}.

(** The merge of one compiled join into the state. *)
Definition mergeJoin (st : joinState) (clause : string)
    (joinParam : ICalculatedQueryOptions.t) : joinState :=
  {| js_fields :=
       if Str.non_empty (ICalculatedQueryOptions.fields joinParam)
       then js_fields st ++ [ICalculatedQueryOptions.fields joinParam]
       else js_fields st;
     js_condition :=
       if Str.non_empty (ICalculatedQueryOptions.condition joinParam)
       then if Str.non_empty (js_condition st)
            then "(" ++ js_condition st ++ " AND "
                 ++ ICalculatedQueryOptions.condition joinParam ++ ")"
            else ICalculatedQueryOptions.condition joinParam
       else js_condition st;
     js_orderBy :=
       if Str.non_empty (ICalculatedQueryOptions.orderBy joinParam)
       then if Str.non_empty (js_orderBy st)
            then js_orderBy st ++ "," ++ ICalculatedQueryOptions.orderBy joinParam
            else ICalculatedQueryOptions.orderBy joinParam
       else js_orderBy st;
     js_joins :=
       if Str.non_empty (ICalculatedQueryOptions.join joinParam)
       then js_joins st ++ [clause; ICalculatedQueryOptions.join joinParam]
       else js_joins st ++ [clause] |}.

(** The text [getSubQuery] builds from the compiled sub-query. *)
Definition subQueryText (model : string) (params : ICalculatedQueryOptions.t)
    : result string :=
  let condition :=
    if Str.non_empty (ICalculatedQueryOptions.condition params)
    then "WHERE " ++ ICalculatedQueryOptions.condition params else "" in
  let orderBy :=
    if Str.non_empty (ICalculatedQueryOptions.orderBy params)
    then "ORDER BY " ++ ICalculatedQueryOptions.orderBy params else "" in
  let modelFiledList :=
    map (fun f =>
           let field := Str.replace_first ("`" ++ model ++ "`.") "" f in
           jsonPair field field)
        (ICalculatedQueryOptions.fieldsList params) in
  let* modelAs := camelCase model in
  OK ("(SELECT CONCAT('{'," ++ Str.join ("," ++ dquote ++ "," ++ dquote ++ ",") modelFiledList
      ++ ",'}') FROM `" ++ model ++ "` " ++ condition ++ " " ++ orderBy
      ++ " limit 1) as `" ++ modelAs ++ "`").

(** [getQueryParams(query, alias)].  [stripped] is set for the call from
    [getSubQuery], which first empties [query.relations] and
    [query.joins]. *)
Fixpoint compileQuery (stripped : bool) (query : Vql.t) (alias : string)
    {struct query} : result ICalculatedQueryOptions.t :=
  match query with
  | Vql.Query model qfields qcondition _ _ _ _ qrelations qjoins =>
      let relations := if stripped then [] else qrelations in
      let* schema := of_option (schemaOf models model) in
      let* (orderBy, defaultSort) := ownOrderBy query schema alias in
      let* fields :=
        match qfields with
        | _ :: _ =>
            (fix each (l : list (string + Vql.t)) : result (list string) :=
               match l with
               | [] => OK []
               | inr sub :: rest =>
                   let* params := compileQuery true sub (Vql.model sub) in
                   let* text := subQueryText (Vql.model sub) params in
                   let* others := each rest in
                   OK (text :: others)
               | inl column :: rest =>
                   match Schema.index schema column with
                   | Schema.Own f =>
                       let* others := each rest in
                       if Field.is_list f then OK others
                       else OK (("[" ++ alias ++ "]." ++ column) :: others)
                   | Schema.Inherited => Throw TypeError
                   | Schema.Absent => each rest
                   end
               end) qfields
        | [] => OK (defaultFields schema alias relations)
        end in
      let* expanded := relationFields query schema alias relations in
      let* condition :=
        match qcondition with
        | Some c => getCondition models model c alias
        | None => OK ""
        end in
      let start :=
        {| js_fields := fields ++ expanded;
           js_condition := condition;
           js_orderBy := orderBy;
           js_joins := [] |} in
      let* st :=
        if stripped then OK start else
        (fix each (l : list (Vql.join_type * string * Vql.t)) (st : joinState)
           : result joinState :=
           match l with
           | [] => OK st
           | (type, field, vql) :: rest =>
               let modelsAlias := Vql.model vql ++ "_" ++ field in
               let* aliased := of_option (schemaOf models alias) in
               match Schema.getField aliased field, schemaOf models (Vql.model vql) with
               | Some _, Some _ =>
                   let* key := pk models (Vql.model vql) in
                   let clause :=
                     joinKeyword type ++ " " ++ Vql.model vql ++ " as " ++ modelsAlias
                     ++ " ON (" ++ alias ++ "." ++ field ++ " = " ++ modelsAlias ++ "."
                     ++ key ++ ")" in
                   let* joinParam := compileQuery false vql modelsAlias in
                   each rest (mergeJoin st clause joinParam)
               | _, _ => each rest st
               end
           end) qjoins start in
      OK {| ICalculatedQueryOptions.limit := limitClause query;
            ICalculatedQueryOptions.orderBy := js_orderBy st;
            ICalculatedQueryOptions.fields := Str.join "," (js_fields st);
            ICalculatedQueryOptions.fieldsList := js_fields st;
            ICalculatedQueryOptions.condition := js_condition st;
            ICalculatedQueryOptions.join := Str.join newline (js_joins st) |}
  end.

Definition getQueryParams (query : Vql.t) (alias : string)
    : result ICalculatedQueryOptions.t :=
  compileQuery false query alias.

Definition getSubQuery (query : Vql.t) : result string :=
  let* params := compileQuery true query (Vql.model query) in
  subQueryText (Vql.model query) params.

End Compiler.

(** The loop of a connector over its children, as a function of its own:
    the trimmed, non-empty fragments in order. *)
Fixpoint childrenCondition (models : list Schema.t) (model : string)
    (children : list Condition) : result (list string) :=
  match children with
  | [] => OK []
  | child :: rest =>
      let* compiled := getCondition models model child model in
      let childCondition := Str.trim compiled in
      let* others := childrenCondition models model rest in
      OK (if Str.non_empty childCondition then childCondition :: others else others)
  end.

(** A fragment in parentheses. *)
Definition wrapped (s : string) : Prop :=
  exists body, s = "(" ++ body ++ ")".

(** ** The result normalizer *)

Module Unescape.

(** [str.replace(/c/ig, rep)] for a one-character pattern. *)
Fixpoint replace_char (c : ascii) (rep : string) (s : string) : string :=
  match s with
  | EmptyString => EmptyString
  | String x s' =>
      if Ascii.eqb x c then rep ++ replace_char c rep s'
      else String x (replace_char c rep s')
  end.

Fixpoint prefix_ci (pat s : string) : bool :=
  match pat, s with
  | EmptyString, _ => true
  | String a pat', String b s' =>
      Ascii.eqb (Str.lower a) (Str.lower b) && prefix_ci pat' s'
  | String _ _, EmptyString => false
  end.

(** [str.replace(new RegExp(pat, 'gi'), rep)] for a pattern of literal
    characters: every match from the left, letters in either case.
    [skip] counts the characters of a match still to pass over. *)
Fixpoint replace_all_ci (pat rep : string) (skip : nat) (s : string) : string :=
  match s with
  | EmptyString => EmptyString
  | String x s' =>
      match skip with
      | S k => replace_all_ci pat rep k s'
      | O =>
          if prefix_ci pat s
          then rep ++ replace_all_ci pat rep (String.length pat - 1) s'
          else String x (replace_all_ci pat rep O s')
      end
  end.

(** The right double and single quotation marks (U+201D, U+2019), by
    their UTF-8 bytes. *)
Definition rdquo : string :=
  String "226"%char (String "128"%char (String "157"%char EmptyString)).
Definition rsquo : string :=
  String "226"%char (String "128"%char (String "153"%char EmptyString)).

(** The seven replacements of [parseJson], in the order of its loop. *)
Definition unescape (str : string) : string :=
  let s := replace_char "010"%char "\n" str in
  let s := replace_char "034"%char rdquo s in
  let s := replace_char "013"%char "\r" s in
  let s := replace_char "009"%char "\t" s in
  let s := replace_char "011"%char "\v" s in
  let s := replace_char "'"%char rsquo s in
  replace_all_ci quote dquote O s.

End Unescape.

Section Normalizer.

(** [JSON.parse]: [None] when it throws. *)
Variable JSON_parse : string -> option value.

(** [parseJson(str, isObject)]: only a non-empty string is parsed, after
    the replacements unless [isObject]; when the parse throws, the
    result is [str] as the replacements left it. *)
Definition parseJson (str : value) (isObject : bool) : value :=
  match str with
  | VStr s =>
      if Str.non_empty s then
        let s' := if isObject then s else Unescape.unescape s in
        match JSON_parse s' with
        | Some json => json
        | None => VStr s'
        end
      else str
  | _ => str
  end.

(** [v && v.indexOf && v.indexOf(this.quote) < 0] for the cell of a
    column the schema does not declare: strings and arrays have
    [indexOf]; an own [indexOf] property of an object is no function. *)
Definition looksLikeObject (v : value) : result bool :=
  if Js.truthy v then
    match v with
    | VStr s => OK (negb (Str.contains quote s))
    | VArr items =>
        OK (negb (existsb (fun x => match x with
                                    | VStr s => String.eqb s quote
                                    | _ => false
                                    end) items))
    | VObj o =>
        match Js.lookup "indexOf" o with
        | Some f => if Js.truthy f then Throw TypeError else OK false
        | None => OK false
        end
    | _ => OK false
    end
  else OK false.

(** One cell of a row in [normalizeList]. *)
Definition normalizeCell (schema : Schema.t) (key : string) (v : value) : result value :=
  match Schema.getField schema key with
  | Some f =>
      if Field.is_object f || Field.is_to_one f
      then OK (parseJson v (Field.is_object f))
      else OK v
  | None =>
      let* isObject := looksLikeObject v in
      OK (parseJson v isObject)
  end.

Fixpoint normalizeRow (schema : Schema.t) (row : object) : result object :=
  match row with
  | [] => OK []
  | (key, v) :: rest =>
      let* v' := normalizeCell schema key v in
      let* rest' := normalizeRow schema rest in
      OK ((key, v') :: rest')
  end.

(** [normalizeList(schema, list)]: the rows of an array, each an object,
    are normalized in place; anything else is left as it is. *)
Definition normalizeList (schema : Schema.t) (list : value) : result value :=
  match list with
  | VArr rows =>
      let* rows' :=
        fold_right
          (fun row acc =>
             let* done := acc in
             match row with
             | VObj o => let* o' := normalizeRow schema o in OK (VObj o' :: done)
             | _ => OK (row :: done)
             end)
          (OK []) rows in
      OK (VArr rows')
  | _ => OK list
  end.

End Normalizer.

(** ** Promises over the mssql driver *)

(** What the driver hands to a callback: [err] and, for a statement, the
    [result] object. *)
Record reply := {
  err : value;
  result_ : object
}.

(** A transaction object is known by a number; [Statement sql t] is the
    statement text sent on the pool ([None]) or on transaction [t]. *)
Inductive event : Type :=
| Begin (t : nat)
| Commit (t : nat)
| Rollback (t : nat)
| Statement (sql : string) (t : option nat).

(** The driver's side: the replies it will give, in the order of the
    calls; what was sent to it so far; the next fresh transaction object;
    the transaction objects that carry a connection. *)
Record world := {
  replies : list reply;
  trace : list event;
  fresh : nat;
  connected : list nat
}.

(** Once the scripted replies are used up the driver answers with no
    error and an empty record set. *)
Definition quiet : reply :=
  {| err := VNull; result_ := [("recordset", VArr [])] |}.

Inductive outcome (A : Type) : Type :=
| Resolved (a : A)
| Rejected (e : error)
| Thrown (e : error)
| Exhausted.

Arguments Resolved {A} a.
Arguments Rejected {A} e.
Arguments Thrown {A} e.
Arguments Exhausted {A}.

(** A call that returns a promise (or throws before it does), run to the
    point where the promise is settled.  The driver answers its calls in
    the order it gets them.  A chain of [then]s sends one call at a
    time, and runs here as it runs on the event loop.  Promises that run
    side by side do not: see [all] and [detach] for what is kept of
    them. *)
Definition promise (A : Type) : Type := world -> outcome A * world.

Module P.

Definition resolve {A} (a : A) : promise A := fun w => (Resolved a, w).
Definition reject {A} (e : error) : promise A := fun w => (Rejected e, w).
Definition throw {A} (e : error) : promise A := fun w => (Thrown e, w).
Definition exhausted {A} : promise A := fun w => (Exhausted, w).

(** A throw inside a callback rejects the promise of [then] or [catch]. *)
Definition settle {A} (r : outcome A * world) : outcome A * world :=
  match r with
  | (Thrown e, w) => (Rejected e, w)
  | _ => r
  end.

(** [m.then(f)] *)
Definition then_ {A B} (m : promise A) (f : A -> promise B) : promise B :=
  fun w =>
    match m w with
    | (Resolved a, w') => settle (f a w')
    | (Rejected e, w') => (Rejected e, w')
    | (Thrown e, w') => (Thrown e, w')
    | (Exhausted, w') => (Exhausted, w')
    end.

(** [m.catch(h)] *)
Definition catch_ {A} (m : promise A) (h : error -> promise A) : promise A :=
  fun w =>
    match m w with
    | (Rejected e, w') => settle (h e w')
    | r => r
    end.

(** Straight-line code: the value of a throwing expression, then the rest. *)
Definition try_ {A B} (r : result A) (k : A -> promise B) : promise B :=
  match r with
  | OK a => k a
  | Throw e => throw e
  end.

(** [Promise.all(steps)].  The steps are run one after the other, each
    to its end, in the order the code starts them: a step that throws
    while it is started ends the loop that starts them; a rejected step
    does not keep the later ones from running, and the first rejection
    is the one reported.  For steps that send one statement each (the
    secondary queries of the reads) this is the order in which the
    driver gets the statements and answers them.  Steps that send
    several statements (the relation and list steps of the write
    operations) are interleaved by the event loop, and their promise is
    rejected while other steps are still sending: such a run is kept as
    the run in which each step is answered to its end before the next
    one starts.  The properties of the write operations hold for every
    list of replies and are stated on what does not depend on the order
    of the calls of different steps. *)
Fixpoint all {A} (steps : list (promise A)) : promise (list A) :=
  match steps with
  | [] => resolve []
  | step :: rest =>
      fun w =>
        match step w with
        | (Thrown e, w') => (Thrown e, w')
        | (Exhausted, w') => (Exhausted, w')
        | (Rejected e, w') =>
            match all rest w' with
            | (Thrown e', w'') => (Thrown e', w'')
            | (Exhausted, w'') => (Exhausted, w'')
            | (_, w'') => (Rejected e, w'')
            end
        | (Resolved a, w') =>
            match all rest w' with
            | (Resolved others, w'') => (Resolved (a :: others), w'')
            | (Rejected e, w'') => (Rejected e, w'')
            | (Thrown e, w'') => (Thrown e, w'')
            | (Exhausted, w'') => (Exhausted, w'')
            end
        end
  end.

(** [first.then(next)] on a chain nobody waits for, beside the chain
    [main] that is returned.  [first] is called where the code stands:
    an operation sends its first statement at once, and what it throws
    is thrown there.  [next] runs in a callback, after the first call of
    [main] is sent, and its calls are answered after that one; what
    becomes of it, a throw too, is dropped, and [main] alone settles the
    promise. *)
Definition detach {A B C} (first : promise A) (next : A -> promise B) (main : promise C)
    : promise C :=
  fun w =>
    match first w with
    | (Thrown e, w1) => (Thrown e, w1)
    | (Exhausted, w1) => (Exhausted, w1)
    | (started, w1) =>
        let (o, w2) := main w1 in
        match started with
        | Resolved a =>
            match next a w2 with
            | (Exhausted, w3) => (Exhausted, w3)
            | (_, w3) => (o, w3)
            end
        | _ => (o, w2)
        end
    end.

(** One call of the driver: the event is recorded, the next reply taken. *)
Definition call (e : event) : world -> reply * world :=
  fun w =>
    match replies w with
    | r :: rest =>
        (r, {| replies := rest; trace := trace w ++ [e];
               fresh := fresh w; connected := connected w |})
    | [] =>
        (quiet, {| replies := []; trace := trace w ++ [e];
                   fresh := fresh w; connected := connected w |})
    end.

End P.

Notation "m >>= f" := (P.then_ m f) (at level 50, left associativity).

(** [new Transaction()]: a transaction object without a connection. *)
Definition newTransaction : world -> nat * world :=
  fun w =>
    (fresh w, {| replies := replies w; trace := trace w;
                 fresh := S (fresh w); connected := connected w |}).

(** [prepareTransaction(transaction)]: a transaction that has a
    connection is returned as it is; otherwise it gets one, with its
    [commit] and [rollback], and is begun. *)
Definition prepareTransaction (transaction : option nat) : promise nat :=
  fun w =>
    let (t, w) :=
      match transaction with
      | Some t => (t, w)
      | None => newTransaction w
      end in
    if existsb (Nat.eqb t) (connected w) then (Resolved t, w)
    else
      let w := {| replies := replies w; trace := trace w;
                  fresh := fresh w; connected := t :: connected w |} in
      let (r, w) := P.call (Begin t) w in
      if Js.truthy (err r) then (Rejected (Raised (err r)), w)
      else (Resolved t, w).

(** [transaction.commit()] *)
Definition commit (t : nat) : promise value :=
  fun w =>
    let (r, w) := P.call (Commit t) w in
    if Js.truthy (err r) then (Rejected (Raised (err r)), w)
    else (Resolved (VBool true), w).

(** [transaction.rollback()]: it resolves whatever the driver answers. *)
Definition rollback (t : nat) : promise value :=
  fun w =>
    let (_, w) := P.call (Rollback t) w in
    (Resolved (VBool true), w).

(** [result.recordset || result.output || result] *)
Definition recordsOf (result : object) : value :=
  match Js.lookup "recordset" result with
  | Some v => if Js.truthy v then v else
      match Js.lookup "output" result with
      | Some o => if Js.truthy o then o else VObj result
      | None => VObj result
      end
  | None =>
      match Js.lookup "output" result with
      | Some o => if Js.truthy o then o else VObj result
      | None => VObj result
      end
  end.

(** The statement itself, on the pool or on a transaction's connection. *)
Definition send (sql : string) (t : option nat) : promise value :=
  fun w =>
    let (r, w) := P.call (Statement sql t) w in
    if Js.truthy (err r) then (Rejected (Raised (err r)), w)
    else (Resolved (recordsOf (result_ r)), w).

(** [query(query, data, transaction)]; [data] is never looked at. *)
Definition query (sql : string) (transaction : option nat) : promise value :=
  match transaction with
  | None => send sql None
  | Some t => prepareTransaction (Some t) >>= (fun t => send sql (Some t))
  end.

(** ** Equality and arrays of rows *)

Module Rows.

(** [a == b].  Two objects are equal only when they are the same object;
    the cells compared here are never the same object. *)
Definition loose_eq (a b : value) : bool :=
  match a, b with
  | (VUndefined | VNull), (VUndefined | VNull) => true
  | (VUndefined | VNull), _ => false
  | _, (VUndefined | VNull) => false
  | (VArr _ | VObj _), (VArr _ | VObj _) => false
  | _, _ =>
      let primitive v :=
        match v with
        | VArr _ | VObj _ => VStr (Js.to_string v)
        | _ => v
        end in
      match primitive a, primitive b with
      | VStr x, VStr y => String.eqb x y
      | x, y =>
          match Js.to_number x, Js.to_number y with
          | VNum n, VNum m => n =? m
          | _, _ => false
          end
      end
  end.

(** The elements a loop [for (i = list.length; i--;)] visits, first to
    last: those of an array; any other value has no such length. *)
Definition items (rows : value) : list value :=
  match rows with
  | VArr l => l
  | _ => []
  end.

(** [ids.push(list[i][key])] for [i] from the last row down. *)
Fixpoint column (key : string) (rows : list value) : result (list value) :=
  match rows with
  | [] => OK []
  | row :: rest =>
      let* others := column key rest in
      let* v := of_option (Js.get row key) in
      OK (others ++ [v])%list
  end.

(** [row[key] = v] on a row of the driver, an object. *)
Definition assign (row : value) (key : string) (v : value) : result value :=
  match row with
  | VObj o => OK (VObj (Js.set key v o))
  | _ => Throw TypeError
  end.

End Rows.

(** ** The relationship fan-out and [findByQuery] *)

Record IQueryResult := {
  items : value;
  total : value
}.

Definition indent16 : string := "                ".

Section Reader.

Variable models : list Schema.t.
Variable JSON_parse : string -> option value.

(** [this.schemaList[query.model].getFields()[relationName].properties.relation]
    with the schema of [relation.model]. *)
Definition relationOf (model relationName : string)
    : result (Field.t * Relationship * Schema.t) :=
  let* schema := of_option (schemaOf models model) in
  let* field := of_option (Schema.getField schema relationName) in
  let* relationship := of_option (Field.relation field) in
  let* related := of_option (schemaOf models (rel_model relationship)) in
  OK (field, relationship, related).

(** The column list of a secondary query: [*], or the requested fields
    each behind [m.]. *)
Definition relatedColumns (request : Vql.relation_request) : string :=
  match request with
  | Vql.Name _ => "*"
  | Vql.WithFields _ wanted => Str.join "," (map (fun f => "m." ++ f) wanted)
  end.

(** [runRelatedQuery(query, i, ids, transaction)] *)
Definition runRelatedQuery (query_ : Vql.t) (request : Vql.relation_request)
    (ids : list value) (transaction : option nat) : promise (string * value) :=
  let relationName := Vql.relation_name request in
  P.try_
    (let* (_, _, related) := relationOf (Vql.model query_) relationName in
     let* leftKey := camelCase (Vql.model query_) in
     let* rightKey := camelCase (Schema.name related) in
     let* table := pascalCase relationName in
     let* key := pk models (Schema.name related) in
     OK ("SELECT " ++ relatedColumns request ++ ",r." ++ leftKey ++ ",r." ++ rightKey
         ++ "  FROM `" ++ Schema.name related ++ "` m " ++ newline ++ indent16
         ++ "LEFT JOIN `" ++ Vql.model query_ ++ "Has" ++ table ++ "` r " ++ newline
         ++ indent16 ++ "ON (m." ++ key ++ " = r." ++ rightKey ++ ") " ++ newline
         ++ indent16 ++ "WHERE r." ++ leftKey ++ " IN (?)"))
    (fun sql =>
       query sql transaction >>= (fun relatedList => P.resolve (relationName, relatedList))).

(** [runReverseQueryOne2Many(query, i, ids, reverseField, transaction)] *)
Definition runReverseQueryOne2Many (query_ : Vql.t) (request : Vql.relation_request)
    (ids : list value) (reverseField : Field.t) (transaction : option nat)
    : promise (string * value) :=
  let relationName := Vql.relation_name request in
  P.try_
    (let* (_, _, related) := relationOf (Vql.model query_) relationName in
     let fields :=
       match request with
       | Vql.Name _ => ["*"]
       | Vql.WithFields _ wanted => wanted
       end in
     let* leftKey := camelCase (Vql.model query_) in
     let* rightKey := camelCase (Schema.name related) in
     let* key := pk models (Schema.name related) in
     OK ("SELECT "
         ++ Str.join "," (fields ++ [Field.fieldName reverseField ++ " as " ++ leftKey;
                                     key ++ " as " ++ rightKey])
         ++ " FROM " ++ Schema.name related ++ " WHERE " ++ Field.fieldName reverseField
         ++ " IN (?)"))
    (fun sql =>
       query sql transaction >>= (fun rows => P.resolve (relationName, rows))).

(** [runRelatedQueryMany2Many(query, i, ids, reverseField, transaction)] *)
Definition runRelatedQueryMany2Many (query_ : Vql.t) (request : Vql.relation_request)
    (ids : list value) (reverseField : Field.t) (transaction : option nat)
    : promise (string * value) :=
  let relationName := Vql.relation_name request in
  P.try_
    (let* (_, _, related) := relationOf (Vql.model query_) relationName in
     let* leftKey := camelCase (Vql.model query_) in
     let* rightKey := camelCase (Schema.name related) in
     let* table := pascalCase (Field.fieldName reverseField) in
     let* key := pk models (Vql.model query_) in
     OK ("SELECT " ++ relatedColumns request ++ ",r." ++ leftKey ++ ",r." ++ rightKey
         ++ "  FROM `" ++ Schema.name related ++ "` m " ++ newline ++ indent16
         ++ "LEFT JOIN `" ++ Schema.name related ++ "Has" ++ table ++ "` r " ++ newline
         ++ indent16 ++ "ON (m." ++ key ++ " = r." ++ rightKey ++ ") " ++ newline
         ++ indent16 ++ "WHERE r." ++ leftKey ++ " IN (?)"))
    (fun sql =>
       query sql transaction >>= (fun relatedList => P.resolve (relationName, relatedList))).

(** [getReverseRelation(query, field)]: the first relation field of the
    related model that points back at the query's model. *)
Definition getReverseRelation (query_ : Vql.t) (related : Schema.t) : option Field.t :=
  find (fun f =>
          match Field.relation f with
          | Some r => String.eqb (rel_model r) (Vql.model query_)
          | None => false
          end)
       (Schema.fields related).

(** One turn of the loop over [query.relations]: the secondary query it
    starts, if any. *)
Definition relatedQuery (query_ : Vql.t) (ids : list value) (transaction : option nat)
    (request : Vql.relation_request) : promise (option (string * value)) :=
  P.try_ (relationOf (Vql.model query_) (Vql.relation_name request))
    (fun '(_, relationship, related) =>
       match rel_type relationship with
       | Many2Many =>
           runRelatedQuery query_ request ids transaction
           >>= (fun r => P.resolve (Some r))
       | Reverse =>
           P.try_ (of_option (getReverseRelation query_ related))
             (fun reverseField =>
                match Field.relation reverseField with
                | Some back =>
                    match rel_type back with
                    | One2Many | One2One =>
                        runReverseQueryOne2Many query_ request ids reverseField transaction
                        >>= (fun r => P.resolve (Some r))
                    | Many2Many =>
                        runRelatedQueryMany2Many query_ request ids reverseField transaction
                        >>= (fun r => P.resolve (Some r))
                    | Reverse => P.resolve None
                    end
                | None => P.resolve None
                end)
       | One2One | One2Many => P.resolve None
       end).

(** What the merge does to a related row it attaches: the related
    primary key takes the value of the right junction key, and both
    junction keys are deleted. *)
Definition strip (leftKey rightKey relatedPk : string) (relatedData : value) : value :=
  match relatedData with
  | VObj o =>
      VObj (Js.delete leftKey
              (Js.delete rightKey
                 (Js.set relatedPk
                    (match Js.lookup rightKey o with Some v => v | None => VUndefined end)
                    o)))
  | _ => relatedData
  end.

(** The inner loop for one primary row, [j] from the last related row
    down: the related rows as the loop leaves them, and the positions of
    the rows it pushed, in the order of the pushes.  The related rows are
    objects shared with every list they were pushed to. *)
Fixpoint takeMatching (leftKey rightKey relatedPk : string) (id : value)
    (relatedRows : list value) (j : nat) : result (list value * list nat) :=
  match relatedRows with
  | [] => OK ([], [])
  | relatedData :: rest =>
      let* (rest', taken) := takeMatching leftKey rightKey relatedPk id rest (S j) in
      let* key := of_option (Js.get relatedData leftKey) in
      if Rows.loose_eq id key
      then OK (strip leftKey rightKey relatedPk relatedData :: rest', (taken ++ [j])%list)
      else OK (relatedData :: rest', taken)
  end.

(** The loop over the primary rows, [k] from the last row down. *)
Fixpoint attach (primaryKey leftKey rightKey relatedPk : string)
    (rows relatedRows : list value) : result (list (value * list nat) * list value) :=
  match rows with
  | [] => OK ([], relatedRows)
  | row :: rest =>
      let* (rest', relatedRows1) :=
        attach primaryKey leftKey rightKey relatedPk rest relatedRows in
      let* id := of_option (Js.get row primaryKey) in
      let* (relatedRows2, taken) :=
        takeMatching leftKey rightKey relatedPk id relatedRows1 0 in
      OK ((row, taken) :: rest', relatedRows2)
  end.

(** The merge of one secondary result into the primary rows: every row
    gets the array of the related rows it pushed, as they are at the end. *)
Definition mergeRelation (model : string) (rows : list value) (related : string)
    (relatedList : value) : result (list value) :=
  let* leftKey := camelCase model in
  let* (_, _, relatedSchema) := relationOf model related in
  let* rightKey := camelCase (Schema.name relatedSchema) in
  match rows with
  | [] => OK []
  | _ =>
      let* primaryKey := pk models model in
      let* relatedPk := pk models (Schema.name relatedSchema) in
      let* (taken, final) :=
        attach primaryKey leftKey rightKey relatedPk rows (Rows.items relatedList) in
      fold_right
        (fun '(row, positions) acc =>
           let* done := acc in
           let* row' :=
             Rows.assign row related
               (VArr (map (fun j => nth j final VUndefined) positions)) in
           OK (row' :: done))
        (OK []) taken
  end.

Fixpoint mergeRelations (model : string) (rows : list value)
    (data : list (string * value)) : result (list value) :=
  match data with
  | [] => OK rows
  | (related, relatedList) :: rest =>
      let* rows' := mergeRelation model rows related relatedList in
      mergeRelations model rows' rest
  end.

Fixpoint somes {A} (l : list (option A)) : list A :=
  match l with
  | [] => []
  | Some a :: rest => a :: somes rest
  | None :: rest => somes rest
  end.

(** [getManyToManyRelation(list, query, transaction)] *)
Definition getManyToManyRelation (rows : value) (query_ : Vql.t)
    (transaction : option nat) : promise value :=
  P.try_
    (match Rows.items rows with
     | [] => OK []
     | _ => let* key := pk models (Vql.model query_) in Rows.column key (Rows.items rows)
     end)
    (fun ids =>
       match ids, Vql.relations query_ with
       | _ :: _, _ :: _ =>
           fun w =>
             match P.all (map (relatedQuery query_ ids transaction)
                              (rev (Vql.relations query_))) w with
             | (Resolved started, w') =>
                 match somes started with
                 | [] => (Resolved rows, w')
                 | data =>
                     P.settle
                       (P.try_ (mergeRelations (Vql.model query_) (Rows.items rows) (rev data))
                          (fun merged => P.resolve (VArr merged)) w')
                 end
             | (Rejected e, w') => (Rejected e, w')
             | (Thrown e, w') => (Thrown e, w')
             | (Exhausted, w') => (Exhausted, w')
             end
       | _, _ => P.resolve rows
       end).

(** The table of a list field: [model + pascalCase(list) + 'List']. *)
Definition listTableName (model listName : string) : result string :=
  let* suffix := pascalCase listName in
  OK (model ++ suffix ++ "List").

(** [runListQuery(listName)] inside [getLists] *)
Definition runListQuery (model : string) (ids : list value) (transaction : option nat)
    (listName : string) : promise (string * value) :=
  P.try_ (listTableName model listName)
    (fun name =>
       query ("SELECT * FROM [" ++ name ++ "] WHERE [fk] IN (" ++ Js.join "," ids ++ ")")
             transaction
       >>= (fun listsData => P.resolve (listName, listsData))).

(** [listJson[id]]: the row stored last under the key, the first row of
    the list whose primary key prints as [id] does. *)
Fixpoint rowIndex (keys : list value) (id : value) (i : nat) : option nat :=
  match keys with
  | [] => None
  | key :: rest =>
      if String.eqb (Js.to_string key) (Js.to_string id) then Some i
      else rowIndex rest id (S i)
  end.

Fixpoint update {A} (i : nat) (f : A -> result A) (l : list A) : result (list A) :=
  match l, i with
  | [], _ => Throw TypeError
  | x :: rest, O => let* x' := f x in OK (x' :: rest)
  | x :: rest, S i' => let* rest' := update i' f rest in OK (x :: rest')
  end.

(** [listJson[id][listName] = listJson[id][listName] || []; ....push(value)] *)
Definition pushListValue (listName : string) (v : value) (row : value) : result value :=
  let* current := of_option (Js.get row listName) in
  let* array :=
    if Js.truthy current then
      match current with
      | VArr l => OK l
      | _ => Throw TypeError
      end
    else OK [] in
  Rows.assign row listName (VArr (array ++ [v])).

(** The rows of one list table merged in, [k] from the last one down;
    [keys] are the primary keys of the rows, first row first. *)
Definition mergeList (keys : list value) (rows : list value) (listName : string)
    (listData : value) : result (list value) :=
  fold_left
    (fun acc item =>
       let* rows := acc in
       let* id := of_option (Js.get item "fk") in
       let* i := of_option (rowIndex keys id 0) in
       let* v := of_option (Js.get item "value") in
       update i (pushListValue listName v) rows)
    (rev (Rows.items listData)) (OK rows).

(** [getLists(list, query, transaction)], with the rows as they were
    when it was called ([snapshot]: the keys are read then) and the rows
    as they are when its queries are answered ([rows]). *)
Definition getListsOver (snapshot rows : value) (query_ : Vql.t)
    (transaction : option nat) : promise value :=
  P.try_
    (let* primaryKey := pk models (Vql.model query_) in
     let* ids := Rows.column primaryKey (Rows.items snapshot) in
     match ids with
     | [] => OK (ids, [])
     | _ =>
         let* schema := of_option (schemaOf models (Vql.model query_)) in
         OK (ids,
             filter
               (fun f =>
                  Field.is_list f &&
                  match Vql.fields query_ with
                  | [] => true
                  | selected =>
                      existsb (fun x => match x with
                                        | inl c => String.eqb c (Field.fieldName f)
                                        | inr _ => false
                                        end) selected
                  end)
               (Schema.fields schema))
     end)
    (fun '(ids, lists) =>
       match lists with
       | [] => P.resolve rows
       | _ =>
           P.all (map (fun f => runListQuery (Vql.model query_) ids transaction
                                             (Field.fieldName f)) lists)
           >>= (fun data =>
                  P.try_
                    (fold_left
                       (fun acc '(listName, listData) =>
                          let* rows := acc in
                          mergeList (rev ids) rows listName listData)
                       (rev data) (OK (Rows.items rows)))
                    (fun merged => P.resolve (VArr merged)))
       end).

Definition getLists (rows : value) (query_ : Vql.t) (transaction : option nat)
    : promise value :=
  getListsOver rows rows query_ transaction.

(** The text of the primary SELECT. *)
Definition selectStatement (query_ : Vql.t) (params : ICalculatedQueryOptions.t) : string :=
  let condition :=
    if Str.non_empty (ICalculatedQueryOptions.condition params)
    then "WHERE " ++ ICalculatedQueryOptions.condition params else "" in
  let orderBy :=
    if Str.non_empty (ICalculatedQueryOptions.orderBy params)
    then "ORDER BY " ++ ICalculatedQueryOptions.orderBy params else "" in
  "SELECT " ++ ICalculatedQueryOptions.fields params ++ " FROM [" ++ Vql.model query_
  ++ "] " ++ ICalculatedQueryOptions.join params ++ " " ++ condition ++ " " ++ orderBy
  ++ " " ++ ICalculatedQueryOptions.limit params.

(** [result.items.length] *)
Definition lengthOf (v : value) : result value :=
  of_option (Js.get v "length").

(** The chain of [findByQuery] before its [catch], from the promise of
    its primary query on: the two fan-outs side by side on the same
    rows, the normalizer. *)
Definition findByQuery_from (primary : promise value) (query_ : Vql.t)
    (transaction : option nat) : promise (option IQueryResult) :=
  primary
  >>= (fun rows w =>
         match getManyToManyRelation rows query_ transaction w with
         | (Resolved merged, w') => getListsOver rows merged query_ transaction w'
         | (Rejected e, w') =>
             match getListsOver rows rows query_ transaction w' with
             | (Thrown e', w'') => (Thrown e', w'')
             | (Exhausted, w'') => (Exhausted, w'')
             | (_, w'') => (Rejected e, w'')
             end
         | (Thrown e, w') => (Thrown e, w')
         | (Exhausted, w') => (Exhausted, w')
         end)
  >>= (fun rows =>
         P.try_
           (let* schema := of_option (schemaOf models (Vql.model query_)) in
            let* normalized := normalizeList JSON_parse schema rows in
            let* count := lengthOf normalized in
            OK {| items := normalized; total := count |})
           (fun result => P.resolve (Some result))).

(** The chain of [findByQuery] before its [catch]: the primary query and
    what follows it. *)
Definition findByQuery_chain (query_ : Vql.t) (params : ICalculatedQueryOptions.t)
    (transaction : option nat) : promise (option IQueryResult) :=
  findByQuery_from (query (selectStatement query_ params) transaction) query_ transaction.

(** The handler of the [catch] of [findByQuery]: a truthy reason is
    wrapped and rejected again; for any other reason the handler returns
    nothing, and the promise is fulfilled with [undefined]. *)
Definition findByQuery_catch (err_ : error) : promise (option IQueryResult) :=
  if error_truthy err_ then P.reject (DatabaseError DBQuery err_)
  else P.resolve None.

(** [findByQuery(query, transaction)] *)
Definition findByQuery (query_ : Vql.t) (transaction : option nat)
    : promise (option IQueryResult) :=
  P.try_ (getQueryParams models query_ (Vql.model query_))
    (fun params =>
       P.catch_ (findByQuery_chain query_ params transaction) findByQuery_catch).

(** [option]: the [IQueryOption] of [findById]. *)
Record IQueryOption := {
  opt_fields : list (string + Vql.t);
  opt_relations : list Vql.relation_request;
  opt_orderBy : list Vql.order
}.

Definition noOption : IQueryOption :=
  {| opt_fields := []; opt_relations := []; opt_orderBy := [] |}.

(** The query of [findById]: a fresh [Vql] on the model (no offset,
    first page), the primary key compared with [id], limited to one
    row. *)
Definition findByIdQuery (model key : string) (id : value) (option_ : IQueryOption)
    : Vql.t :=
  {| Vql.model := model;
     Vql.fields := opt_fields option_;
     Vql.condition :=
       Some (Leaf None EqualTo
               (Some {| field := key; cvalue := id; isValueOfTypeField := false |}));
     Vql.orderBy := opt_orderBy option_;
     Vql.limit := 1;
     Vql.offset := 0;
     Vql.page := 1;
     Vql.relations := opt_relations option_;
     Vql.joins := [] |}.

(** [findById(model, id, option, transaction)] *)
Definition findById (model : string) (id : value) (option_ : IQueryOption)
    (transaction : option nat) : promise (option IQueryResult) :=
  P.try_ (pk models model)
    (fun key => findByQuery (findByIdQuery model key id option_) transaction).

End Reader.

(** ** A reference [JSON.parse]

    The properties below hold for every function in the place of
    [JSON.parse]; their examples run with this one.  It reads the JSON
    texts whose numbers are integers and whose escapes denote ASCII
    characters, and rejects every other text. *)

Module Json.

Definition is_ws (c : ascii) : bool :=
  let n := nat_of_ascii c in
  ((n =? 32) || (n =? 9) || (n =? 10) || (n =? 13))%nat.

Fixpoint skip_ws (s : string) : string :=
  match s with
  | String c s' => if is_ws c then skip_ws s' else s
  | EmptyString => EmptyString
  end.

Definition hex (c : ascii) : option nat :=
  let n := nat_of_ascii c in
  if ((48 <=? n) && (n <=? 57))%nat then Some (n - 48)%nat
  else if ((65 <=? n) && (n <=? 70))%nat then Some (n - 55)%nat
  else if ((97 <=? n) && (n <=? 102))%nat then Some (n - 87)%nat
  else None.

(** The characters of a string literal after its opening quote, and the
    text after its closing quote. *)
Fixpoint string_body (s : string) : option (string * string) :=
  match s with
  | EmptyString => None
  | String "034" rest => Some (EmptyString, rest)
  | String "\" (String "u" (String a (String b (String c (String d rest))))) =>
      match hex a, hex b, hex c, hex d with
      | Some 0%nat, Some 0%nat, Some h, Some l =>
          if (h <? 8)%nat then
            match string_body rest with
            | Some (body, after) => Some (String (ascii_of_nat (16 * h + l)) body, after)
            | None => None
            end
          else None
      | _, _, _, _ => None
      end
  | String "\" (String e rest) =>
      let unescaped :=
        match e with
        | "034"%char => Some "034"%char
        | "\"%char => Some "\"%char
        | "/"%char => Some "/"%char
        | "b"%char => Some "008"%char
        | "f"%char => Some "012"%char
        | "n"%char => Some "010"%char
        | "r"%char => Some "013"%char
        | "t"%char => Some "009"%char
        | _ => None
        end in
      match unescaped, string_body rest with
      | Some c, Some (body, after) => Some (String c body, after)
      | _, _ => None
      end
  | String c rest =>
      if (nat_of_ascii c <? 32)%nat then None
      else match string_body rest with
           | Some (body, after) => Some (String c body, after)
           | None => None
           end
  end.

Fixpoint digits (acc : Z) (s : string) : Z * string :=
  match s with
  | String c s' =>
      if Js.is_digit c then digits (10 * acc + Z.of_nat (nat_of_ascii c - 48)) s'
      else (acc, s)
  | EmptyString => (acc, s)
  end.

(** An integer without leading zeros; a fraction or an exponent is
    rejected. *)
Definition number (s : string) : option (Z * string) :=
  let integer (t : string) : option (Z * string) :=
    match t with
    | String "0" rest => Some (0, rest)
    | String c _ => if Js.is_digit c then Some (digits 0 t) else None
    | EmptyString => None
    end in
  let whole :=
    match s with
    | String "-" rest =>
        match integer rest with
        | Some (n, after) => Some (- n, after)
        | None => None
        end
    | _ => integer s
    end in
  match whole with
  | Some (n, String c after) =>
      if Js.is_digit c || Ascii.eqb c "." || Ascii.eqb c "e" || Ascii.eqb c "E"
      then None else Some (n, String c after)
  | other => other
  end.

Fixpoint value_ (fuel : nat) (s : string) {struct fuel} : option (value * string) :=
  match fuel with
  | O => None
  | S fuel =>
      match skip_ws s with
      | String "{" rest =>
          match skip_ws rest with
          | String "}" after => Some (VObj [], after)
          | members => members_ fuel [] members
          end
      | String "[" rest =>
          match skip_ws rest with
          | String "]" after => Some (VArr [], after)
          | elements => elements_ fuel [] elements
          end
      | String "034" rest =>
          match string_body rest with
          | Some (body, after) => Some (VStr body, after)
          | None => None
          end
      | t =>
          if prefix "true" t then Some (VBool true, Str.drop 4 t)
          else if prefix "false" t then Some (VBool false, Str.drop 5 t)
          else if prefix "null" t then Some (VNull, Str.drop 4 t)
          else match number t with
               | Some (n, after) => Some (VNum n, after)
               | None => None
               end
      end
  end
with elements_ (fuel : nat) (acc : list value) (s : string) {struct fuel}
    : option (value * string) :=
  match fuel with
  | O => None
  | S fuel =>
      match value_ fuel s with
      | Some (v, after) =>
          match skip_ws after with
          | String "," rest => elements_ fuel (acc ++ [v]) rest
          | String "]" rest => Some (VArr (acc ++ [v]), rest)
          | _ => None
          end
      | None => None
      end
  end
with members_ (fuel : nat) (acc : object) (s : string) {struct fuel}
    : option (value * string) :=
  match fuel with
  | O => None
  | S fuel =>
      match skip_ws s with
      | String "034" rest =>
          match string_body rest with
          | Some (key, after) =>
              match skip_ws after with
              | String ":" rest' =>
                  match value_ fuel rest' with
                  | Some (v, after') =>
                      match skip_ws after' with
                      | String "," more => members_ fuel (Js.set key v acc) more
                      | String "}" more => Some (VObj (Js.set key v acc), more)
                      | _ => None
                      end
                  | None => None
                  end
              | _ => None
              end
          | None => None
          end
      | _ => None
      end
  end.

Definition parse (text : string) : option value :=
  match value_ (S (String.length text)) text with
  | Some (v, after) =>
      match skip_ws after with
      | EmptyString => Some v
      | _ => None
      end
  | None => None
  end.

End Json.

(** ** A small registry for the examples: a blog *)

Module Blog.

Definition column (name : string) (type : FieldType) : Field.t :=
  {| Field.fieldName := name; Field.type := type; Field.primary := false |}.

Definition key (name : string) : Field.t :=
  {| Field.fieldName := name; Field.type := TInteger; Field.primary := true |}.

Definition to (model : string) (kind : RelationType) : FieldType :=
  TRelation {| rel_model := model; rel_type := kind; isWeek := false |}.

Definition User : Schema.t :=
  {| Schema.name := "User";
     Schema.fields := [key "id"; column "name" TString; column "posts" (to "Post" Reverse)] |}.

Definition Tag : Schema.t :=
  {| Schema.name := "Tag";
     Schema.fields := [key "id"; column "label" TString] |}.

Definition Post : Schema.t :=
  {| Schema.name := "Post";
     Schema.fields :=
       [key "id"; column "title" TString; column "meta" TObject;
        column "author" (to "User" One2One); column "tags" (to "Tag" Many2Many);
        column "notes" TList] |}.

Definition models : list Schema.t := [User; Tag; Post].

(** A query on [model] with everything else at the defaults of [Vql]. *)
Definition select (model : string) : Vql.t :=
  {| Vql.model := model; Vql.fields := []; Vql.condition := None; Vql.orderBy := [];
     Vql.limit := 0; Vql.offset := 0; Vql.page := 1; Vql.relations := [];
     Vql.joins := [] |}.

Definition compare (operator : ComparisonOp) (name : string) (v : value) : Condition :=
  Leaf None operator (Some {| field := name; cvalue := v; isValueOfTypeField := false |}).

(** A reply of the driver with a record set, and one with an error. *)
Definition rows (l : list value) : reply :=
  {| err := VNull; result_ := [("recordset", VArr l)] |}.

Definition failure (message : string) : reply :=
  {| err := VObj [("message", VStr message)]; result_ := [] |}.

(** The driver before any call, with the replies it is going to give. *)
Definition driver (script : list reply) : world :=
  {| replies := script; trace := []; fresh := 0; connected := [] |}.

End Blog.

(** ** The write pipeline *)

(** An instance of a model class: the schema of its class and its own
    values.  vesta's [Model] copies, for every field of the schema, the
    value given to the constructor unless it is [undefined], and prints
    as [[object Object]]. *)
Module Model.
Record t := {
  schema : string;
  values : object
}.

(** [model[key]] *)
Definition get (m : t) (key : string) : value :=
  match Js.lookup key (values m) with
  | Some v => v
  | None => VUndefined
  end.

(** [model[key] = v] *)
Definition set (m : t) (key : string) (v : value) : t :=
  {| schema := schema m; values := Js.set key v (values m) |}.

Definition to_string (m : t) : string := "[object Object]".
End Model.

Record IUpsertResult := { upserted : value }.
Record IDeleteResult := { deleted : value }.

(** [getAnalysedValue]: the plain properties, the relation values and
    the list values of a value object. *)
Record AnalysedValue := {
  properties : list (string * value);
  relations : object;
  lists : object
}.

(** The condition argument of [removeRelation]. *)
Inductive Removal : Type :=
| NoCondition
| ById (id : value)
| ByIds (ids : list value)
| ByCondition (condition : Condition).

Definition indent20 : string := "                    ".

Section Writer.

Variable models : list Schema.t.
Variable JSON_parse : string -> option value.

(** [JSON.stringify] *)
Variable JSON_stringify : value -> value.

(** [new this.models[model](init)] *)
Definition newModel (model : string) (init : value) : result Model.t :=
  let* schema := of_option (schemaOf models model) in
  OK {| Model.schema := Schema.name schema;
        Model.values :=
          flat_map
            (fun name =>
               match init with
               | VObj o =>
                   match Js.lookup name o with
                   | Some VUndefined | None => []
                   | Some v => [(name, v)]
                   end
               | _ => []
               end)
            (Schema.getFieldsNames schema) |}.

(** [getAnalysedValue(model, value)] *)
Definition getAnalysedValue (model : string) (val : value) : result AnalysedValue :=
  let* schema := of_option (schemaOf models model) in
  OK (fold_left
        (fun acc '(key, v) =>
           match Schema.getField schema key, v with
           | None, _ => acc
           | _, VUndefined => acc
           | Some f, _ =>
               match Field.type f with
               | TRelation _ =>
                   {| properties := properties acc;
                      relations := Js.set key v (relations acc);
                      lists := lists acc |}
               | TList =>
                   {| properties := properties acc;
                      relations := relations acc;
                      lists := Js.set key v (lists acc) |}
               | TObject =>
                   {| properties := properties acc ++ [(key, JSON_stringify v)];
                      relations := relations acc;
                      lists := lists acc |}
               | _ =>
                   {| properties := properties acc ++ [(key, v)];
                      relations := relations acc;
                      lists := lists acc |}
               end
           end)
        (match val with VObj o => o | _ => [] end)
        {| properties := []; relations := []; lists := [] |}).

(** [list[i]] for an index of an array. *)
Definition at_ (rows : value) (i : nat) : value :=
  match rows with
  | VArr l => nth i l VUndefined
  | VObj o => match Js.lookup (Str.of_Z (Z.of_nat i)) o with Some v => v | None => VUndefined end
  | _ => VUndefined
  end.

(** [addList(model, list, value, transaction)] *)
Definition addList (model : Model.t) (listName : string) (val : value)
    (transaction : option nat) : promise value :=
  let modelName := Model.schema model in
  match val with
  | VArr ((_ :: _) as entries) =>
      P.try_
        (let* key := pk models modelName in
         let* values :=
           fold_right
             (fun entry acc =>
                let* rest := acc in
                let* escaped := escape entry in
                OK (("(" ++ Js.to_string (Model.get model key) ++ " , "
                     ++ Js.to_string escaped ++ ")") :: rest))
             (OK []) entries in
         let* table := listTableName modelName listName in
         OK ("INSERT INTO " ++ table ++ " ([fk],[value]) VALUES " ++ Str.join "," values))
        (fun sql => query sql transaction)
  | VStr (String _ _) => P.throw TypeError
  | _ => P.resolve (VArr [])
  end.

(** [updateList(model, list, value, transaction)] *)
Definition updateList (model : Model.t) (listName : string) (val : value)
    (transaction : option nat) : promise value :=
  let modelName := Model.schema model in
  P.try_
    (let* table := listTableName modelName listName in
     let* key := pk models modelName in
     OK ("DELETE FROM " ++ table ++ " WHERE fk = " ++ Js.to_string (Model.get model key)))
    (fun sql =>
       query sql transaction >>= (fun _ => addList model listName val transaction)).

(** The columns of a bulk insert: every field but the relations that are
    not to-one, the primary key only if the first value has one. *)
Definition insertColumns (schema : Schema.t) (key : string) (vals : list value)
    : result (list Field.t) :=
  fold_right
    (fun f acc =>
       let* rest := acc in
       if negb (Field.is_relation f) || Field.is_to_one f then
         if negb (String.eqb (Field.fieldName f) key) then OK (f :: rest)
         else
           let* first := of_option (Js.get (nth 0 vals VUndefined) key) in
           OK (if Js.truthy first then f :: rest else rest)
       else OK rest)
    (OK []) (Schema.fields schema).

(** One cell of a bulk insert. *)
Definition insertCell (f : Field.t) (item : value) : result string :=
  let* own :=
    match item with
    | VUndefined | VNull => Throw TypeError
    | VObj o => OK (Js.lookup (Field.fieldName f) o)
    | _ => OK None
    end in
  match Field.type f, own with
  | TObject, Some v => let* e := escape (JSON_stringify v) in OK (Js.to_string e)
  | TObject, None => OK "''"
  | _, Some v => let* e := escape v in OK (Js.to_string e)
  | (TNumber | TInteger | TTimestamp | TRelation _ | TEnum), None => OK "0"
  | _, None => OK "''"
  end.

Definition insertRow (columns : list Field.t) (item : value) : result string :=
  let* cells :=
    fold_right
      (fun f acc => let* rest := acc in let* c := insertCell f item in OK (c :: rest))
      (OK []) columns in
  OK ("(" ++ Str.join "," cells ++ ")").

(** [insertAll(model, value, transaction)] *)
Definition insertAll (model : string) (vals : list value) (transaction : option nat)
    : promise IUpsertResult :=
  P.try_
    (let* schema := of_option (schemaOf models model) in
     let* key := pk models model in
     let* columns := insertColumns schema key vals in
     let* insertList :=
       fold_right
         (fun item acc =>
            let* rest := acc in
            let* row := insertRow columns item in
            OK (rest ++ [row])%list)
         (OK []) vals in
     OK (columns, insertList))
    (fun '(columns, insertList) =>
       match insertList with
       | [] => P.resolve {| upserted := VArr [] |}
       | _ =>
           P.catch_
             (query ("INSERT INTO " ++ model ++ " ("
                     ++ Str.join "," (map Field.fieldName columns) ++ ") VALUES "
                     ++ Str.join "," insertList) transaction
              >>= (fun insertResult => P.resolve {| upserted := insertResult |}))
             (fun err_ => P.reject (Err DBInsert err_))
       end).

End Writer.

Section Relations.

Variable models : list Schema.t.
Variable JSON_parse : string -> option value.
Variable JSON_stringify : value -> value.

(** [this.insertOne] and [this.deleteOne], as the relation primitives
    call them back. *)
Variable insertOne : string -> value -> option nat -> promise IUpsertResult.
Variable deleteOne : string -> value -> option nat -> promise IDeleteResult.

(** [typeof value == 'object'] *)
Definition isObjectType (v : value) : bool :=
  match Js.typeof v with Js.TObject => true | _ => false end.

(** [+value === 0] *)
Definition isZero (v : value) : bool :=
  match Js.to_number v with VNum 0 => true | _ => false end.

(** [id < 0] *)
Definition isNegative (v : value) : bool :=
  match v with VNum n => n <? 0 | _ => false end.

(** [+value > 0] *)
Definition isPositive (v : value) : bool :=
  match Js.to_number v with VNum n => 0 <? n | _ => false end.

(** [addOneToManyRelation(model, relation, value, transaction)] *)
Definition addOneToManyRelation (model : Model.t) (relation : string) (val : value)
    (transaction : option nat) : promise IUpsertResult :=
  let modelName := Model.schema model in
  P.try_
    (let* (_, relationship, related) := relationOf models modelName relation in
     let* key := pk models (Schema.name related) in
     let* insertFirst :=
       if isWeek relationship && isObjectType val
       then let* own := of_option (Js.get val key) in OK (negb (Js.truthy own))
       else OK false in
     OK (Schema.name related, key, insertFirst))
    (fun '(relatedModelName, key, insertFirst) =>
       let update (readIdPromise : promise value) : promise IUpsertResult :=
         P.catch_
           (readIdPromise
            >>= (fun id =>
                   query ("UPDATE [" ++ modelName ++ "] SET [" ++ relation ++ "] = '"
                          ++ Js.to_string id ++ "' WHERE " ++ key ++ "='"
                          ++ Js.to_string (Model.get model key) ++ "' ") transaction)
            >>= (fun updateResult => P.resolve {| upserted := updateResult |}))
           (fun err_ => P.reject (Err DBUpdate err_)) in
       if insertFirst then
         update (insertOne relatedModelName val transaction
                 >>= (fun result =>
                        P.try_ (of_option (Js.get (at_ (upserted result) 0) key)) P.resolve))
       else
         P.try_
           (if Js.truthy (Js.to_number val) || isZero val then OK (Js.to_number val)
            else if isObjectType val
                 then let* v := of_option (Js.get val key) in OK (Js.to_number v)
                 else OK (VNum 0))
           (fun id =>
              if isNegative id
              then P.reject (JsError ("invalid <<" ++ relation ++ ">> related model id"))
              else update (P.resolve id))).

(** The ids and the new objects [addManyToManyRelation] finds in its
    value. *)
Definition partitionRelated (isWeek_ : bool) (key : string) (val : value)
    : result (list value * list value) :=
  let one (v : value) : result (list value * list value) :=
    let* own := of_option (Js.get v key) in
    if Js.truthy (Js.to_number own) then OK ([Js.to_number own], [])
    else if isWeek_ then OK ([], [v]) else OK ([], []) in
  if isPositive val then OK ([Js.to_number val], [])
  else
    match val with
    | VArr entries =>
        fold_left
          (fun acc entry =>
             let* (ids, fresh_) := acc in
             if Js.truthy (Js.to_number entry) then OK (ids ++ [Js.to_number entry], fresh_)%list
             else if Js.truthy entry && isObjectType entry then
               let* (i, n) := one entry in OK (ids ++ i, fresh_ ++ n)%list
             else OK (ids, fresh_))
          (rev entries) (OK ([], []))
    | _ => if isObjectType val then one val else OK ([], [])
    end.

(** [addManyToManyRelation(model, relation, value, transaction)] *)
Definition addManyToManyRelation
    (insertAll_ : string -> list value -> option nat -> promise IUpsertResult)
    (model : Model.t) (relation : string) (val : value)
    (transaction : option nat) : promise IUpsertResult :=
  let modelName := Model.schema model in
  P.try_
    (let* (_, relationship, related) := relationOf models modelName relation in
     let* key := pk models (Schema.name related) in
     let* (ids, newRelation) := partitionRelated (isWeek relationship) key val in
     OK (Schema.name related, key, ids, newRelation))
    (fun '(relatedModelName, key, ids, newRelation) =>
       P.catch_
         (P.resolve tt
          >>= (fun _ =>
                 match newRelation with
                 | [] => P.resolve ids
                 | _ =>
                     insertAll_ relatedModelName newRelation transaction
                     >>= (fun result =>
                            P.try_
                              (Rows.column key (Rows.items (upserted result)))
                              (fun inserted => P.resolve (ids ++ inserted)%list))
                 end)
          >>= (fun relationIds =>
                 match relationIds with
                 | [] => P.resolve {| upserted := VArr [] |}
                 | _ =>
                     P.try_
                       (let* ownKey := pk models modelName in
                        let* insertList :=
                          fold_right
                            (fun id acc =>
                               let* rest := acc in
                               let* escaped := escape id in
                               let pair :=
                                 "(" ++ Js.to_string (Model.get model ownKey) ++ ","
                                 ++ Js.to_string escaped ++ ")" in
                               OK (rest ++ [pair])%list)
                            (OK []) relationIds in
                        let* table := pascalCase relation in
                        let* leftKey := camelCase modelName in
                        let* rightKey := camelCase relatedModelName in
                        OK ("INSERT INTO " ++ modelName ++ "Has" ++ table ++ newline
                            ++ indent20 ++ "([" ++ leftKey ++ "],[" ++ rightKey ++ "]) VALUES "
                            ++ Str.join "," insertList))
                       (fun sql =>
                          query sql transaction
                          >>= (fun insertResult =>
                                 P.resolve {| upserted := insertResult |}))
                 end))
         (fun err_ => P.reject (Err DBInsert err_))).

(** [addRelation(model, relation, value, transaction)] *)
Definition addRelation
    (insertAll_ : string -> list value -> option nat -> promise IUpsertResult)
    (model : Model.t) (relation : string) (val : value)
    (transaction : option nat) : promise IUpsertResult :=
  P.try_ (of_option (schemaOf models (Model.schema model)))
    (fun schema =>
       match Schema.index schema relation with
       | Schema.Own f =>
           match Field.relation f with
           | Some relationship =>
               if Js.truthy val || isZero val then
                 match rel_type relationship with
                 | One2Many | One2One =>
                     addOneToManyRelation model relation val transaction
                 | Many2Many =>
                     addManyToManyRelation insertAll_ model relation val transaction
                 | Reverse => P.resolve {| upserted := VArr [] |}
                 end
               else P.reject (ErrMessage DBInsert "error in adding relation")
           | None => P.reject (ErrMessage DBInsert "error in adding relation")
           end
       | Schema.Inherited => P.throw TypeError
       | Schema.Absent => P.reject (ErrMessage DBInsert "error in adding relation")
       end).

End Relations.

(** [localTransaction ? transaction.commit().then(() => result) : result] *)
Definition commitIfLocal {A} (localTransaction : bool) (transaction : option nat)
    (result : A) : promise A :=
  if localTransaction then
    match transaction with
    | Some t => commit t >>= (fun _ => P.resolve result)
    | None => P.throw TypeError
    end
  else P.resolve result.

(** The handler of the [catch] of a write operation: the structured
    error, after [transaction.rollback()] when the transaction is the
    operation's own.  Without a transaction object there is nothing to
    call [rollback] on. *)
Definition rollbackIfLocal {A} (code : ErrCode) (localTransaction : bool)
    (transaction : option nat) (err_ : error) : promise A :=
  if localTransaction then
    match transaction with
    | Some t => rollback t >>= (fun _ => P.reject (Err code err_))
    | None => P.throw TypeError
    end
  else P.reject (Err code err_).

(** The variable [transaction] of a write operation after
    [prepare = prepareTransaction(transaction).then(tr => transaction = tr)]. *)
Definition assigned (transaction : option nat) (prepare : outcome nat) : option nat :=
  match prepare with
  | Resolved t => Some t
  | _ => transaction
  end.

Definition isNone {A} (o : option A) : bool :=
  match o with None => true | Some _ => false end.

(** The [SELECT] of the primary keys under a condition. *)
Definition selectKeys (model key sqlCondition : string) : string :=
  "SELECT " ++ key ++ " FROM [" ++ model ++ "] "
  ++ (if Str.non_empty sqlCondition then "WHERE " ++ sqlCondition else "").

Section Removal.

Variable models : list Schema.t.
Variable JSON_parse : string -> option value.

(** [deleteAll(model, condition, transaction)] *)
Definition deleteAll (model : string) (condition : Condition) (transaction : option nat)
    : promise IDeleteResult :=
  fun w =>
    let localTransaction := isNone transaction in
    let (prepare, w) := prepareTransaction transaction w in
    let current := assigned transaction prepare in
    P.try_ (getCondition models model condition model)
      (fun sqlCondition =>
         P.catch_
           ((fun w => (prepare, w))
            >>= (fun t =>
                   P.try_ (pk models model)
                     (fun key => query (selectKeys model key sqlCondition) (Some t)))
            >>= (fun rows =>
                   P.try_
                     (let* key := pk models model in
                      let* ids := Rows.column key (Rows.items rows) in
                      OK (key, ids))
                     (fun '(key, ids) =>
                        match ids with
                        | [] => P.resolve (VArr [])
                        | _ =>
                            query ("DELETE FROM [" ++ model ++ "] WHERE " ++ key ++ " IN ("
                                   ++ Js.join "," ids ++ ")") current
                            >>= (fun _ => P.resolve (VArr ids))
                        end))
            >>= (fun ids => commitIfLocal localTransaction current {| deleted := ids |}))
           (rollbackIfLocal DBDelete localTransaction current))
      w.

(** [this.deleteOne], as [removeOneToManyRelation] calls it back. *)
Variable deleteOne : string -> value -> option nat -> promise IDeleteResult.

(** [removeOneToManyRelation(model, relation, transaction)]: the foreign
    key is set to 0; the owned related row is deleted by a chain nobody
    waits for. *)
Definition removeOneToManyRelation (model : Model.t) (relation : string)
    (transaction : option nat) : promise value :=
  let modelName := Model.schema model in
  P.try_ (relationOf models modelName relation)
    (fun '(_, relationship, related) =>
       let update : promise value :=
         P.catch_
           (P.resolve (VNum 0)
            >>= (fun _ =>
                   P.try_
                     (let* key := pk models modelName in
                      let* id := escape (Model.get model key) in
                      OK ("UPDATE [" ++ modelName ++ "] SET " ++ relation
                          ++ " = 0 WHERE " ++ key ++ " = " ++ Js.to_string id))
                     (fun sql =>
                        query sql transaction
                        >>= (fun updateResult =>
                               P.resolve (VObj [("items", updateResult)])))))
           (fun err_ => P.reject (Err DBUpdate err_)) in
       let cascade (relationId : value) : promise value :=
         deleteOne (Schema.name related) relationId transaction
         >>= (fun _ => P.resolve relationId) in
       if isWeek relationship then
         if Js.truthy (Js.to_number (Model.get model relation)) then
           P.detach (P.resolve (Js.to_number (Model.get model relation))) cascade update
         else
           (* [findById(modelName, model[pk])], of which the primary
              statement is sent at once and the rest follows the
              [UPDATE] *)
           P.try_
             (let* key := pk models modelName in
              let query_ := findByIdQuery modelName key (Model.get model key) noOption in
              let* params := getQueryParams models query_ modelName in
              OK (query_, params))
             (fun '(query_, params) =>
                P.detach
                  (query (selectStatement query_ params) None)
                  (fun rows =>
                     P.catch_
                       (findByQuery_from models JSON_parse (P.resolve rows) query_ None)
                       findByQuery_catch
                     >>= (fun result =>
                            P.try_
                              (let* r := of_option result in
                               of_option (Js.get (at_ (items r) 0) relation))
                              P.resolve)
                     >>= cascade)
                  update)
       else update).

(** The filter on the related ids in the [SELECT] on the junction table:
    nothing without a condition, [FALSE] when the condition selects no
    related row. *)
Definition relatedFilter (key relatedField : string) (selected : option IQueryResult)
    : result string :=
  match selected with
  | None => OK ""
  | Some r =>
      match items r with
      | VArr (first :: rest) =>
          let* id := of_option (Js.get first key) in
          OK (" AND "
              ++ Str.join " OR "
                   (map (fun _ => relatedField ++ " = '" ++ Js.to_string (Js.to_number id)
                                  ++ "'") (first :: rest)))
      | VArr [] => OK " AND FALSE"
      | other =>
          let* n := of_option (Js.get other "length") in
          if Js.truthy n then Throw TypeError else OK " AND FALSE"
      end
  end.

(** The condition on the ids in the [DELETE] on the junction table. *)
Definition idCondition (ids : list value) : string :=
  match ids with
  | [] => "FALSE"
  | _ => "(" ++ Js.join " OR " ids ++ ")"
  end.

(** The second step of [removeManyToManyRelation]: the [DELETE] on the
    junction table for the ids found there, then the owned related rows. *)
Definition deleteJunctionRows (model : Model.t) (relation : string)
    (transaction : option nat) (ids : list value) : promise value :=
  let modelName := Model.schema model in
  P.try_
    (let* (_, relationship, related) := relationOf models modelName relation in
     let* relatedField := camelCase (Schema.name related) in
     let* table := pascalCase relation in
     let* leftKey := camelCase modelName in
     let* key := pk models modelName in
     OK (relationship, related,
         "DELETE FROM " ++ Model.to_string model ++ "Has" ++ table ++ " WHERE " ++ leftKey
         ++ " = " ++ Js.to_string (Model.get model key) ++ " AND " ++ idCondition ids
         ++ "}"))
    (fun '(relationship, related, sql) =>
       query sql transaction
       >>= (fun _ =>
              let result := VObj [("items", VArr ids)] in
              match ids with
              | _ :: _ =>
                  if isWeek relationship then
                    deleteAll (Schema.name related)
                      (Connector None Or
                         (map (fun id =>
                                 Leaf None EqualTo
                                   (Some {| field := "id"; cvalue := id;
                                            isValueOfTypeField := false |}))
                              (rev ids)))
                      transaction
                    >>= (fun _ => P.resolve result)
                  else P.resolve result
              | [] => P.resolve result
              end)).

(** The first step of [removeManyToManyRelation]: the related rows the
    condition selects, then the ids of the junction rows of the model
    among them. *)
Definition junctionIds (related : Schema.t) (model : Model.t) (relation : string)
    (condition : option Condition) : promise (list value) :=
  let modelName := Model.schema model in
  let preparePromise : promise (option IQueryResult) :=
    match condition with
    | Some c =>
        P.try_ (pk models (Schema.name related))
          (fun key =>
             findByQuery models JSON_parse
               {| Vql.model := Schema.name related;
                  Vql.fields := [inl key];
                  Vql.condition := Some c;
                  Vql.orderBy := [];
                  Vql.limit := 0;
                  Vql.offset := 0;
                  Vql.page := 1;
                  Vql.relations := [];
                  Vql.joins := [] |}
               None)
    | None => P.resolve None
    end in
  preparePromise
  >>= (fun result =>
         P.try_
           (let* relatedField := camelCase (Schema.name related) in
            let* key := pk models (Schema.name related) in
            let* conditionsStr := relatedFilter key relatedField result in
            let* table := pascalCase relation in
            let* leftKey := camelCase modelName in
            let* ownKey := pk models modelName in
            OK (relatedField,
                "SELECT * FROM " ++ modelName ++ "Has" ++ table ++ " WHERE " ++ leftKey
                ++ " = " ++ Js.to_string (Model.get model ownKey) ++ " "
                ++ conditionsStr))
           (fun '(relatedField, sql) =>
              query sql None
              >>= (fun found =>
                     P.try_ (Rows.column relatedField (Rows.items found)) P.resolve))).

(** [removeManyToManyRelation(model, relation, condition, transaction)] *)
Definition removeManyToManyRelation (model : Model.t) (relation : string)
    (condition : option Condition) (transaction : option nat) : promise value :=
  let modelName := Model.schema model in
  P.try_
    (let* (_, _, related) := relationOf models modelName relation in
     OK related)
    (fun related =>
       junctionIds related model relation condition
       >>= deleteJunctionRows model relation transaction).

(** [removeRelation(model, relation, condition, transaction)] *)
Definition removeRelation (model : Model.t) (relation : string) (condition : Removal)
    (transaction : option nat) : promise value :=
  let modelName := Model.schema model in
  P.try_
    (let* (_, relationship, related) := relationOf models modelName relation in
     let* safeCondition :=
       match condition with
       | ById id =>
           match Js.typeof id with
           | Js.TNumber =>
               let* key := pk models (Schema.name related) in
               OK (Some (Leaf None EqualTo
                           (Some {| field := key; cvalue := id;
                                    isValueOfTypeField := false |})))
           | _ => OK None
           end
       | ByIds ((_ :: _) as ids) =>
           let* key := pk models (Schema.name related) in
           OK (Some (Connector None Or
                       (map (fun id =>
                               Leaf None EqualTo
                                 (Some {| field := key; cvalue := id;
                                          isValueOfTypeField := false |}))
                            (rev ids))))
       | ByIds [] => OK None
       | ByCondition c => OK (Some c)
       | NoCondition => OK None
       end in
     OK (relationship, safeCondition))
    (fun '(relationship, safeCondition) =>
       match rel_type relationship with
       | One2Many | One2One => removeOneToManyRelation model relation transaction
       | Many2Many => removeManyToManyRelation model relation safeCondition transaction
       | Reverse => P.resolve (VObj [])
       end).

End Removal.

Section Operations.

Variable models : list Schema.t.
Variable JSON_parse : string -> option value.
Variable JSON_stringify : value -> value.

(** The steps a write starts for the entries of an object of relation
    or list values, each on an instance made for it. *)
Definition stepsFor {A} (model : string) (init : value) (entries : object)
    (step : Model.t -> string -> value -> promise A) : list (promise A) :=
  map (fun '(key, v) => P.try_ (newModel models model init) (fun m => step m key v))
      entries.

(** [insertOne(model, value, transaction)]; [fuel] bounds the depth of
    the owned related objects inserted on the way. *)
Fixpoint insertOne (fuel : nat) (model : string) (val : value) (transaction : option nat)
    {struct fuel} : promise IUpsertResult :=
  match fuel with
  | O => P.exhausted
  | S fuel =>
      fun w =>
        let localTransaction := isNone transaction in
        let (prepare, w) := prepareTransaction transaction w in
        let current := assigned transaction prepare in
        P.try_ (getAnalysedValue models JSON_stringify model val)
          (fun analysedValue =>
             let fields := rev (map fst (properties analysedValue)) in
             let values := rev (map snd (properties analysedValue)) in
             P.catch_
               ((fun w => (prepare, w))
                >>= (fun t =>
                       query ("INSERT INTO [" ++ model ++ "] (" ++ Str.join "," fields
                              ++ ") VALUES (" ++ Js.join "," values
                              ++ ");SELECT SCOPE_IDENTITY() as id;") (Some t))
                >>= (fun insertResult =>
                       P.try_
                         (let* _ := of_option (Js.get (at_ insertResult 0) "id") in
                          of_option (Js.get insertResult "insertId"))
                         (fun id =>
                            P.all
                              (stepsFor model (VObj [("id", id)]) (relations analysedValue)
                                 (fun m key v =>
                                    addRelation models (insertOne fuel)
                                      (insertAll models JSON_stringify) m key v current)
                               ++ stepsFor model (VObj [("id", id)]) (lists analysedValue)
                                    (fun m key v =>
                                       addList models m key v current
                                       >>= (fun r => P.resolve {| upserted := r |})))
                            >>= (fun _ =>
                                   P.try_ (pk models model)
                                     (fun key =>
                                        query ("SELECT * FROM [" ++ model ++ "] WHERE " ++ key
                                               ++ " = " ++ Js.to_string id) current))))
                >>= (fun rows =>
                       commitIfLocal localTransaction current {| upserted := rows |}))
               (rollbackIfLocal DBInsert localTransaction current))
          w
  end.

(** [updateRelations(model, relation, relatedValues, transaction)] *)
Definition updateRelations (fuel : nat) (model : Model.t) (relation : string)
    (relatedValues : value) (transaction : option nat) : promise IUpsertResult :=
  let modelName := Model.schema model in
  P.try_
    (let* (_, _, related) := relationOf models modelName relation in
     let* ids :=
       match relatedValues with
       | VArr entries =>
           fold_left
             (fun acc entry =>
                let* ids := acc in
                if Js.truthy entry then
                  if isObjectType entry then
                    let* key := pk models (Schema.name related) in
                    let* id := of_option (Js.get entry key) in
                    OK (ids ++ [id])%list
                  else OK (ids ++ [entry])%list
                else OK ids)
             (rev entries) (OK [VNum 0])
       | _ => OK [VNum 0]
       end in
     let* owner := pascalCase modelName in
     let* table := pascalCase relation in
     let* leftKey := camelCase modelName in
     let* key := pk models modelName in
     OK (ids,
         "DELETE FROM " ++ owner ++ "Has" ++ table ++ " " ++ newline ++ indent20
         ++ "WHERE " ++ leftKey ++ " = " ++ Js.to_string (Model.get model key)))
    (fun '(ids, sql) =>
       query sql transaction
       >>= (fun _ =>
              addRelation models (insertOne fuel) (insertAll models JSON_stringify)
                model relation (VArr ids) transaction)).

(** The assignments [updateOne] adds for the to-one relations of the
    value, and the steps it starts for the many-to-many ones. *)
Definition relationUpdates (fuel : nat) (model : string) (val : value)
    (schema : Schema.t) (entries : object) (transaction : option nat)
    : result (list string * list (promise IUpsertResult)) :=
  fold_left
    (fun acc '(relation, relationValue) =>
       let* (assignments, steps) := acc in
       if negb (Js.truthy relationValue)
          && negb (match relationValue with VNum 0 => true | _ => false end)
       then OK (assignments, steps)
       else
         let* f := of_option (Schema.getField schema relation) in
         let* relationship := of_option (Field.relation f) in
         match rel_type relationship with
         | One2Many | One2One =>
             let* fk :=
               if negb (Js.truthy (Js.to_number relationValue)) && isObjectType relationValue
               then
                 let* related := of_option (schemaOf models (rel_model relationship)) in
                 let* key := pk models (Schema.name related) in
                 let* v := of_option (Js.get relationValue key) in
                 OK (Js.to_number v)
               else OK (Js.to_number relationValue) in
             if Js.truthy fk || match fk with VNum 0 => true | _ => false end
             then
               let assignment := "[" ++ relation ++ "] = " ++ Js.to_string fk in
               OK ((assignments ++ [assignment])%list, steps)
             else OK (assignments, steps)
         | Many2Many =>
             if negb (Js.truthy relationValue) then OK (assignments, steps)
             else
               OK (assignments,
                   steps ++ [P.try_ (newModel models model val)
                               (fun m => updateRelations fuel m relation relationValue
                                           transaction)])%list
         | Reverse => OK (assignments, steps)
         end)
    (rev entries) (OK ([], [])).

(** [updateOne(model, value, transaction)] *)
Definition updateOne (fuel : nat) (model : string) (val : value) (transaction : option nat)
    : promise (option IQueryResult) :=
  fun w =>
    let localTransaction := isNone transaction in
    let (prepare, w) := prepareTransaction transaction w in
    let current := assigned transaction prepare in
    P.try_
      (let* analysedValue := getAnalysedValue models JSON_stringify model val in
       let* key := pk models model in
       let* id := of_option (Js.get val key) in
       let* schema := of_option (schemaOf models model) in
       OK (analysedValue, key, id, schema))
      (fun '(analysedValue, key, id, schema) =>
         let properties_ :=
           flat_map
             (fun '(name, v) =>
                if String.eqb name key then []
                else ["[" ++ name ++ "] = " ++ Js.to_string v])
             (rev (properties analysedValue)) in
         P.catch_
           ((fun w => (prepare, w))
            >>= (fun t =>
                   P.try_ (relationUpdates fuel model val schema
                             (relations analysedValue) (Some t))
                     (fun '(assignments, steps) =>
                        P.all
                          (steps
                           ++ stepsFor model (VObj [("id", id)]) (lists analysedValue)
                                (fun m name v =>
                                   updateList models m name v (Some t)
                                   >>= (fun r => P.resolve {| upserted := r |})))
                        >>= (fun _ => P.resolve (t, (properties_ ++ assignments)%list))))
            >>= (fun '(t, assignments) =>
                   match assignments with
                   | [] => P.resolve (VArr [])
                   | _ =>
                       query ("UPDATE [" ++ model ++ "] SET " ++ Str.join "," assignments
                              ++ " WHERE " ++ key ++ " = " ++ Js.to_string id) (Some t)
                   end)
            >>= (fun _ => commitIfLocal localTransaction current (VBool true))
            >>= (fun _ => findById models JSON_parse model id noOption None))
           (rollbackIfLocal DBQuery localTransaction current))
      w.

(** [updateAll(model, newValues, condition, transaction)] *)
Definition updateAll (model : string) (newValues : value) (condition : Condition)
    (transaction : option nat) : promise IUpsertResult :=
  fun w =>
    let localTransaction := isNone transaction in
    let (prepare, w) := prepareTransaction transaction w in
    let current := assigned transaction prepare in
    P.try_
      (let* sqlCondition := getCondition models model condition model in
       let* assignments :=
         match newValues with
         | VObj entries =>
             fold_right
               (fun '(name, v) acc =>
                  let* rest := acc in
                  let* schema := of_option (schemaOf models model) in
                  match Schema.getField schema name with
                  | Some _ =>
                      let* key := pk models model in
                      if String.eqb name key then OK rest
                      else OK (("[" ++ model ++ "]." ++ name ++ " = '" ++ Js.to_string v
                                ++ "'") :: rest)
                  | None => OK rest
                  end)
               (OK []) entries
         | _ => OK []
         end in
       OK (sqlCondition, assignments))
      (fun '(sqlCondition, assignments) =>
         P.catch_
           ((fun w => (prepare, w))
            >>= (fun t =>
                   P.try_ (pk models model)
                     (fun key => query (selectKeys model key sqlCondition) (Some t)))
            >>= (fun rows =>
                   P.try_
                     (let* key := pk models model in
                      let* ids := Rows.column key (Rows.items rows) in
                      OK (key, ids))
                     (fun '(key, ids) =>
                        match ids with
                        | [] => P.resolve (VArr [])
                        | _ =>
                            query ("UPDATE [" ++ model ++ "] SET " ++ Str.join "," assignments
                                   ++ "  WHERE " ++ key ++ " IN (" ++ Js.join "," ids ++ ")}")
                                  current
                            >>= (fun _ =>
                                   query ("SELECT * FROM [" ++ model ++ "] WHERE " ++ key
                                          ++ " IN (" ++ Js.join "," ids ++ ")") current)
                        end))
            >>= (fun rows => commitIfLocal localTransaction current {| upserted := rows |}))
           (rollbackIfLocal DBUpdate localTransaction current))
      w.

(** [deleteOne(model, id, transaction)]; [fuel] bounds the chain of
    owned related rows deleted after it. *)
Fixpoint deleteOne (fuel : nat) (model : string) (id : value) (transaction : option nat)
    {struct fuel} : promise IDeleteResult :=
  match fuel with
  | O => P.exhausted
  | S fuel =>
      fun w =>
        let localTransaction := isNone transaction in
        let (prepare, w) := prepareTransaction transaction w in
        let current := assigned transaction prepare in
        P.try_ (of_option (schemaOf models model))
          (fun schema =>
             P.catch_
               ((fun w => (prepare, w))
                >>= (fun t =>
                       P.try_ (pk models model)
                         (fun key =>
                            query ("DELETE FROM [" ++ model ++ "] WHERE " ++ key ++ " = "
                                   ++ Js.to_string id) (Some t)))
                >>= (fun _ =>
                       P.try_
                         (let* instance := newModel models model VUndefined in
                          let* key := pk models model in
                          OK (Model.set instance key id))
                         (fun instance =>
                            P.all
                              (map (fun f =>
                                      removeRelation models JSON_parse (deleteOne fuel)
                                        instance (Field.fieldName f) (ById (VNum 0)) current)
                                   (filter Field.is_relation (Schema.fields schema)))
                            >>= (fun _ => P.resolve {| deleted := VArr [id] |})))
                >>= (fun result => commitIfLocal localTransaction current result))
               (rollbackIfLocal DBDelete localTransaction current))
          w
  end.

End Operations.

(** ** The loops of [getQueryParams], as functions of their own *)

(** [params.orderBy] after one join: its order-by is appended after a
    comma, or taken as it is when there is none yet. *)
Definition appendOrder (orderBy joinOrder : string) : string :=
  if Str.non_empty joinOrder
  then if Str.non_empty orderBy then orderBy ++ "," ++ joinOrder else joinOrder
  else orderBy.

(** The loop over [query.fields]. *)
Fixpoint selectedFields (models : list Schema.t) (schema : Schema.t) (alias : string)
    (l : list (string + Vql.t)) : result (list string) :=
  match l with
  | [] => OK []
  | inr sub :: rest =>
      let* text := getSubQuery models sub in
      let* others := selectedFields models schema alias rest in
      OK (text :: others)
  | inl column :: rest =>
      match Schema.index schema column with
      | Schema.Own f =>
          let* others := selectedFields models schema alias rest in
          if Field.is_list f then OK others
          else OK (("[" ++ alias ++ "]." ++ column) :: others)
      | Schema.Inherited => Throw TypeError
      | Schema.Absent => selectedFields models schema alias rest
      end
  end.

(** The projection before the relations and the joins. *)
Definition projection (models : list Schema.t) (schema : Schema.t) (alias : string)
    (fields : list (string + Vql.t)) (relations : list Vql.relation_request)
    : result (list string) :=
  match fields with
  | [] => OK (defaultFields schema alias relations)
  | _ => selectedFields models schema alias fields
  end.

(** The loop over [query.joins]. *)
Fixpoint compileJoins (models : list Schema.t) (alias : string)
    (l : list (Vql.join_type * string * Vql.t)) (st : joinState) : result joinState :=
  match l with
  | [] => OK st
  | (type, field, vql) :: rest =>
      let modelsAlias := Vql.model vql ++ "_" ++ field in
      let* aliased := of_option (schemaOf models alias) in
      match Schema.getField aliased field, schemaOf models (Vql.model vql) with
      | Some _, Some _ =>
          let* key := pk models (Vql.model vql) in
          let clause :=
            joinKeyword type ++ " " ++ Vql.model vql ++ " as " ++ modelsAlias
            ++ " ON (" ++ alias ++ "." ++ field ++ " = " ++ modelsAlias ++ "."
            ++ key ++ ")" in
          let* joinParam := getQueryParams models vql modelsAlias in
          compileJoins models alias rest (mergeJoin st clause joinParam)
      | _, _ => compileJoins models alias rest st
      end
  end.

(** [params.orderBy] before the joins: the explicit keys, or the primary
    key when a limit is set, or nothing. *)
Definition ownOrder (schema : Schema.t) (alias key : string) (query_ : Vql.t) : string :=
  match Vql.orderBy query_ with
  | _ :: _ => Str.join "," (orderArray schema alias (Vql.orderBy query_))
  | [] => if Vql.limit query_ =? 0 then "" else key
  end.

(** The order-by of every join the loop compiles, in the order of the
    joins. *)
Fixpoint joinOrders (models : list Schema.t) (alias : string)
    (l : list (Vql.join_type * string * Vql.t)) : result (list string) :=
  match l with
  | [] => OK []
  | (_, field, vql) :: rest =>
      let* aliased := of_option (schemaOf models alias) in
      match Schema.getField aliased field, schemaOf models (Vql.model vql) with
      | Some _, Some _ =>
          let* _ := pk models (Vql.model vql) in
          let* joinParam := getQueryParams models vql (Vql.model vql ++ "_" ++ field) in
          let* others := joinOrders models alias rest in
          OK (ICalculatedQueryOptions.orderBy joinParam :: others)
      | _, _ => joinOrders models alias rest
      end
  end.

(** The inputs of the examples. *)
Module Example.

(** Posts by pages of five with their authors, the authors by name. *)
Definition authorsByName : Vql.t :=
  {| Vql.model := "User"; Vql.fields := [inl "name"]; Vql.condition := None;
     Vql.orderBy := [{| Vql.order_field := "name"; Vql.ascending := true |}];
     Vql.limit := 0; Vql.offset := 0; Vql.page := 1; Vql.relations := [];
     Vql.joins := [] |}.

Definition pagedPosts : Vql.t :=
  {| Vql.model := "Post"; Vql.fields := [inl "title"]; Vql.condition := None;
     Vql.orderBy := []; Vql.limit := 5; Vql.offset := 0; Vql.page := 1;
     Vql.relations := []; Vql.joins := [(Vql.InnerJoin, "author", authorsByName)] |}.

(** Posts with their author and an "editor" the schema does not have. *)
Definition postsWithEditor : Vql.t :=
  {| Vql.model := "Post"; Vql.fields := []; Vql.condition := None;
     Vql.orderBy := []; Vql.limit := 0; Vql.offset := 0; Vql.page := 1;
     Vql.relations := [Vql.Name "author"; Vql.Name "editor"]; Vql.joins := [] |}.

(** Posts with their author and a relation of the name [toString],
    which the schema does not have and every object inherits. *)
Definition postsWithToString : Vql.t :=
  {| Vql.model := "Post"; Vql.fields := []; Vql.condition := None;
     Vql.orderBy := []; Vql.limit := 0; Vql.offset := 0; Vql.page := 1;
     Vql.relations := [Vql.Name "author"; Vql.Name "toString"]; Vql.joins := [] |}.

(** status = 'open' AND (nothing): scenario D of the specification, on
    the title of a post. *)
Definition openAndNothing : Condition :=
  Connector None And [Blog.compare EqualTo "title" (VStr "open"); Connector None Or []].

(** title = 'open' OR (nothing) OR title = 'draft': two comparisons that
    leave a fragment around one connector that leaves none. *)
Definition openOrDraft : Condition :=
  Connector None Or
    [Blog.compare EqualTo "title" (VStr "open"); Connector None And [];
     Blog.compare EqualTo "title" (VStr "draft")].

(** Users with their posts, the reverse side of [Post.author]. *)
Definition usersWithPosts : Vql.t :=
  {| Vql.model := "User"; Vql.fields := []; Vql.condition := None;
     Vql.orderBy := []; Vql.limit := 0; Vql.offset := 0; Vql.page := 1;
     Vql.relations := [Vql.Name "posts"]; Vql.joins := [] |}.

(** Posts with their author, a to-one relation, and their tags. *)
Definition postsWithAuthorAndTags : Vql.t :=
  {| Vql.model := "Post"; Vql.fields := []; Vql.condition := None;
     Vql.orderBy := []; Vql.limit := 0; Vql.offset := 0; Vql.page := 1;
     Vql.relations := [Vql.Name "author"; Vql.Name "tags"]; Vql.joins := [] |}.

(** Posts with their tags. *)
Definition postsWithTags : Vql.t :=
  {| Vql.model := "Post"; Vql.fields := []; Vql.condition := None;
     Vql.orderBy := []; Vql.limit := 0; Vql.offset := 0; Vql.page := 1;
     Vql.relations := [Vql.Name "tags"]; Vql.joins := [] |}.

End Example.

(** A cell as the driver and the fan-out leave it: primitive values,
    arrays, objects without an own [indexOf] that holds. *)
Definition driverCell (v : value) : bool :=
  match v with
  | VObj o =>
      match Js.lookup "indexOf" o with
      | Some f => negb (Js.truthy f)
      | None => true
      end
  | _ => true
  end.

Definition driverRow (row : value) : bool :=
  match row with
  | VObj o => forallb (fun '(_, v) => driverCell v) o
  | _ => false
  end.

(** A row after the normalizer: the same columns in the same order,
    each cell as [normalizeCell] leaves it. *)
Definition normalizedRow (JSON_parse : string -> option value) (schema : Schema.t)
    (row row' : value) : Prop :=
  match row with
  | VObj o =>
      exists o',
        row' = VObj o' /\
        Forall2 (fun cell cell' =>
                   fst cell' = fst cell /\
                   normalizeCell JSON_parse schema (fst cell) (snd cell) = OK (snd cell'))
                o o'
  | _ => row' = row
  end.

(** ** The merge policy of the fan-out, as a specification *)

(** [row[key]], [undefined] where the row has none. *)
Definition cell (key : string) (row : value) : value :=
  match Js.get row key with
  | Some v => v
  | None => VUndefined
  end.

(** [id == relatedData[leftKey]] *)
Definition matching (leftKey : string) (id relatedData : value) : bool :=
  Rows.loose_eq id (cell leftKey relatedData).

(** What a primary row with key [id] is to get: the related rows whose
    junction key equals [id], last one first, each stripped. *)
Definition attachedTo (leftKey rightKey relatedPk : string) (id : value)
    (relatedRows : list value) : list value :=
  rev (map (strip leftKey rightKey relatedPk) (filter (matching leftKey id) relatedRows)).

(** No related row matches two of the keys. *)
Fixpoint exclusive (leftKey : string) (ids relatedRows : list value) : Prop :=
  match ids with
  | [] => True
  | id :: rest =>
      (forall r, In r relatedRows -> matching leftKey id r = true ->
                 existsb (fun other => matching leftKey other r) rest = false)
      /\ exclusive leftKey rest relatedRows
  end.

(** The positions the inner loop pushes for [id], in the order of the
    pushes; [j] is the position of the first row. *)
Fixpoint positions (leftKey : string) (id : value) (relatedRows : list value) (j : nat)
    : list nat :=
  match relatedRows with
  | [] => []
  | r :: rest =>
      (positions leftKey id rest (S j) ++ (if matching leftKey id r then [j] else []))%list
  end.

(** The related rows once the rows with the keys [ids] took theirs. *)
Definition stripMatched (leftKey rightKey relatedPk : string) (ids relatedRows : list value)
    : list value :=
  map (fun r =>
         if existsb (fun id => matching leftKey id r) ids
         then strip leftKey rightKey relatedPk r else r)
      relatedRows.

(** A requested relation that is a to-one relation field of the model. *)
Definition toOneRequest (models : list Schema.t) (model : string)
    (request : Vql.relation_request) : Prop :=
  exists f r related,
    relationOf models model (Vql.relation_name request) = OK (f, r, related)
    /\ (rel_type r = One2One \/ rel_type r = One2Many).

Definition isObject (v : value) : bool :=
  match v with VObj _ => true | _ => false end.

(** One relation that got a secondary query: its name, the rows the
    query resolved with, the junction key column of the related model
    and the primary key of the related model. *)
Record queried := {
  q_name : string;
  q_rows : list value;
  q_rightKey : string;
  q_relatedPk : string
}.

(** A primary row after the merge of one queried relation: under the
    name of the relation, the related rows attached to its key. *)
Definition attachOne (leftKey primaryKey : string) (row : value) (d : queried) : value :=
  match row with
  | VObj o =>
      VObj (Js.set (q_name d)
              (VArr (attachedTo leftKey (q_rightKey d) (q_relatedPk d)
                                (cell primaryKey row) (q_rows d)))
              o)
  | _ => row
  end.

(** A primary row after the merges of the queried relations, in turn. *)
Definition attachAll (leftKey primaryKey : string) (data : list queried) (row : value)
    : value :=
  fold_left (attachOne leftKey primaryKey) data row.

(** What the consumer is to see of a related row [r] that was attached:
    an object without the two junction key columns, whose primary key is
    what the related key column held, and whose other properties are
    those of [r]. *)
Definition withoutJunctionKeys (leftKey rightKey relatedPk : string) (r attached : value)
    : Prop :=
  forall o, r = VObj o ->
    exists a,
      attached = VObj a
      /\ Js.lookup leftKey a = None
      /\ Js.lookup rightKey a = None
      /\ (relatedPk <> leftKey -> relatedPk <> rightKey ->
          Js.lookup relatedPk a = Some (cell rightKey r))
      /\ (forall k, k <> leftKey -> k <> rightKey -> k <> relatedPk ->
                    Js.lookup k a = Js.lookup k o).

(** What [getManyToManyRelation] is told about a relation whose
    secondary query resolved with [(name, relatedList)]. *)
Definition queriedAs (models : list Schema.t) (model : string)
    (answer : string * value) (d : queried) : Prop :=
  fst answer = q_name d
  /\ snd answer = VArr (q_rows d)
  /\ exists f r related,
      relationOf models model (q_name d) = OK (f, r, related)
      /\ camelCase (Schema.name related) = OK (q_rightKey d)
      /\ pk models (Schema.name related) = OK (q_relatedPk d).

(** ** Rows of the blog, as the driver returns them *)

Module Data.

Definition ann : value := VObj [("id", VNum 7); ("name", VStr "ann")].

(** A row of [SELECT *,author as user,id as post FROM Post]. *)
Definition postOfAnn : value :=
  VObj [("id", VNum 1); ("title", VStr "t"); ("author", VNum 7);
        ("user", VNum 7); ("post", VNum 1)].

Definition post (id : Z) (title : string) : value :=
  VObj [("id", VNum id); ("title", VStr title)].

(** A row of the tags joined with the junction table [PostHasTags]. *)
Definition tagOf (post id : Z) (label : string) : value :=
  VObj [("id", VNum id); ("label", VStr label); ("post", VNum post); ("tag", VNum id)].

Definition tag (id : Z) (label : string) : value :=
  VObj [("id", VNum id); ("label", VStr label)].

(** A post instance, as [new Post({id: 3})] makes it. *)
Definition thirdPost : Model.t :=
  {| Model.schema := "Post"; Model.values := [("id", VNum 3)] |}.

(** Posts with their author, a to-one relation. *)
Definition postsWithAuthor : Vql.t :=
  {| Vql.model := "Post"; Vql.fields := []; Vql.condition := None;
     Vql.orderBy := []; Vql.limit := 0; Vql.offset := 0; Vql.page := 1;
     Vql.relations := [Vql.Name "author"]; Vql.joins := [] |}.

End Data.

(** ** The earlier revision, [src/src/MSSQL.ts] *)

(** The functions of the revision without transactions that the
    properties below speak of, embedded from [src/src/MSSQL.ts]; its
    [escape] is the one above. *)
Module Legacy.

(** The six replacements of [parseJson], in the order of its loop, from
    the last pair to the first; the patterns are strings, so each
    replaces one occurrence. *)
Definition escapeControls (str : string) : string :=
  let s := Str.replace_first "'" "\'" str in
  let s := Str.replace_first (String "011"%char EmptyString) "\v" s in
  let s := Str.replace_first (String "009"%char EmptyString) "\t" s in
  let s := Str.replace_first (String "013"%char EmptyString) "\r" s in
  let s := Str.replace_first (String "008"%char EmptyString) "\b" s in
  Str.replace_first (String "010"%char EmptyString) "\n" s.

(** [parseJson(str)] *)
Definition parseJson (JSON_parse : string -> option value) (str : value) : value :=
  match str with
  | VStr s =>
      if Str.non_empty s then
        match JSON_parse (escapeControls s) with
        | Some json => json
        | None => VStr (escapeControls s)
        end
      else str
  | _ => str
  end.

(** [type == Relation && relation.type != Many2Many] *)
Definition isEmbedded (f : Field.t) : bool :=
  match Field.type f with
  | TRelation r => match rel_type r with Many2Many => false | _ => true end
  | _ => false
  end.

Definition normalizeCell (JSON_parse : string -> option value) (schema : Schema.t)
    (key : string) (v : value) : value :=
  match Schema.getField schema key with
  | Some f => if isEmbedded f then parseJson JSON_parse v else v
  | None => v
  end.

(** [normalizeList(schema, list)] on the rows of the driver, which are
    objects; a row that is no object is outside the model and kept. *)
Definition normalizeList (JSON_parse : string -> option value) (schema : Schema.t)
    (list : value) : value :=
  match list with
  | VArr rows =>
      VArr (map (fun row =>
                   match row with
                   | VObj o =>
                       VObj (map (fun '(key, v) =>
                                    (key, normalizeCell JSON_parse schema key v)) o)
                   | _ => row
                   end) rows)
  | _ => list
  end.

(** [query(query)]: the statement goes to the connection, the promise
    resolves with the driver's result as it is. *)
Definition query (sql : string) : promise value :=
  fun w =>
    let (r, w) := P.call (Statement sql None) w in
    if Js.truthy (err r) then (Rejected (Raised (err r)), w)
    else (Resolved (VObj (result_ r)), w).

(** One row of the [VALUES] list: the columns from the last to the
    first. *)
Definition insertRow (columns : list Field.t) (item : value) : result string :=
  let* cells :=
    fold_right
      (fun f acc =>
         let* rest := acc in
         let* own :=
           match item with
           | VUndefined | VNull => Throw TypeError
           | VObj o => OK (Js.lookup (Field.fieldName f) o)
           | _ => OK None
           end in
         match own with
         | Some v => let* e := escape v in OK (rest ++ [Js.to_string e])%list
         | None => OK (rest ++ ["''"])%list
         end)
      (OK []) columns in
  OK ("(" ++ Str.join "," cells ++ ")").

(** [insertAll(model, value)].  The promise is rejected with the result
    object, whose [error] is the [Err] given here. *)
Definition insertAll (models : list Schema.t) (model : string) (vals : list value)
    : promise IUpsertResult :=
  P.try_
    (let* schema := of_option (schemaOf models model) in
     let columns :=
       filter (fun f => negb (Field.is_relation f) || isEmbedded f) (Schema.fields schema) in
     let* insertList :=
       fold_right
         (fun item acc =>
            let* rest := acc in
            let* row := insertRow columns item in
            OK (rest ++ [row])%list)
         (OK []) vals in
     OK (columns, insertList))
    (fun '(columns, insertList) =>
       match insertList with
       | [] => P.resolve {| upserted := VArr [] |}
       | _ =>
           P.catch_
             (query ("INSERT INTO " ++ model ++ "} ("
                     ++ Str.join "," (map Field.fieldName columns) ++ ") VALUES "
                     ++ Str.join "," insertList)
              >>= (fun insertResult => P.resolve {| upserted := insertResult |}))
             (fun err_ => P.reject (Err DBInsert err_))
       end).

End Legacy.

(** A column of the bulk insert that carries the name of the primary
    key: a field that is no relation, or a to-one relation. *)
Definition keyColumn (key : string) (f : Field.t) : bool :=
  (negb (Field.is_relation f) || Field.is_to_one f)
  && String.eqb (Field.fieldName f) key.

(** ** A driver that refuses to begin a transaction *)

(** The next reply of the driver carries an error, and the transaction
    object made next has no connection yet. *)
Definition beginFails (w : world) : Prop :=
  match replies w with
  | r :: _ => Js.truthy (err r) = true
  | [] => False
  end
  /\ existsb (Nat.eqb (fresh w)) (connected w) = false.

(** The driver after the [begin] of a transaction object made for it. *)
Definition afterBegin (w : world) : world :=
  {| replies := tl (replies w);
     trace := trace w ++ [Begin (fresh w)];
     fresh := S (fresh w);
     connected := fresh w :: connected w |}.

(** A call that ends with the [TypeError] of its own handler, or with a
    throw before it returns a promise, in the world [w']. *)
Definition unhandled {A} (r : outcome A * world) (w' : world) : Prop :=
  snd r = w' /\ (fst r = Rejected TypeError \/ exists e, fst r = Thrown e).

(** A tag as a caller gives it to [insert]. *)
Definition newTag : value := VObj [("label", VStr "x")].

(** ** Commits and rollbacks on the trace *)

Definition bookkeeping (e : event) : bool :=
  match e with
  | Commit _ | Rollback _ => true
  | _ => false
  end.

(** [w'] is [w] after calls of the driver none of which is a commit or
    a rollback. *)
Definition extends (w w' : world) : Prop :=
  exists added,
    trace w' = (trace w ++ added)%list
    /\ forallb (fun e => negb (bookkeeping e)) added = true.

(** A promise on whose way the driver gets no commit and no rollback. *)
Definition quietly {A} (m : promise A) : Prop :=
  forall w, extends w (snd (m w)).

(** How a write operation that made its own transaction [t] may end;
    [begun] is the driver's side once the transaction is begun.
    Fulfilled: the commit of [t] was sent, and no commit or rollback
    after it.  Rejected: with the structured error of the operation;
    the rollback of [t] was sent, and no commit or rollback after it
    (steps that are still on their way may send statements after it).
    A throw before the promise is returned: nothing was sent after the
    begin, the transaction is left as it is.  Nothing is said of a run
    that reaches the bound on nested operations. *)
Definition ownedOutcome {A} (code : ErrCode) (t : nat) (begun : world)
    (r : outcome A * world) : Prop :=
  match fst r with
  | Resolved _ =>
      exists before after,
        trace (snd r) = (before ++ Commit t :: after)%list
        /\ forallb (fun e => negb (bookkeeping e)) after = true
  | Rejected e =>
      (exists cause, e = Err code cause)
      /\ exists before after,
           trace (snd r) = (before ++ Rollback t :: after)%list
           /\ forallb (fun e => negb (bookkeeping e)) after = true
  | Thrown _ => snd r = begun
  | Exhausted => True
  end.

(** How a write operation without steps side by side ends on its own
    transaction [t]: fulfilled, and the commit of [t] is the last call
    the driver got; rejected with the structured error of the operation,
    and the rollback of [t] is the last call the driver got; or thrown
    before the promise is returned, and nothing was sent after the
    begin. *)
Definition closedOutcome {A} (code : ErrCode) (t : nat) (begun : world)
    (r : outcome A * world) : Prop :=
  match fst r with
  | Resolved _ => exists before, trace (snd r) = (before ++ [Commit t])%list
  | Rejected e =>
      (exists cause, e = Err code cause)
      /\ exists before, trace (snd r) = (before ++ [Rollback t])%list
  | Thrown _ => snd r = begun
  | Exhausted => False
  end.

(** ** The public read operations *)

(** [Object.keys(v)] with [v[key]] for each key, in the order of the
    keys: the own properties of an object, the indices of a string or an
    array with their elements, nothing for a number or a boolean; a
    [TypeError] on [null] and [undefined]. *)
Fixpoint indexed (i : nat) (l : list value) : object :=
  match l with
  | [] => []
  | v :: rest => (Str.of_Z (Z.of_nat i), v) :: indexed (S i) rest
  end.

Fixpoint characters (s : string) : list value :=
  match s with
  | EmptyString => []
  | String c rest => VStr (String c EmptyString) :: characters rest
  end.

Fixpoint ownProperties (seen : list string) (o : object) : object :=
  match o with
  | [] => []
  | (k, v) :: rest =>
      if existsb (String.eqb k) seen then ownProperties seen rest
      else (k, v) :: ownProperties (k :: seen) rest
  end.

Definition entriesOf (v : value) : result object :=
  match v with
  | VUndefined | VNull => Throw TypeError
  | VObj o => OK (ownProperties [] o)
  | VArr l => OK (indexed 0 l)
  | VStr s => OK (indexed 0 (characters s))
  | VBool _ | VNum _ | VNaN => OK []
  end.

(** The [IQueryOption] of [find] and [count]: the part [findById] reads,
    and the paging; 0 stands for an option that is not given. *)
Record IPagedOption := {
  opt_base : IQueryOption;
  opt_offset : Z;
  opt_page : Z;
  opt_limit : Z
}.

Definition noPagedOption : IPagedOption :=
  {| opt_base := noOption; opt_offset := 0; opt_page := 0; opt_limit := 0 |}.

(** [new Condition(Condition.Operator.EqualTo).compare(key, v)] *)
Definition equalTo (key : string) (v : value) : Condition :=
  Leaf None EqualTo (Some {| field := key; cvalue := v; isValueOfTypeField := false |}).

(** The query [findByModelValues] and [countByModelValues] build on a
    fresh [Vql] (no limit, no offset, first page) for a condition. *)
Definition valuesQuery (model : string) (condition : Condition) (option_ : IPagedOption)
    : Vql.t :=
  {| Vql.model := model;
     Vql.fields := opt_fields (opt_base option_);
     Vql.condition := Some condition;
     Vql.orderBy := opt_orderBy (opt_base option_);
     Vql.limit := opt_limit option_;
     Vql.offset :=
       if negb (opt_offset option_ =? 0) then opt_offset option_
       else if negb (opt_page option_ =? 0)
            then (opt_page option_ - 1) * opt_limit option_
            else 0;
     Vql.page := 1;
     Vql.relations := opt_relations (opt_base option_);
     Vql.joins := [] |}.

Section Api.

Variable models : list Schema.t.
Variable JSON_parse : string -> option value.

(** [findByModelValues(model, modelValues, option, transaction)]: the
    values that are not [undefined], each compared for equality. *)
Definition findByModelValues (model : string) (modelValues : value)
    (option_ : IPagedOption) (transaction : option nat)
    : promise (option IQueryResult) :=
  P.try_ (entriesOf modelValues)
    (fun entries =>
       let condition :=
         Connector None And
           (flat_map (fun '(key, v) =>
                        match v with
                        | VUndefined => []
                        | _ => [equalTo key v]
                        end) entries) in
       findByQuery models JSON_parse (valuesQuery model condition option_) transaction).

(** [find(arg1, arg2, arg3, transaction)]; [arg1] is a model name or a
    query. *)
Definition find (arg1 : string + Vql.t) (arg2 : value) (arg3 : IPagedOption)
    (transaction : option nat) : promise (option IQueryResult) :=
  (match transaction with
   | Some t => prepareTransaction (Some t) >>= (fun _ => P.resolve tt)
   | None => P.resolve tt
   end)
  >>= (fun _ =>
         match arg1 with
         | inl model =>
             if Js.truthy (Js.to_number arg2)
             then findById models JSON_parse model arg2 (opt_base arg3) transaction
             else findByModelValues model arg2 arg3 transaction
         | inr query_ => findByQuery models JSON_parse query_ transaction
         end).

(** [countByQuery(query, transaction)]: the result has a total and no
    items. *)
Definition countByQuery (query_ : Vql.t) (transaction : option nat)
    : promise IQueryResult :=
  P.try_ (getQueryParams models query_ (Vql.model query_))
    (fun params =>
       let condition :=
         if Str.non_empty (ICalculatedQueryOptions.condition params)
         then "WHERE " ++ ICalculatedQueryOptions.condition params else "" in
       query ("SELECT COUNT(*) as total FROM [" ++ Vql.model query_ ++ "] "
              ++ ICalculatedQueryOptions.join params ++ " " ++ condition) transaction
       >>= (fun data =>
              P.try_ (of_option (Js.get (at_ data 0) "total"))
                (fun n => P.resolve {| items := VUndefined; total := n |}))).

(** [countByModelValues(model, modelValues, option, transaction)]: every
    value is compared, an [undefined] one too. *)
Definition countByModelValues (model : string) (modelValues : value)
    (option_ : IPagedOption) (transaction : option nat) : promise IQueryResult :=
  P.try_ (entriesOf modelValues)
    (fun entries =>
       let condition :=
         Connector None And (map (fun '(key, v) => equalTo key v) entries) in
       countByQuery (valuesQuery model condition option_) transaction).

(** [count(arg1, modelValues, option, transaction)] *)
Definition count (arg1 : string + Vql.t) (modelValues : value) (option_ : IPagedOption)
    (transaction : option nat) : promise IQueryResult :=
  (match transaction with
   | Some t => prepareTransaction (Some t) >>= (fun _ => P.resolve tt)
   | None => P.resolve tt
   end)
  >>= (fun _ =>
         match arg1 with
         | inl model => countByModelValues model modelValues option_ transaction
         | inr query_ => countByQuery query_ transaction
         end).

(** [increase(model, id, field, value, transaction)]: the update on the
    transaction, then [findById(model, id)] with no transaction. *)
Definition increase (model : string) (id : value) (field_ : string)
    (transaction : option nat) : promise (option IQueryResult) :=
  (match transaction with
   | None => P.resolve None
   | Some t => prepareTransaction (Some t) >>= (fun t' => P.resolve (Some t'))
   end)
  >>= (fun current =>
         P.try_ (pk models model)
           (fun key =>
              query ("UPDATE `" ++ model ++ "` SET `" ++ field_ ++ "` = `" ++ field_
                     ++ "` + (?) WHERE " ++ key ++ " = ?") current))
  >>= (fun _ => findById models JSON_parse model id noOption None).

End Api.

(** Posts joined with their authors, the authors joined with their
    posts again. *)
Definition postsOfAuthors : Vql.t :=
  {| Vql.model := "Post"; Vql.fields := [inl "title"]; Vql.condition := None;
     Vql.orderBy := []; Vql.limit := 0; Vql.offset := 0; Vql.page := 1;
     Vql.relations := [];
     Vql.joins :=
       [(Vql.InnerJoin, "author",
         {| Vql.model := "User"; Vql.fields := [inl "name"]; Vql.condition := None;
            Vql.orderBy := []; Vql.limit := 0; Vql.offset := 0; Vql.page := 1;
            Vql.relations := [];
            Vql.joins := [(Vql.LeftJoin, "posts", Example.pagedPosts)] |})] |}.

(** The statement of [countByQuery]. *)
Definition countStatement (query_ : Vql.t) (params : ICalculatedQueryOptions.t) : string :=
  "SELECT COUNT(*) as total FROM [" ++ Vql.model query_ ++ "] "
  ++ ICalculatedQueryOptions.join params ++ " "
  ++ (if Str.non_empty (ICalculatedQueryOptions.condition params)
      then "WHERE " ++ ICalculatedQueryOptions.condition params else "").

(** The statement of [increase]. *)
Definition increaseStatement (model field_ key : string) : string :=
  "UPDATE `" ++ model ++ "` SET `" ++ field_ ++ "` = `" ++ field_
  ++ "` + (?) WHERE " ++ key ++ " = ?".

(** The statements of [insertOne]. *)
Definition insertStatement (model : string) (analysedValue : AnalysedValue) : string :=
  "INSERT INTO [" ++ model ++ "] ("
  ++ Str.join "," (rev (map fst (properties analysedValue)))
  ++ ") VALUES (" ++ Js.join "," (rev (map snd (properties analysedValue)))
  ++ ");SELECT SCOPE_IDENTITY() as id;".

Definition readBackStatement (model key : string) (id : value) : string :=
  "SELECT * FROM [" ++ model ++ "] WHERE " ++ key ++ " = " ++ Js.to_string id.

(** The statements of [deleteAll] and [updateAll] on the keys they
    selected. *)
Definition deleteKeysStatement (model key : string) (ids : list value) : string :=
  "DELETE FROM [" ++ model ++ "] WHERE " ++ key ++ " IN (" ++ Js.join "," ids ++ ")".

Definition updateKeysStatement (model key : string) (assignments : list string)
    (ids : list value) : string :=
  "UPDATE [" ++ model ++ "] SET " ++ Str.join "," assignments ++ "  WHERE " ++ key
  ++ " IN (" ++ Js.join "," ids ++ ")}".

Definition selectRowsStatement (model key : string) (ids : list value) : string :=
  "SELECT * FROM [" ++ model ++ "] WHERE " ++ key ++ " IN (" ++ Js.join "," ids ++ ")".

(** The assignments of [updateAll]: one for every own property of the
    new values that is a field of the schema and not the primary key. *)
Definition assignmentsOf (models : list Schema.t) (model : string) (newValues : value)
    : result (list string) :=
  match newValues with
  | VObj entries =>
      fold_right
        (fun '(name, v) acc =>
           let* rest := acc in
           let* schema := of_option (schemaOf models model) in
           match Schema.getField schema name with
           | Some _ =>
               let* key := pk models model in
               if String.eqb name key then OK rest
               else OK (("[" ++ model ++ "]." ++ name ++ " = '" ++ Js.to_string v
                         ++ "'") :: rest)
           | None => OK rest
           end)
        (OK []) entries
  | _ => OK []
  end.

(** ** The table definitions *)

Module Ddl.

(** A field with the properties the table definition reads; 0 stands
    for a [maxLength] or [max] that is not set, [undefined] for a
    default that is not set.  [list] is the type of the elements of a
    list field. *)
Record column := {
  field : Field.t;
  required : bool;
  multilingual : bool;
  unique : bool;
  default : value;
  maxLength : Z;
  max : Z;
  list_ : FieldType
}.

Record schema := {
  name : string;
  columns : list column
}.

(** [new Field(name).primary().type(Integer).required()] and
    [new Field(name).type(t).required()]. *)
Definition plain (name : string) (type : FieldType) (primary : bool) : column :=
  {| field := {| Field.fieldName := name; Field.type := type; Field.primary := primary |};
     required := true; multilingual := false; unique := false; default := VUndefined;
     maxLength := 0; max := 0; list_ := TString |}.

(** [getType(properties)]; [None] is [undefined]. *)
Definition getType (c : column) : option string :=
  match Field.type (field c) with
  | TBoolean => Some "BIT"
  | TEMail | TFile | TPassword | TTel | TURL | TString =>
      if Field.primary (field c) then Some "BIGINT"
      else Some ("NVARCHAR("
                 ++ Str.of_Z (if negb (maxLength c =? 0) then maxLength c else 255) ++ ")")
  | TFloat | TNumber =>
      Some ("DECIMAL("
            ++ Str.of_Z (if negb (max c =? 0)
                         then Z.of_nat (String.length (Str.of_Z (max c))) else 10)
            ++ ",10)")
  | TEnum | TInteger => Some "INT"
  | TObject | TText => Some "NTEXT"
  | TTimestamp => Some "BIGINT"
  | TRelation r =>
      match rel_type r with
      | One2One | One2Many => Some "BIGINT"
      | _ => None
      end
  | TList => None
  end.

(** The fields that get no column: lists, many-to-many and reverse
    relations. *)
Definition hasNoColumn (c : column) : bool :=
  match Field.type (field c) with
  | TList => true
  | TRelation r => match rel_type r with Many2Many | Reverse => true | _ => false end
  | _ => false
  end.

(** [columnDefinition(field)] *)
Definition columnDefinition (c : column) : string :=
  if hasNoColumn c then ""
  else
    let defaultRelation := Field.is_to_one (field c) in
    let defaultValue :=
      match Field.type (field c) with
      | TBoolean => if Js.truthy (default c) then "true" else "false"
      | _ => "'" ++ (if defaultRelation then "0" else Js.to_string (default c)) ++ "'"
      end in
    let hasDefault :=
      Js.truthy (default c)
      || match default c with VNum 0 => true | VStr EmptyString => true | _ => false end
      || defaultRelation in
    "`" ++ Field.fieldName (field c) ++ "` "
    ++ match getType c with Some t => t | None => "undefined" end
    ++ (if (required c && negb (Field.is_relation (field c))) || Field.primary (field c)
        then " NOT NULL" else "")
    ++ (if hasDefault then " DEFAULT '" ++ defaultValue ++ "'" else "")
    ++ (if unique c then " UNIQUE " else "")
    ++ (if Field.primary (field c) then " IDENTITY(1,1) " else "").

(** The tables [createDefinition] has created beside the own one, in the
    order of its calls of [relationTable] and [listTable]. *)
Inductive request :=
| RelationTable (c : column)
| ListTable (c : column).

Record definition := {
  ownColumn : string;
  lingualColumn : string;
  relations : list request
}.

(** [keyIndex] after the loop: the name of the last primary field. *)
Definition keyIndex (columns : list column) : option string :=
  fold_left
    (fun key c => if Field.primary (field c) then Some (Field.fieldName (field c)) else key)
    columns None.

Definition separator : string := " ," ++ newline ++ " ".

(** [createDefinition(fields, table, checkMultiLingual)] *)
Definition createDefinition (columns : list column) (checkMultiLingual : bool)
    : definition :=
  let own :=
    flat_map (fun c =>
                let text := columnDefinition c in
                if Str.non_empty text && negb (multilingual c && checkMultiLingual)
                then [text] else []) columns in
  let lingual :=
    flat_map (fun c =>
                let text := columnDefinition c in
                if Str.non_empty text && (multilingual c && checkMultiLingual)
                then [text] else []) columns in
  let others :=
    flat_map (fun c =>
                if Str.non_empty (columnDefinition c) then []
                else match Field.type (field c) with
                     | TRelation r =>
                         match rel_type r with
                         | Many2Many => [RelationTable c]
                         | _ => []
                         end
                     | TList => [ListTable c]
                     | _ => []
                     end) columns in
  let keyFiled :=
    match keyIndex columns with
    | Some key =>
        if Str.non_empty key
        then List.find (fun c => String.eqb (Field.fieldName (field c)) key) columns
        else None
    | None => None
    end in
  let keyColumn :=
    match keyFiled with
    | Some c => c
    | None => plain "id" TInteger true
    end in
  let own :=
    match keyFiled with
    | Some _ => own
    | None => (own ++ [columnDefinition keyColumn])%list
    end in
  let keySyntax := "PRIMARY KEY (" ++ Field.fieldName (field keyColumn) ++ ")" in
  {| ownColumn := Str.join separator (own ++ [keySyntax]);
     lingualColumn :=
       match lingual with
       | [] => ""
       | _ => Str.join separator (lingual ++ [columnDefinition keyColumn; keySyntax])
       end;
     relations := others |}.

(** The schema [relationTable(field, table)] makes for the junction
    table of a many-to-many field. *)
Definition relationTable (c : column) (table : string) : result schema :=
  let* suffix := pascalCase (Field.fieldName (field c)) in
  let* owner := camelCase table in
  let* relationship := of_option (Field.relation (field c)) in
  let* related := camelCase (rel_model relationship) in
  OK {| name := table ++ "Has" ++ suffix;
        columns := [plain "id" TInteger true; plain owner TInteger false;
                    plain related TInteger false] |}.

(** The schema [listTable(field, table)] makes for the table of a list
    field. *)
Definition listTable (c : column) (table : string) : result schema :=
  let* suffix := pascalCase (Field.fieldName (field c)) in
  OK {| name := table ++ suffix ++ "List";
        columns := [plain "id" TInteger true; plain "fk" TInteger false;
                    plain "value" (list_ c) false] |}.

(** The two statements of [createTable(schema)] for the own table. *)
Definition dropStatement (s : schema) : string :=
  "IF OBJECT_ID('" ++ name s ++ "', 'U') IS NOT NULL DROP TABLE " ++ name s.

Definition createStatement (s : schema) : string :=
  "CREATE TABLE [" ++ name s ++ "] (" ++ newline
  ++ ownColumn (createDefinition (columns s) true) ++ ")" ++ newline.

End Ddl.

(** The schema of a table as the registry holds it. *)
Definition registered (s : Ddl.schema) : Schema.t :=
  {| Schema.name := Ddl.name s; Schema.fields := map Ddl.field (Ddl.columns s) |}.

(** The tags with their columns. *)
Definition tagTable : Ddl.schema :=
  {| Ddl.name := "Tag";
     Ddl.columns := [Ddl.plain "id" TInteger true;
                     {| Ddl.field := {| Field.fieldName := "label"; Field.type := TString;
                                        Field.primary := false |};
                        Ddl.required := true; Ddl.multilingual := false;
                        Ddl.unique := true; Ddl.default := VStr "new";
                        Ddl.maxLength := 40; Ddl.max := 0; Ddl.list_ := TString |}] |}.

(** The column of a field of the blog with no constraint set. *)
Definition columnOf (f : Field.t) : Ddl.column :=
  {| Ddl.field := f; Ddl.required := false; Ddl.multilingual := false;
     Ddl.unique := false; Ddl.default := VUndefined; Ddl.maxLength := 0; Ddl.max := 0;
     Ddl.list_ := TString |}.

(** The fields [tags] and [notes] of a post. *)
Definition tagsField : Field.t :=
  {| Field.fieldName := "tags";
     Field.type := TRelation {| rel_model := "Tag"; rel_type := Many2Many; isWeek := false |};
     Field.primary := false |}.

Definition notesField : Field.t :=
  {| Field.fieldName := "notes"; Field.type := TList; Field.primary := false |}.

(** One cell of a row of the earlier bulk insert: the escaped value of
    an own property, two quotes for a property the row does not have. *)
Definition legacyCell (item : object) (f : Field.t) : result string :=
  match Js.lookup (Field.fieldName f) item with
  | Some v => let* e := escape v in OK (Js.to_string e)
  | None => OK "''"
  end.

(** The columns of the earlier bulk insert. *)
Definition legacyColumns (schema : Schema.t) : list Field.t :=
  filter (fun f => negb (Field.is_relation f) || Legacy.isEmbedded f) (Schema.fields schema).

(** A registry with an owned relation: a member owns its picture. *)
Definition owners : list Schema.t :=
  [ {| Schema.name := "Picture"; Schema.fields := [Blog.key "code"] |};
    {| Schema.name := "Member";
       Schema.fields :=
         [ Blog.key "id";
           {| Field.fieldName := "picture";
              Field.type :=
                TRelation {| rel_model := "Picture"; rel_type := One2One; isWeek := true |};
              Field.primary := false |} ] |} ].

(** The member 4, whose picture is the row 9. *)
Definition member : Model.t :=
  {| Model.schema := "Member"; Model.values := [("id", VNum 4); ("picture", VNum 9)] |}.

(** ** Reasons the handler of [findByQuery] can be given *)

(** A computation that throws nothing but what [if (err)] takes for an
    error. *)
Definition mild {A} (r : result A) : Prop :=
  match r with
  | Throw e => error_truthy e = true
  | OK _ => True
  end.

(** A promise that is settled, and when it fails does so with a reason
    that [if (err)] takes for an error. *)
Definition loud {A} (m : promise A) : Prop :=
  forall w,
    match fst (m w) with
    | Resolved _ => True
    | Rejected e | Thrown e => error_truthy e = true
    | Exhausted => False
    end.

(** A promise that is returned and settled: nothing is thrown before it
    is returned, and a rejection has a reason that [if (err)] takes for
    an error. *)
Definition firm {A} (m : promise A) : Prop :=
  forall w,
    match fst (m w) with
    | Resolved _ => True
    | Rejected e => error_truthy e = true
    | Thrown _ | Exhausted => False
    end.

(* ================================================================== *)
(** * Properties *)

(** ** Strings *)

Lemma append_assoc (a b c : string) : (a ++ b) ++ c = a ++ (b ++ c).
Proof.
  induction a as [|ch a IH]; simpl; [reflexivity | now rewrite IH].
Qed.

Lemma append_empty_r (a : string) : a ++ "" = a.
Proof.
  induction a as [|ch a IH]; simpl; [reflexivity | now rewrite IH].
Qed.

(** Both sides of an equation of appended strings, re-associated. *)
Ltac string_assoc :=
  repeat first [rewrite append_assoc | progress simpl]; try reflexivity.

Lemma trim_end_closing (s : string) : Str.trim_end (s ++ ")") = s ++ ")".
Proof.
  induction s as [|c s IH]; simpl; [reflexivity|].
  rewrite IH. destruct s; reflexivity.
Qed.

Lemma trim_wrapped (s : string) : wrapped s -> Str.trim s = s.
Proof.
  intros [body ->]. unfold Str.trim.
  change (Str.trim_start ("(" ++ body ++ ")")) with (("(" ++ body) ++ ")").
  rewrite trim_end_closing. reflexivity.
Qed.

Lemma wrapped_non_empty (s : string) : wrapped s -> Str.non_empty s = true.
Proof. intros [body ->]. reflexivity. Qed.

Lemma join_cons (sep x y : string) (rest : list string) :
  Str.join sep (x :: y :: rest) = x ++ sep ++ Str.join sep (y :: rest).
Proof. reflexivity. Qed.

Lemma join_wrapped (sep x : string) (rest : list string) :
  Forall wrapped (x :: rest) -> wrapped (Str.join sep (x :: rest)).
Proof.
  revert x. induction rest as [|y rest IH]; intros x H.
  - now inversion H.
  - inversion H as [|? ? [bx ->] Hrest]; subst.
    destruct (IH y Hrest) as [b' Hb'].
    rewrite join_cons, Hb'. exists (bx ++ ")" ++ sep ++ "(" ++ b').
    string_assoc.
Qed.

(** ** The condition translator *)

Lemma Condition_induction (P : Condition -> Prop) :
  (forall own operator comparison, P (Leaf own operator comparison)) ->
  (forall own operator children,
      Forall P children -> P (Connector own operator children)) ->
  forall c, P c.
Proof.
  intros HL HC. fix IH 1. intros [own operator comparison | own operator children].
  - apply HL.
  - apply HC. induction children as [|c children IHc]; constructor.
    + apply IH.
    + exact IHc.
Qed.

Lemma getCondition_connector models model own operator children alias :
  getCondition models model (Connector own operator children) alias =
  let* fragments := childrenCondition models (model_or own model) children in
  OK (connectorFragment operator fragments).
Proof.
  simpl. f_equal.
  induction children as [|child rest IH]; simpl; [reflexivity|].
  now rewrite IH.
Qed.

Lemma connectorFragment_wrapped operator (fragments : list string) :
  Forall wrapped fragments ->
  connectorFragment operator fragments =
  match fragments with
  | [] => ""
  | _ => "(" ++ Str.join (" " ++ connectorSymbol operator ++ " ") fragments ++ ")"
  end.
Proof.
  intros H. unfold connectorFragment. destruct fragments as [|x rest]; [reflexivity|].
  pose proof (join_wrapped (" " ++ connectorSymbol operator ++ " ") H) as W.
  rewrite (trim_wrapped W), (wrapped_non_empty W). reflexivity.
Qed.

(** A compiled condition is the empty string or a fragment in parentheses. *)
Lemma getCondition_shape models :
  forall condition model alias s,
    getCondition models model condition alias = OK s -> s = "" \/ wrapped s.
Proof.
  induction condition as [own operator comparison | own operator children IH]
    using Condition_induction; intros model alias s H.
  - simpl in H.
    destruct (schemaOf models (model_or own model)); simpl in H; [|discriminate].
    destruct comparison as [c|]; simpl in H; [|discriminate].
    destruct (Schema.getField t (field c)).
    + destruct (rightHandSide c) as [rhs|]; simpl in H; [|discriminate].
      injection H as <-. right. unfold leafFragment.
      exists ("[" ++ alias ++ "]." ++ field c ++ " " ++ comparisonSymbol operator ++ " " ++ rhs).
      string_assoc.
    + injection H as <-. now left.
  - rewrite getCondition_connector in H.
    assert (W : forall l, childrenCondition models (model_or own model) children = OK l ->
                          Forall wrapped l).
    { clear H. induction IH as [|child rest Hchild _ IHrest]; intros l Hl; simpl in Hl.
      - injection Hl as <-. constructor.
      - destruct (getCondition models (model_or own model) child (model_or own model))
          as [compiled|] eqn:E; simpl in Hl; [|discriminate].
        destruct (childrenCondition models (model_or own model) rest) as [others|];
          simpl in Hl; [|discriminate].
        injection Hl as <-. specialize (IHrest _ eq_refl).
        destruct (Hchild _ _ _ E) as [-> | Hw].
        + exact IHrest.
        + rewrite (trim_wrapped Hw), (wrapped_non_empty Hw). now constructor. }
    destruct (childrenCondition models (model_or own model) children) as [l|];
      simpl in H; [|discriminate].
    injection H as <-. rewrite (connectorFragment_wrapped operator (W _ eq_refl)).
    destruct l as [|x l]; [now left|]. right. eexists. reflexivity.
Qed.

Lemma trim_fragment models condition model alias s :
  getCondition models model condition alias = OK s -> Str.trim s = s.
Proof.
  intros H. destruct (getCondition_shape _ _ _ _ H) as [-> | W].
  - reflexivity.
  - now apply trim_wrapped.
Qed.

(** The loop keeps exactly the non-empty fragments of the children, in
    their order. *)
Lemma childrenCondition_fragments models model children fragments :
  Forall2 (fun child s => getCondition models model child model = OK s)
          children fragments ->
  childrenCondition models model children = OK (filter Str.non_empty fragments)
  /\ Forall wrapped (filter Str.non_empty fragments).
Proof.
  induction 1 as [|child s children fragments Hs _ [IHeq IHw]]; simpl.
  - split; [reflexivity | constructor].
  - rewrite Hs. simpl. rewrite IHeq. simpl.
    rewrite (trim_fragment _ _ _ _ Hs).
    destruct (getCondition_shape _ _ _ _ Hs) as [-> | W].
    + simpl. now split.
    + rewrite (wrapped_non_empty W). split; [reflexivity | now constructor].
Qed.

(** The literals a comparison renders: numbers, booleans and strings
    through [escape], an object through its [id]. *)
Lemma rightHandSide_literal (f : string) (v : value) :
  match v with
  | VNum _ | VNaN | VBool _ | VStr _ =>
      exists escaped,
        escape v = OK escaped /\
        rightHandSide {| field := f; cvalue := v; isValueOfTypeField := false |}
          = OK (Js.to_string escaped)
  | _ => True
  end.
Proof.
  destruct v; try exact I; eexists; split; reflexivity.
Qed.

(** C1.  Compiling a condition tree against an alias: a connector none
    of whose children leaves a fragment (in particular one without
    children) compiles to the empty string; a comparison on a field the
    schema declares, with a right-hand side that renders, compiles to
    the non-empty fragment ([alias].field operator rhs), the operator
    being the SQL sign or word of the comparison; and a connector
    compiles to the non-empty fragments of its children, each in
    parentheses, with the word AND (for an and-connector) or OR (for an
    or-connector) and a space on either side between every two of them,
    the whole wrapped in parentheses, so that every operator stands
    between two operands. *)
Theorem getCondition_never_dangles :
  forall (models : list Schema.t) (model alias : string),
    (forall own operator children,
        Forall (fun child =>
                  getCondition models (model_or own model) child (model_or own model)
                  = OK "") children ->
        getCondition models model (Connector own operator children) alias = OK "")
    /\
    (forall own operator c schema rhs,
        schemaOf models (model_or own model) = Some schema ->
        Schema.getField schema (field c) <> None ->
        rightHandSide c = OK rhs ->
        getCondition models model (Leaf own operator (Some c)) alias
        = OK ("([" ++ alias ++ "]." ++ field c ++ " "
              ++ match operator with
                 | EqualTo => "="
                 | NotEqualTo => "<>"
                 | GreaterThan => ">"
                 | GreaterThanOrEqualTo => ">="
                 | LessThan => "<"
                 | LessThanOrEqualTo => "<="
                 | Like => "LIKE"
                 | NotLike => "NOT LIKE"
                 end
              ++ " " ++ rhs ++ ")"))
    /\
    (forall own operator children fragments,
        Forall2 (fun child s =>
                   getCondition models (model_or own model) child (model_or own model)
                   = OK s) children fragments ->
        let surviving := filter Str.non_empty fragments in
        Forall wrapped surviving /\
        getCondition models model (Connector own operator children) alias
        = OK (match surviving with
              | [] => ""
              | _ => "(" ++ Str.join (match operator with
                                      | And => " AND "
                                      | Or => " OR "
                                      end) surviving
                     ++ ")"
              end)).
Proof.
  intros models model alias.
  assert (Joined : forall own operator children fragments,
             Forall2 (fun child s =>
                        getCondition models (model_or own model) child (model_or own model)
                        = OK s) children fragments ->
             Forall wrapped (filter Str.non_empty fragments) /\
             getCondition models model (Connector own operator children) alias
             = OK (match filter Str.non_empty fragments with
                   | [] => ""
                   | _ => "(" ++ Str.join (" " ++ connectorSymbol operator ++ " ")
                                   (filter Str.non_empty fragments) ++ ")"
                   end)).
  { intros own operator children fragments H.
    destruct (childrenCondition_fragments models (model_or own model) H) as [Heq Hw].
    split; [exact Hw|].
    rewrite getCondition_connector, Heq. simpl.
    now rewrite (connectorFragment_wrapped operator Hw). }
  split; [|split].
  - intros own operator children H.
    assert (F2 : Forall2 (fun child s =>
                            getCondition models (model_or own model) child
                                         (model_or own model) = OK s)
                         children (map (fun _ => "") children)).
    { induction H; simpl; constructor; assumption. }
    destruct (Joined own operator _ _ F2) as [_ ->].
    replace (filter Str.non_empty (map (fun _ : Condition => "") children)) with (@nil string).
    + reflexivity.
    + clear. induction children; simpl; auto.
  - intros own operator c schema rhs Hs Hf Hr. simpl.
    rewrite Hs. simpl.
    destruct (Schema.getField schema (field c)); [|congruence].
    rewrite Hr. now destruct operator.
  - intros own operator children fragments H.
    destruct (Joined own operator children fragments H) as [Hw Heq].
    split; [exact Hw|]. rewrite Heq. now destruct operator.
Qed.

(** C4.  [escape] returns a number as it is and a boolean as 1 or 0, and
    wraps a string in N'...'; but [replace] with a string pattern doubles
    only the first quote of the string: the second quote of a'b'c reaches
    the statement as it is. *)
Theorem escape_doubles_only_first_quote :
  (forall n, escape (VNum n) = OK (VNum n))
  /\ escape (VBool true) = OK (VNum 1)
  /\ escape (VBool false) = OK (VNum 0)
  /\ escape (VStr "a'b") = OK (VStr "N'a''b'")
  /\ escape (VStr "a'b'c") = OK (VStr "N'a''b'c'").
Proof.
  repeat split; reflexivity.
Qed.

(** ** The query parameter compiler *)

Lemma compileQuery_unfold models stripped query_ alias :
  compileQuery models stripped query_ alias =
  let relations := if stripped then [] else Vql.relations query_ in
  let* schema := of_option (schemaOf models (Vql.model query_)) in
  let* (orderBy, _) := ownOrderBy models query_ schema alias in
  let* fields := projection models schema alias (Vql.fields query_) relations in
  let* expanded := relationFields models query_ schema alias relations in
  let* condition :=
    match Vql.condition query_ with
    | Some c => getCondition models (Vql.model query_) c alias
    | None => OK ""
    end in
  let start :=
    {| js_fields := fields ++ expanded; js_condition := condition;
       js_orderBy := orderBy; js_joins := [] |} in
  let* st :=
    if stripped then OK start else compileJoins models alias (Vql.joins query_) start in
  OK {| ICalculatedQueryOptions.limit := limitClause query_;
        ICalculatedQueryOptions.orderBy := js_orderBy st;
        ICalculatedQueryOptions.fields := Str.join "," (js_fields st);
        ICalculatedQueryOptions.fieldsList := js_fields st;
        ICalculatedQueryOptions.condition := js_condition st;
        ICalculatedQueryOptions.join := Str.join newline (js_joins st) |}.
Proof.
  destruct query_ as [model fields condition orderBy limit offset page relations joins].
  cbn [compileQuery Vql.model Vql.fields Vql.condition Vql.relations Vql.joins].
  cbv zeta.
  destruct (of_option (schemaOf models model)) as [schema|]; [|reflexivity].
  cbn [bind].
  destruct (ownOrderBy models _ schema alias) as [[own flag]|]; [|reflexivity].
  cbn [bind].
  match goal with
  | |- bind ?a _ = bind ?b _ => replace a with b
  end.
  - destruct (projection models schema alias fields (if stripped then [] else relations));
      [|reflexivity].
    cbn [bind].
    destruct (relationFields models _ schema alias (if stripped then [] else relations));
      [|reflexivity].
    cbn [bind].
    match goal with
    | |- bind ?c _ = _ => destruct c; [|reflexivity]
    end.
    cbn [bind].
    destruct stripped; [reflexivity|].
    match goal with
    | |- bind ?a _ = bind ?b _ => replace a with b; [reflexivity|]
    end.
    generalize {| js_fields := a ++ a0; js_condition := a1; js_orderBy := own;
                  js_joins := [] |}.
    induction joins as [|[[type field] vql] rest IH]; intros st; [reflexivity|].
    cbn [compileJoins]. cbv zeta.
    destruct (of_option (schemaOf models alias)); [|reflexivity].
    cbn [bind].
    destruct (Schema.getField a2 field); [|apply IH].
    destruct (schemaOf models (Vql.model vql)); [|apply IH].
    destruct (pk models (Vql.model vql)); [|reflexivity].
    cbn [bind]. unfold getQueryParams.
    destruct (compileQuery models false vql (Vql.model vql ++ "_" ++ field)); [|reflexivity].
    cbn [bind]. apply IH.
  - unfold projection.
    match goal with
    | |- _ = match fields with [] => _ | _ :: _ => ?each fields end =>
        assert (Same : forall l, selectedFields models schema alias l = each l)
    end.
    { induction l as [|[column|sub] rest IH]; [reflexivity| |].
      - cbn [selectedFields]. rewrite IH. reflexivity.
      - cbn [selectedFields]. unfold getSubQuery.
        destruct (compileQuery models true sub (Vql.model sub)); [|reflexivity].
        cbn [bind]. destruct (subQueryText (Vql.model sub) a); [|reflexivity].
        cbn [bind]. rewrite IH. reflexivity. }
    destruct fields; [reflexivity | apply Same].
Qed.

Lemma relationFields_app models query_ schema alias before after attached :
  relationFields models query_ schema alias before = OK attached ->
  relationFields models query_ schema alias (before ++ after) =
  let* others := relationFields models query_ schema alias after in
  OK (attached ++ others)%list.
Proof.
  revert attached. induction before as [|request before IH]; intros attached H.
  - injection H as <-. simpl.
    destruct (relationFields models query_ schema alias after); reflexivity.
  - simpl in H |- *.
    destruct (relationField models query_ schema alias request) as [one|]; [|discriminate].
    simpl in H |- *.
    destruct (relationFields models query_ schema alias before) as [others|];
      [|discriminate].
    simpl in H. injection H as <-. rewrite (IH _ eq_refl). simpl.
    destruct (relationFields models query_ schema alias after); simpl; [|reflexivity].
    destruct one; reflexivity.
Qed.

Lemma relationField_missing models query_ schema alias request :
  Schema.getField schema (Vql.relation_name request) = None ->
  relationField models query_ schema alias request =
  Throw (if Js.inherited (Vql.relation_name request) then TypeError
         else Raised (VStr ("FIELD " ++ Vql.relation_name request ++ " NOT FOUND IN model "
                            ++ Vql.model query_ ++ " as " ++ alias))).
Proof.
  intros H. unfold relationField, Schema.index. rewrite H.
  now destruct (Js.inherited (Vql.relation_name request)).
Qed.

Lemma relationFields_never_ok models query_ schema alias requests request :
  In request requests ->
  Schema.getField schema (Vql.relation_name request) = None ->
  forall attached, relationFields models query_ schema alias requests <> OK attached.
Proof.
  induction requests as [|r requests IH]; intros Hin Hmiss attached; [contradiction|].
  simpl. destruct Hin as [-> | Hin].
  - rewrite (relationField_missing models query_ schema alias request Hmiss). discriminate.
  - destruct (relationField models query_ schema alias r); simpl; [|discriminate].
    destruct (relationFields models query_ schema alias requests) eqn:E; simpl;
      [|discriminate].
    exfalso. exact (IH Hin Hmiss _ eq_refl).
Qed.

Lemma pk_registered models model schema :
  schemaOf models model = Some schema -> exists key, pk models model = OK key.
Proof.
  intros H. unfold pk. rewrite H. simpl. eexists. reflexivity.
Qed.

Lemma ownOrderBy_registered models query_ schema alias :
  schemaOf models (Vql.model query_) = Some schema ->
  exists key,
    pk models (Vql.model query_) = OK key /\
    ownOrderBy models query_ schema alias =
    OK (ownOrder schema alias key query_,
        match Vql.orderBy query_ with
        | [] => negb (Vql.limit query_ =? 0)
        | _ => false
        end).
Proof.
  intros H. destruct (pk_registered models _ H) as [key Hkey].
  exists key. split; [exact Hkey|].
  unfold ownOrderBy, ownOrder, limitClause.
  destruct (Vql.orderBy query_); [|reflexivity].
  destruct (Vql.limit query_ =? 0); simpl; [reflexivity|].
  rewrite Hkey. reflexivity.
Qed.

(** C5.  A relation name that is not a field of the target entity's
    schema makes [getQueryParams] throw: it never returns parameters.
    When nothing before the first such name fails (the projection and
    the relations requested before it), what it throws is the message
    naming the missing field, the model and the alias, unless the name
    is one every object inherits ([toString], [constructor], ...): the
    test on the field lets that name through, and what is thrown is the
    [TypeError] of reading the type of a field that has no
    properties. *)
Theorem getQueryParams_missing_relation :
  forall (models : list Schema.t) (query_ : Vql.t) (alias : string) (schema : Schema.t),
    schemaOf models (Vql.model query_) = Some schema ->
    (forall request,
        In request (Vql.relations query_) ->
        Schema.getField schema (Vql.relation_name request) = None ->
        forall params, getQueryParams models query_ alias <> OK params)
    /\
    (forall before request after selected attached,
        Vql.relations query_ = (before ++ request :: after)%list ->
        Schema.getField schema (Vql.relation_name request) = None ->
        projection models schema alias (Vql.fields query_) (Vql.relations query_)
        = OK selected ->
        relationFields models query_ schema alias before = OK attached ->
        getQueryParams models query_ alias =
        Throw (if Js.inherited (Vql.relation_name request) then TypeError
               else Raised (VStr ("FIELD " ++ Vql.relation_name request
                                  ++ " NOT FOUND IN model " ++ Vql.model query_
                                  ++ " as " ++ alias)))).
Proof.
  intros models query_ alias schema Hschema.
  destruct (ownOrderBy_registered models query_ alias Hschema) as [key [_ Hown]].
  split.
  - intros request Hin Hmiss params. unfold getQueryParams.
    rewrite compileQuery_unfold. cbv zeta. rewrite Hschema. cbn [of_option bind].
    rewrite Hown. cbn [bind].
    destruct (projection models schema alias (Vql.fields query_) (Vql.relations query_));
      cbn [bind]; [|discriminate].
    destruct (relationFields models query_ schema alias (Vql.relations query_)) eqn:E;
      cbn [bind]; [|discriminate].
    exfalso. exact (relationFields_never_ok models query_ schema alias _ _ Hin Hmiss E).
  - intros before request after selected attached Hrel Hmiss Hsel Hbefore.
    unfold getQueryParams.
    rewrite compileQuery_unfold. cbv zeta. rewrite Hschema. cbn [of_option bind].
    rewrite Hown. cbn [bind]. rewrite Hsel. cbn [bind].
    rewrite Hrel, (relationFields_app _ _ _ _ _ (request :: after) Hbefore).
    cbn [relationFields].
    rewrite (relationField_missing models query_ schema alias request Hmiss).
    reflexivity.
Qed.

Lemma mergeJoin_orderBy st clause joinParam :
  js_orderBy (mergeJoin st clause joinParam) =
  appendOrder (js_orderBy st) (ICalculatedQueryOptions.orderBy joinParam).
Proof. reflexivity. Qed.

Lemma compileJoins_orderBy models alias joins :
  forall st st',
    compileJoins models alias joins st = OK st' ->
    exists orders,
      joinOrders models alias joins = OK orders /\
      js_orderBy st' = fold_left appendOrder orders (js_orderBy st).
Proof.
  induction joins as [|[[type field] vql] rest IH]; intros st st' H.
  - injection H as <-. exists []. split; reflexivity.
  - cbn [compileJoins joinOrders] in *. cbv zeta in H.
    destruct (of_option (schemaOf models alias)) as [aliased|]; [|discriminate].
    cbn [bind] in *.
    destruct (Schema.getField aliased field); [|exact (IH _ _ H)].
    destruct (schemaOf models (Vql.model vql)); [|exact (IH _ _ H)].
    destruct (pk models (Vql.model vql)); [|discriminate].
    cbn [bind] in *.
    destruct (getQueryParams models vql (Vql.model vql ++ "_" ++ field)) as [joinParam|];
      [|discriminate].
    cbn [bind] in *.
    destruct (IH _ _ H) as [orders [Horders Hst]].
    exists (ICalculatedQueryOptions.orderBy joinParam :: orders).
    rewrite Horders. split; [reflexivity|].
    rewrite Hst, mergeJoin_orderBy. reflexivity.
Qed.

(** Appending the order-by of joins never replaces what was there: the
    own order stays in front. *)
Lemma appendOrder_keeps orders :
  forall own, exists rest, fold_left appendOrder orders own = own ++ rest.
Proof.
  induction orders as [|o orders IH]; intros own; simpl.
  - exists "". now rewrite append_empty_r.
  - destruct (IH (appendOrder own o)) as [rest ->].
    unfold appendOrder.
    destruct (Str.non_empty o); [|now exists rest].
    destruct own as [|c own]; simpl.
    + eexists. reflexivity.
    + exists ("," ++ o ++ rest). string_assoc.
Qed.

(** C2 (as the code has it).  When [getQueryParams] returns: with a
    non-zero limit and no explicit order its order-by starts with the
    primary key of the target entity; with an explicit order it starts
    with the explicit keys the schema declares and no primary key is
    added; and in both cases the order-by of every compiled join is
    appended behind, after a comma, never put in the place of what was
    there. *)
Theorem getQueryParams_default_order :
  forall (models : list Schema.t) (query_ : Vql.t) (alias : string)
         (params : ICalculatedQueryOptions.t),
    getQueryParams models query_ alias = OK params ->
    exists schema key orders rest,
      schemaOf models (Vql.model query_) = Some schema /\
      pk models (Vql.model query_) = OK key /\
      joinOrders models alias (Vql.joins query_) = OK orders /\
      ICalculatedQueryOptions.orderBy params
      = fold_left appendOrder orders (ownOrder schema alias key query_) /\
      ICalculatedQueryOptions.orderBy params = ownOrder schema alias key query_ ++ rest /\
      (Vql.orderBy query_ = [] -> Vql.limit query_ <> 0 ->
       ownOrder schema alias key query_ = key) /\
      (Vql.orderBy query_ <> [] ->
       ownOrder schema alias key query_
       = Str.join "," (orderArray schema alias (Vql.orderBy query_))).
Proof.
  intros models query_ alias params H. unfold getQueryParams in H.
  rewrite compileQuery_unfold in H. cbv zeta in H.
  destruct (schemaOf models (Vql.model query_)) as [schema|] eqn:Hschema;
    [|discriminate].
  cbn [of_option bind] in H.
  destruct (ownOrderBy_registered models query_ alias Hschema) as [key [Hkey Hown]].
  rewrite Hown in H. cbn [bind] in H.
  destruct (projection models schema alias (Vql.fields query_) (Vql.relations query_));
    [|discriminate].
  cbn [bind] in H.
  destruct (relationFields models query_ schema alias (Vql.relations query_));
    [|discriminate].
  cbn [bind] in H.
  match type of H with
  | bind ?c _ = _ => destruct c; [|discriminate]
  end.
  cbn [bind] in H.
  match type of H with
  | bind ?c _ = _ => destruct c as [st|] eqn:Hjoins; [|discriminate]
  end.
  cbn [bind] in H. injection H as <-.
  destruct (compileJoins_orderBy _ _ _ _ Hjoins) as [orders [Horders Hst]].
  cbn [js_orderBy] in Hst.
  destruct (appendOrder_keeps orders (ownOrder schema alias key query_)) as [rest Hrest].
  exists schema, key, orders, rest.
  cbn [ICalculatedQueryOptions.orderBy].
  repeat split; try assumption.
  - now rewrite Hst.
  - unfold ownOrder. intros -> Hlimit.
    destruct (Vql.limit query_ =? 0) eqn:E; [|reflexivity].
    apply Z.eqb_eq in E. contradiction.
  - unfold ownOrder. destruct (Vql.orderBy query_); [congruence | reflexivity].
Qed.

(** The theorem of C1 on scenario D of the specification: the empty OR
    is dropped and the comparison stands alone in the parentheses of
    the AND. *)
Lemma getCondition_never_dangles_witness :
  getCondition Blog.models "Post" (Connector None Or []) "p" = OK ""
  /\ getCondition Blog.models "Post" (Blog.compare EqualTo "title" (VStr "open")) "p"
     = OK "([p].title = N'open')"
  /\ getCondition Blog.models "Post" Example.openAndNothing "p"
     = OK "(([Post].title = N'open'))"
  /\ getCondition Blog.models "Post" Example.openOrDraft "p"
     = OK "(([Post].title = N'open') OR ([Post].title = N'draft'))".
Proof.
  destruct (getCondition_never_dangles Blog.models "Post" "p") as [Empty [Leaf_ Joined]].
  split; [|split; [|split]].
  - apply Empty. constructor.
  - apply (Leaf_ None EqualTo
                 {| field := "title"; cvalue := VStr "open"; isValueOfTypeField := false |}
                 Blog.Post "N'open'"); [reflexivity | discriminate | reflexivity].
  - apply (Joined None And
                  [Blog.compare EqualTo "title" (VStr "open"); Connector None Or []]
                  ["([Post].title = N'open')"; ""]).
    repeat constructor.
  - apply (Joined None Or
                  [Blog.compare EqualTo "title" (VStr "open"); Connector None And [];
                   Blog.compare EqualTo "title" (VStr "draft")]
                  ["([Post].title = N'open')"; ""; "([Post].title = N'draft')"]).
    repeat constructor.
Defined.

(** The theorem of C5 on the posts with their author and an editor, and
    on the posts with their author and the relation [toString]. *)
Lemma getQueryParams_missing_relation_witness :
  getQueryParams Blog.models Example.postsWithEditor "Post"
  = Throw (Raised (VStr "FIELD editor NOT FOUND IN model Post as Post"))
  /\ getQueryParams Blog.models Example.postsWithToString "Post" = Throw TypeError.
Proof.
  split.
  - destruct (getQueryParams_missing_relation Blog.models Example.postsWithEditor "Post"
                (schema := Blog.Post) eq_refl) as [_ Message].
    eapply (Message [Vql.Name "author"] (Vql.Name "editor") []); reflexivity.
  - destruct (getQueryParams_missing_relation Blog.models Example.postsWithToString "Post"
                (schema := Blog.Post) eq_refl) as [_ Message].
    eapply (Message [Vql.Name "author"] (Vql.Name "toString") []); reflexivity.
Defined.

(** The theorem of C2 on the posts by pages with their authors. *)
Lemma getQueryParams_default_order_witness :
  exists params,
    getQueryParams Blog.models Example.pagedPosts "Post" = OK params
    /\ exists schema key orders rest,
        schemaOf Blog.models "Post" = Some schema /\
        pk Blog.models "Post" = OK key /\
        joinOrders Blog.models "Post" (Vql.joins Example.pagedPosts) = OK orders /\
        ICalculatedQueryOptions.orderBy params
        = fold_left appendOrder orders (ownOrder schema "Post" key Example.pagedPosts) /\
        ICalculatedQueryOptions.orderBy params
        = ownOrder schema "Post" key Example.pagedPosts ++ rest /\
        (Vql.orderBy Example.pagedPosts = [] -> Vql.limit Example.pagedPosts <> 0 ->
         ownOrder schema "Post" key Example.pagedPosts = key) /\
        (Vql.orderBy Example.pagedPosts <> [] ->
         ownOrder schema "Post" key Example.pagedPosts
         = Str.join "," (orderArray schema "Post" (Vql.orderBy Example.pagedPosts))).
Proof.
  eexists. split.
  - vm_compute. reflexivity.
  - apply (getQueryParams_default_order Blog.models Example.pagedPosts "Post").
    vm_compute. reflexivity.
Defined.

(** C2, as the claim states it, fails: no explicit order and a limit of
    five inject the primary key [id] as the default order, and the
    order-by of the joined authors is used all the same, behind it. *)
Lemma join_order_used_beside_default :
  exists params,
    getQueryParams Blog.models Example.pagedPosts "Post" = OK params
    /\ Vql.orderBy Example.pagedPosts = []
    /\ Vql.limit Example.pagedPosts = 5
    /\ pk Blog.models "Post" = OK "id"
    /\ ICalculatedQueryOptions.orderBy params = "id,[User_author].name ASC"
    /\ ICalculatedQueryOptions.orderBy params <> "id".
Proof.
  eexists. split; [vm_compute; reflexivity|].
  repeat split; try reflexivity.
  discriminate.
Qed.

(** ** The result normalizer *)

Lemma looksLikeObject_driverCell v :
  driverCell v = true -> exists b, looksLikeObject v = OK b.
Proof.
  intros H. unfold looksLikeObject.
  destruct (Js.truthy v); [|now eexists].
  destruct v; try (now eexists).
  simpl in H. destruct (Js.lookup "indexOf" props) as [f|]; [|now eexists].
  destruct (Js.truthy f); [discriminate | now eexists].
Qed.

Lemma normalizeCell_driverCell JSON_parse schema key v :
  driverCell v = true -> exists v', normalizeCell JSON_parse schema key v = OK v'.
Proof.
  intros H. unfold normalizeCell.
  destruct (Schema.getField schema key) as [f|].
  - destruct (Field.is_object f || Field.is_to_one f); now eexists.
  - destruct (looksLikeObject_driverCell v H) as [b ->]. now eexists.
Qed.

Lemma normalizeRow_driverRow JSON_parse schema o :
  forallb (fun '(_, v) => driverCell v) o = true ->
  exists o',
    normalizeRow JSON_parse schema o = OK o' /\
    Forall2 (fun cell cell' =>
               fst cell' = fst cell /\
               normalizeCell JSON_parse schema (fst cell) (snd cell) = OK (snd cell'))
            o o'.
Proof.
  induction o as [|[key v] o IH]; intros H; simpl in *.
  - exists []. split; [reflexivity | constructor].
  - apply andb_prop in H as [Hv Ho].
    destruct (normalizeCell_driverCell JSON_parse schema key v Hv) as [v' Hv'].
    destruct (IH Ho) as [o' [Ho' F]].
    exists ((key, v') :: o'). rewrite Hv', Ho'. split; [reflexivity|].
    constructor; [split; [reflexivity | exact Hv'] | exact F].
Qed.

(** C7, amended.  [normalizeList] throws on no list of rows of the
    driver and keeps their columns; a column the schema marks as an
    embedded object or a to-one relation is left as [parseJson] makes
    it; and [parseJson] returns a value that is no string, or the empty
    string, as it is, a string that parses (after the replacements,
    which an embedded object skips) as the parsed value, and on a parse
    failure the string as the replacements left it: the raw string for
    an embedded object, the un-escaped one for a relation.  In the
    earlier revision, which cannot throw, the columns parsed are the
    relations that are not many-to-many, and a parse failure leaves the
    string with its control characters and quote escaped. *)
Theorem normalizeList_never_throws :
  forall (JSON_parse : string -> option value) (schema : Schema.t),
    (forall rows,
        forallb driverRow rows = true ->
        exists rows',
          normalizeList JSON_parse schema (VArr rows) = OK (VArr rows') /\
          Forall2 (normalizedRow JSON_parse schema) rows rows')
    /\
    (forall key f v,
        Schema.getField schema key = Some f ->
        Field.is_object f || Field.is_to_one f = true ->
        normalizeCell JSON_parse schema key v = OK (parseJson JSON_parse v (Field.is_object f)))
    /\
    (forall v isObject,
        match v with
        | VStr (String c s) =>
            let text := if isObject then String c s else Unescape.unescape (String c s) in
            parseJson JSON_parse v isObject =
            match JSON_parse text with
            | Some json => json
            | None => VStr text
            end
        | _ => parseJson JSON_parse v isObject = v
        end)
    /\
    (forall key f v,
        Schema.getField schema key = Some f ->
        Legacy.isEmbedded f = true ->
        Legacy.normalizeCell JSON_parse schema key v = Legacy.parseJson JSON_parse v)
    /\
    (forall v,
        match v with
        | VStr (String c s) =>
            Legacy.parseJson JSON_parse v =
            match JSON_parse (Legacy.escapeControls (String c s)) with
            | Some json => json
            | None => VStr (Legacy.escapeControls (String c s))
            end
        | _ => Legacy.parseJson JSON_parse v = v
        end).
Proof.
  intros JSON_parse schema. split; [|split; [|split; [|split]]].
  - induction rows as [|row rows IH]; intros H.
    + exists []. split; [reflexivity | constructor].
    + simpl in H. apply andb_prop in H as [Hrow Hrows].
      destruct (IH Hrows) as [rows' [Hrows' F]].
      simpl in Hrows' |- *.
      destruct (fold_right _ _ rows) as [done|]; [|discriminate].
      simpl in Hrows'. injection Hrows' as ->. simpl.
      destruct row as [| | | | | |l|o];
        try (eexists; split; [reflexivity | constructor; [reflexivity | exact F]]).
      destruct (normalizeRow_driverRow JSON_parse schema o Hrow) as [o' [Ho' Cells]].
      rewrite Ho'. simpl. eexists. split; [reflexivity|].
      constructor; [|exact F]. exists o'. split; [reflexivity | exact Cells].
  - intros key f v Hf Hmarked. unfold normalizeCell. now rewrite Hf, Hmarked.
  - intros v isObject. destruct v as [| | | | |s| |]; try reflexivity.
    destruct s; reflexivity.
  - intros key f v Hf Hmarked. unfold Legacy.normalizeCell. now rewrite Hf, Hmarked.
  - intros v. destruct v as [| | | | |s| |]; try reflexivity.
    destruct s; reflexivity.
Qed.

(** C7, as the claim states it, fails: the author column of a post holds
    a text that is no JSON, x'y; the parse fails, and the value the row
    gets is not the raw string but the un-escaped one, with the quote
    replaced by a right single quotation mark; in the earlier revision
    it is the string with a backslash before the quote. *)
Lemma parse_failure_keeps_unescaped_text :
  Json.parse (Unescape.unescape "x'y") = None
  /\ normalizeList Json.parse Blog.Post (VArr [VObj [("author", VStr "x'y")]])
     = OK (VArr [VObj [("author", VStr ("x" ++ Unescape.rsquo ++ "y"))]])
  /\ VStr ("x" ++ Unescape.rsquo ++ "y") <> VStr "x'y"
  /\ Json.parse (Legacy.escapeControls "x'y") = None
  /\ Legacy.normalizeList Json.parse Blog.Post (VArr [VObj [("author", VStr "x'y")]])
     = VArr [VObj [("author", VStr "x\'y")]]
  /\ VStr "x\'y" <> VStr "x'y".
Proof.
  repeat split; try (vm_compute; reflexivity); discriminate.
Qed.

(** ** The relationship fan-out *)

Lemma lookup_delete_same key o : Js.lookup key (Js.delete key o) = None.
Proof.
  induction o as [|[k v] o IH]; simpl; [reflexivity|].
  destruct (String.eqb key k) eqn:E; [exact IH|].
  simpl. now rewrite E.
Qed.

(** A stripped row has no junction key any more. *)
Lemma cell_strip leftKey rightKey relatedPk r :
  cell leftKey (strip leftKey rightKey relatedPk r) = VUndefined
  \/ strip leftKey rightKey relatedPk r = r.
Proof.
  destruct r; try (now right).
  left. unfold cell. simpl. now rewrite lookup_delete_same.
Qed.

Lemma loose_eq_undefined id :
  Js.is_nullish id = false -> Rows.loose_eq id VUndefined = false.
Proof.
  destruct id; simpl; intros H; try reflexivity; discriminate.
Qed.

Lemma takeMatching_spec leftKey rightKey relatedPk id relatedRows :
  Forall (fun r => Js.is_nullish r = false) relatedRows ->
  forall j,
    takeMatching leftKey rightKey relatedPk id relatedRows j =
    OK (map (fun r => if matching leftKey id r
                      then strip leftKey rightKey relatedPk r else r) relatedRows,
        positions leftKey id relatedRows j).
Proof.
  induction 1 as [|r rest Hr _ IH]; intros j; simpl; [reflexivity|].
  rewrite IH. simpl. unfold matching, cell.
  destruct (Js.get r leftKey) as [key|] eqn:E.
  - simpl. destruct (Rows.loose_eq id key); [reflexivity | now rewrite app_nil_r].
  - exfalso. destruct r; simpl in *; try discriminate;
      destruct (String.eqb leftKey "length"); discriminate.
Qed.

Lemma stripped_never_matches leftKey rightKey relatedPk id r :
  Js.is_nullish id = false ->
  matching leftKey id r = false ->
  matching leftKey id (strip leftKey rightKey relatedPk r) = false.
Proof.
  intros Hid Hr. destruct (cell_strip leftKey rightKey relatedPk r) as [E | E].
  - unfold matching. rewrite E. now apply loose_eq_undefined.
  - now rewrite E.
Qed.

Lemma strip_not_nullish leftKey rightKey relatedPk r :
  Js.is_nullish r = false -> Js.is_nullish (strip leftKey rightKey relatedPk r) = false.
Proof. destruct r; simpl; auto. Qed.

Lemma positions_stripMatched leftKey rightKey relatedPk id ids relatedRows :
  Js.is_nullish id = false ->
  (forall r, In r relatedRows -> matching leftKey id r = true ->
             existsb (fun other => matching leftKey other r) ids = false) ->
  forall j,
    positions leftKey id (stripMatched leftKey rightKey relatedPk ids relatedRows) j
    = positions leftKey id relatedRows j.
Proof.
  intros Hid. unfold stripMatched.
  induction relatedRows as [|r rest IH]; intros Hfirst j; simpl; [reflexivity|].
  rewrite IH by (intros; apply Hfirst; [now right | assumption]).
  f_equal.
  destruct (existsb (fun other => matching leftKey other r) ids) eqn:E; [|reflexivity].
  destruct (matching leftKey id r) eqn:M.
  - rewrite (Hfirst r (or_introl eq_refl) M) in E. discriminate.
  - now rewrite (stripped_never_matches _ rightKey relatedPk _ _ Hid M).
Qed.

Lemma take_stripMatched leftKey rightKey relatedPk id ids relatedRows :
  Js.is_nullish id = false ->
  (forall r, In r relatedRows -> matching leftKey id r = true ->
             existsb (fun other => matching leftKey other r) ids = false) ->
  map (fun r => if matching leftKey id r then strip leftKey rightKey relatedPk r else r)
      (stripMatched leftKey rightKey relatedPk ids relatedRows)
  = stripMatched leftKey rightKey relatedPk (id :: ids) relatedRows.
Proof.
  intros Hid Hfirst. unfold stripMatched. rewrite map_map.
  apply map_ext_in. intros r Hin. simpl.
  destruct (existsb (fun other => matching leftKey other r) ids) eqn:E.
  - destruct (matching leftKey id r) eqn:M.
    + rewrite (Hfirst r Hin M) in E. discriminate.
    + now rewrite (stripped_never_matches _ rightKey relatedPk _ _ Hid M).
  - now rewrite orb_false_r.
Qed.

(** The loop over the primary rows: each row takes the positions of the
    related rows that match its key, and every related row a key matches
    is stripped once. *)
Lemma attach_spec primaryKey leftKey rightKey relatedPk relatedRows :
  Forall (fun r => Js.is_nullish r = false) relatedRows ->
  forall rows ids,
    Forall2 (fun row id => Js.get row primaryKey = Some id /\ Js.is_nullish id = false)
            rows ids ->
    exclusive leftKey ids relatedRows ->
    attach primaryKey leftKey rightKey relatedPk rows relatedRows =
    OK (combine rows (map (fun id => positions leftKey id relatedRows 0) ids),
        stripMatched leftKey rightKey relatedPk ids relatedRows).
Proof.
  intros Hrelated. induction 1 as [|row id rows ids [Hget Hid] _ IH]; intros Hex.
  - simpl. unfold stripMatched. simpl. now rewrite map_id.
  - destruct Hex as [Hfirst Hrest]. simpl. rewrite (IH Hrest). simpl.
    rewrite Hget. simpl.
    rewrite takeMatching_spec.
    + simpl.
      rewrite (positions_stripMatched _ rightKey relatedPk _ _ _ Hid Hfirst).
      rewrite (take_stripMatched _ rightKey relatedPk _ _ _ Hid Hfirst).
      reflexivity.
    + unfold stripMatched. apply Forall_forall. intros r Hin.
      apply in_map_iff in Hin as [r0 [<- Hin0]].
      rewrite Forall_forall in Hrelated.
      destruct (existsb _ ids); [apply strip_not_nullish|]; now apply Hrelated.
Qed.

Lemma attached_positions leftKey rightKey relatedPk id relatedRows :
  forall final before,
    Forall2 (fun r f => matching leftKey id r = true ->
                        f = strip leftKey rightKey relatedPk r) relatedRows final ->
    map (fun j => nth j (before ++ final)%list VUndefined)
        (positions leftKey id relatedRows (List.length before))
    = attachedTo leftKey rightKey relatedPk id relatedRows.
Proof.
  unfold attachedTo.
  induction relatedRows as [|r rest IH]; intros final before H.
  - reflexivity.
  - inversion H as [|? f ? frest Hf Hrest]; subst. simpl.
    rewrite map_app.
    specialize (IH frest (before ++ [f])%list Hrest).
    rewrite <- app_assoc in IH. simpl in IH.
    rewrite length_app in IH. simpl in IH. rewrite Nat.add_1_r in IH.
    rewrite IH.
    destruct (matching leftKey id r) eqn:M; simpl.
    + rewrite nth_middle. now rewrite (Hf eq_refl).
    + now rewrite app_nil_r.
Qed.

Lemma stripMatched_member leftKey rightKey relatedPk id ids relatedRows :
  In id ids ->
  Forall2 (fun r f => matching leftKey id r = true ->
                      f = strip leftKey rightKey relatedPk r)
          relatedRows (stripMatched leftKey rightKey relatedPk ids relatedRows).
Proof.
  intros Hin. unfold stripMatched.
  induction relatedRows as [|r rest IH]; simpl; constructor; [|exact IH].
  intros M.
  replace (existsb (fun other => matching leftKey other r) ids) with true; [reflexivity|].
  symmetry. apply existsb_exists. now exists id.
Qed.

Lemma assemble_rows (related : string) (final : list value) (attached : value -> list value)
      (taken : value -> list nat) :
  forall rows : list value,
    Forall (fun row => isObject row = true
                       /\ map (fun j => nth j final VUndefined) (taken row) = attached row)
           rows ->
    fold_right
      (fun '(row, positions) acc =>
         let* done := acc in
         let* row' := Rows.assign row related
                        (VArr (map (fun j => nth j final VUndefined) positions)) in
         OK (row' :: done))
      (OK []) (combine rows (map taken rows))
    = OK (map (fun row =>
                 match row with
                 | VObj o => VObj (Js.set related (VArr (attached row)) o)
                 | _ => row
                 end) rows).
Proof.
  induction 1 as [|row rows [Hobj Hrow] _ IH]; simpl.
  - reflexivity.
  - rewrite IH. simpl. rewrite Hrow.
    destruct row; try discriminate. reflexivity.
Qed.

(** The merge of one secondary result, under the conditions that keep
    the shared related rows from being taken twice: every primary row is
    an object with a key that is not null or undefined, no related row
    is null or undefined, and no related row matches two keys. *)
Lemma mergeRelation_spec models model related rows relatedRows
      leftKey rightKey primaryKey relatedPk f r relatedSchema :
  camelCase model = OK leftKey ->
  relationOf models model related = OK (f, r, relatedSchema) ->
  camelCase (Schema.name relatedSchema) = OK rightKey ->
  pk models model = OK primaryKey ->
  pk models (Schema.name relatedSchema) = OK relatedPk ->
  Forall (fun row => isObject row = true /\ Js.is_nullish (cell primaryKey row) = false)
         rows ->
  Forall (fun r => Js.is_nullish r = false) relatedRows ->
  exclusive leftKey (map (cell primaryKey) rows) relatedRows ->
  mergeRelation models model rows related (VArr relatedRows) =
  OK (map (fun row =>
             match row with
             | VObj o =>
                 VObj (Js.set related
                         (VArr (attachedTo leftKey rightKey relatedPk
                                           (cell primaryKey row) relatedRows)) o)
             | _ => row
             end) rows).
Proof.
  intros Hleft Hrel Hright Hpk Hrpk Hrows Hrelated Hex.
  unfold mergeRelation. rewrite Hleft, Hrel. simpl. rewrite Hright. simpl.
  destruct rows as [|row0 rows0]; [reflexivity|].
  remember (row0 :: rows0) as rows eqn:Erows. clear Erows row0 rows0.
  rewrite Hpk, Hrpk. simpl.
  assert (Keys : Forall2 (fun row id => Js.get row primaryKey = Some id
                                        /\ Js.is_nullish id = false)
                         rows (map (cell primaryKey) rows)).
  { clear - Hrows. induction Hrows as [|row rows [Hobj Hid] _ IH]; simpl; constructor.
    - split; [|exact Hid]. destruct row; try discriminate. reflexivity.
    - exact IH. }
  rewrite (@attach_spec primaryKey leftKey rightKey relatedPk relatedRows Hrelated _ _ Keys Hex). simpl.
  rewrite map_map.
  apply (assemble_rows related
           (stripMatched leftKey rightKey relatedPk (map (cell primaryKey) rows) relatedRows)
           (fun row => attachedTo leftKey rightKey relatedPk (cell primaryKey row) relatedRows)
           (fun row => positions leftKey (cell primaryKey row) relatedRows 0)).
  apply Forall_forall. intros row Hin. split.
  - rewrite Forall_forall in Hrows. now destruct (Hrows row Hin).
  - apply (@attached_positions leftKey rightKey relatedPk (cell primaryKey row)
             relatedRows _ []).
    apply stripMatched_member. now apply in_map.
Qed.

Lemma column_cells key :
  forall rows,
    Forall (fun row => Js.is_nullish row = false) rows ->
    Rows.column key rows = OK (rev (map (cell key) rows)).
Proof.
  induction 1 as [|row rows Hrow _ IH]; simpl.
  - reflexivity.
  - rewrite IH. simpl. unfold cell.
    destruct (Js.get row key) eqn:G; [reflexivity|].
    destruct row; try discriminate;
      simpl in G; destruct (String.eqb key "length"); discriminate.
Qed.

Lemma relatedQuery_toOne models query_ ids transaction request w :
  toOneRequest models (Vql.model query_) request ->
  relatedQuery models query_ ids transaction request w = (Resolved None, w).
Proof.
  intros (f & r & related & Hrel & Htype).
  unfold relatedQuery. rewrite Hrel. simpl.
  destruct Htype as [-> | ->]; reflexivity.
Qed.

Lemma all_toOne models query_ ids transaction w :
  forall requests,
    Forall (toOneRequest models (Vql.model query_)) requests ->
    exists started,
      P.all (map (relatedQuery models query_ ids transaction) requests) w
      = (Resolved started, w)
      /\ somes started = [].
Proof.
  induction 1 as [|request requests Hone _ (started & Hall & Hnone)]; simpl.
  - now exists [].
  - rewrite (relatedQuery_toOne _ _ _ _ Hone), Hall.
    now exists (None :: started).
Qed.

(** Without rows, or with to-one relations only, the rows come back as
    they are and the driver is not called. *)
Lemma getManyToManyRelation_toOne models rows query_ transaction w primaryKey :
  pk models (Vql.model query_) = OK primaryKey ->
  Forall (fun row => Js.is_nullish row = false) (Rows.items rows) ->
  Forall (toOneRequest models (Vql.model query_)) (Vql.relations query_) ->
  getManyToManyRelation models rows query_ transaction w = (Resolved rows, w).
Proof.
  intros Hpk Hrows Hone.
  unfold getManyToManyRelation.
  destruct (Rows.items rows) as [|row0 rest] eqn:Eitems; [reflexivity|].
  rewrite Hpk. cbn [bind]. rewrite (column_cells _ Hrows). cbn [P.try_].
  destruct (rev (map (cell primaryKey) (row0 :: rest))) as [|id ids] eqn:Eids.
  - reflexivity.
  - destruct (Vql.relations query_) as [|request requests] eqn:Erel; [reflexivity|].
    apply Forall_rev in Hone.
    destruct (@all_toOne models query_ (id :: ids) transaction w _ Hone)
      as (started & Hall & Hnone).
    rewrite Hall, Hnone. reflexivity.
Qed.

(** ** The merge of several relations *)

Lemma lookup_delete_other k k' o :
  k <> k' -> Js.lookup k (Js.delete k' o) = Js.lookup k o.
Proof.
  intros Hk. induction o as [|[k0 v] o IH]; simpl; [reflexivity|].
  destruct (String.eqb k' k0) eqn:E.
  - apply String.eqb_eq in E. subst k0.
    destruct (String.eqb k k') eqn:E'; [apply String.eqb_eq in E'; contradiction|exact IH].
  - simpl. now rewrite IH.
Qed.

Lemma lookup_set_same k v o : Js.lookup k (Js.set k v o) = Some v.
Proof.
  induction o as [|[k0 v0] o IH]; simpl.
  - now rewrite String.eqb_refl.
  - destruct (String.eqb k k0) eqn:E; simpl; [now rewrite String.eqb_refl|].
    now rewrite E.
Qed.

Lemma lookup_set_other k k' v o :
  k <> k' -> Js.lookup k (Js.set k' v o) = Js.lookup k o.
Proof.
  intros Hk. apply String.eqb_neq in Hk.
  induction o as [|[k0 v0] o IH]; simpl.
  - now rewrite Hk.
  - destruct (String.eqb k' k0) eqn:E; simpl.
    + apply String.eqb_eq in E. subst k0. now rewrite Hk.
    + now rewrite IH.
Qed.

Lemma strip_withoutJunctionKeys leftKey rightKey relatedPk r :
  withoutJunctionKeys leftKey rightKey relatedPk r (strip leftKey rightKey relatedPk r).
Proof.
  intros o ->. simpl. eexists. split; [reflexivity|]. repeat split.
  - apply lookup_delete_same.
  - destruct (String.eqb rightKey leftKey) eqn:E.
    + apply String.eqb_eq in E. subst. apply lookup_delete_same.
    + apply String.eqb_neq in E. rewrite lookup_delete_other by exact E.
      apply lookup_delete_same.
  - intros Hl Hr. rewrite !lookup_delete_other by assumption.
    rewrite lookup_set_same. unfold cell. simpl. reflexivity.
  - intros k Hl Hr Hp. rewrite !lookup_delete_other by assumption.
    now apply lookup_set_other.
Qed.

Lemma attachedTo_withoutJunctionKeys leftKey rightKey relatedPk id relatedRows :
  Forall2 (withoutJunctionKeys leftKey rightKey relatedPk)
          (rev (filter (matching leftKey id) relatedRows))
          (attachedTo leftKey rightKey relatedPk id relatedRows).
Proof.
  unfold attachedTo. rewrite <- map_rev.
  induction (rev (filter (matching leftKey id) relatedRows)) as [|r rest IH]; simpl;
    constructor; [apply strip_withoutJunctionKeys | exact IH].
Qed.

Lemma cell_attachOne leftKey primaryKey row d :
  q_name d <> primaryKey ->
  cell primaryKey (attachOne leftKey primaryKey row d) = cell primaryKey row.
Proof.
  intros Hname. destruct row; try reflexivity.
  unfold cell, attachOne. simpl. rewrite lookup_set_other by congruence. reflexivity.
Qed.

Lemma mergeRelations_spec models model leftKey primaryKey ids :
  camelCase model = OK leftKey ->
  pk models model = OK primaryKey ->
  forall answers data,
    Forall2 (queriedAs models model) answers data ->
    Forall (fun d => q_name d <> primaryKey
                     /\ Forall (fun r => Js.is_nullish r = false) (q_rows d)
                     /\ exclusive leftKey ids (q_rows d)) data ->
    forall rows,
      Forall (fun row => isObject row = true
                         /\ Js.is_nullish (cell primaryKey row) = false) rows ->
      map (cell primaryKey) rows = ids ->
      mergeRelations models model rows answers
      = OK (map (attachAll leftKey primaryKey data) rows).
Proof.
  intros Hleft Hpk answers data Hanswers.
  induction Hanswers as [|[name relatedList] d answers data Hd _ IH];
    intros Hdata rows Hrows Hids.
  - simpl. now rewrite map_id.
  - destruct Hd as (Hname & Hlist & f & r & related & Hrel & Hright & Hrpk).
    simpl in Hname, Hlist. subst name relatedList.
    inversion Hdata as [|? ? (Hother & Hnn & Hex) Hrest]; subst.
    cbn [mergeRelations].
    rewrite (@mergeRelation_spec models model (q_name d) rows (q_rows d)
               leftKey (q_rightKey d) primaryKey (q_relatedPk d) f r related
               Hleft Hrel Hright Hpk Hrpk Hrows Hnn Hex).
    cbn [bind].
    rewrite (IH Hrest).
    + rewrite map_map. reflexivity.
    + change (Forall (fun row => isObject row = true
                                 /\ Js.is_nullish (cell primaryKey row) = false)
                     (map (fun row => attachOne leftKey primaryKey row d) rows)).
      clear - Hrows Hother. induction Hrows as [|row rows [Hobj Hkey] _ IH]; simpl;
        constructor; [|exact IH].
      rewrite cell_attachOne by exact Hother. split; [|exact Hkey].
      now destruct row.
    + rewrite map_map. apply map_ext. intros row.
      change (cell primaryKey (attachOne leftKey primaryKey row d) = cell primaryKey row).
      now apply cell_attachOne.
Qed.

Lemma getManyToManyRelation_merges models rowList query_ transaction w w' started data
      leftKey primaryKey :
  camelCase (Vql.model query_) = OK leftKey ->
  pk models (Vql.model query_) = OK primaryKey ->
  rowList <> [] ->
  Forall (fun row => isObject row = true /\ Js.is_nullish (cell primaryKey row) = false)
         rowList ->
  P.all (map (relatedQuery models query_ (rev (map (cell primaryKey) rowList)) transaction)
             (rev (Vql.relations query_))) w
  = (Resolved started, w') ->
  Forall2 (queriedAs models (Vql.model query_)) (rev (somes started)) data ->
  Forall (fun d => q_name d <> primaryKey
                   /\ Forall (fun r => Js.is_nullish r = false) (q_rows d)
                   /\ exclusive leftKey (map (cell primaryKey) rowList) (q_rows d)) data ->
  getManyToManyRelation models (VArr rowList) query_ transaction w
  = (Resolved (VArr (map (attachAll leftKey primaryKey data) rowList)), w').
Proof.
  intros Hleft Hpk Hsome Hrows Hall Hanswers Hdata.
  assert (Hnn : Forall (fun row => Js.is_nullish row = false) rowList).
  { eapply Forall_impl; [|exact Hrows]. intros row [Hobj _]. now destruct row. }
  unfold getManyToManyRelation. simpl Rows.items.
  destruct rowList as [|row0 rest] eqn:Erows; [congruence|]. rewrite <- Erows in *.
  rewrite Hpk. cbn [bind]. rewrite (column_cells _ Hnn). cbn [P.try_].
  destruct (rev (map (cell primaryKey) rowList)) as [|id ids] eqn:Eids.
  { apply (f_equal (@List.length _)) in Eids.
    rewrite length_rev, length_map, Erows in Eids. discriminate. }
  destruct (Vql.relations query_) as [|request requests] eqn:Erel.
  - simpl in Hall. injection Hall as <- <-. simpl in Hanswers.
    inversion Hanswers; subst. unfold P.resolve. now rewrite map_id.
  - rewrite Hall.
    destruct (somes started) as [|first others] eqn:Estarted.
    + simpl in Hanswers. inversion Hanswers; subst. now rewrite map_id.
    + rewrite (@mergeRelations_spec models (Vql.model query_) leftKey primaryKey
                 (map (cell primaryKey) rowList) Hleft Hpk _ _ Hanswers Hdata
                 rowList Hrows eq_refl).
      reflexivity.
Qed.

(** C6, amended.  (1) For a row set without rows getManyToManyRelation
    resolves with the row set as it is and leaves the driver untouched;
    (2) so it does when none of the rows is null or undefined and every
    requested relation is a to-one relation field of the model (neither
    many-to-many nor reverse).  (3) For any list of requested relations:
    when the secondary queries it starts resolve, every primary row
    gets, for each relation that was queried, in the order of the
    request, under the relation's name the array of exactly the related
    rows whose owner key loosely equals the row's primary key, last one
    first; a relation without a secondary query leaves the rows as they
    are.  This for primary rows that are objects with a key, relations
    that are not named as the primary key, related rows that are not
    null, and related rows that match one key at most.  (4) Each
    attached object is the related row without the two junction key
    columns, with its primary key set from the related key column and
    its other properties as they were. *)
Theorem getManyToManyRelation_merge_policy :
  (forall models query_ transaction w,
      getManyToManyRelation models (VArr []) query_ transaction w
      = (Resolved (VArr []), w))
  /\
  (forall models rowList query_ transaction w primaryKey,
      pk models (Vql.model query_) = OK primaryKey ->
      Forall (fun row => Js.is_nullish row = false) rowList ->
      Forall (toOneRequest models (Vql.model query_)) (Vql.relations query_) ->
      getManyToManyRelation models (VArr rowList) query_ transaction w
      = (Resolved (VArr rowList), w))
  /\
  (forall models rowList query_ transaction w w' started data leftKey primaryKey,
      camelCase (Vql.model query_) = OK leftKey ->
      pk models (Vql.model query_) = OK primaryKey ->
      rowList <> [] ->
      Forall (fun row => isObject row = true
                         /\ Js.is_nullish (cell primaryKey row) = false) rowList ->
      P.all (map (relatedQuery models query_ (rev (map (cell primaryKey) rowList))
                               transaction)
                 (rev (Vql.relations query_))) w
      = (Resolved started, w') ->
      Forall2 (queriedAs models (Vql.model query_)) (rev (somes started)) data ->
      Forall (fun d => q_name d <> primaryKey
                       /\ Forall (fun r => Js.is_nullish r = false) (q_rows d)
                       /\ exclusive leftKey (map (cell primaryKey) rowList) (q_rows d))
             data ->
      getManyToManyRelation models (VArr rowList) query_ transaction w
      = (Resolved
           (VArr (map (fun row =>
                         fold_left
                           (fun row d =>
                              match row with
                              | VObj o =>
                                  VObj (Js.set (q_name d)
                                          (VArr (attachedTo leftKey (q_rightKey d)
                                                            (q_relatedPk d)
                                                            (cell primaryKey row)
                                                            (q_rows d)))
                                          o)
                              | _ => row
                              end)
                           data row)
                      rowList)),
         w'))
  /\
  (forall leftKey rightKey relatedPk id relatedRows,
      Forall2 (fun r attached =>
                 forall o, r = VObj o ->
                   exists a,
                     attached = VObj a
                     /\ Js.lookup leftKey a = None
                     /\ Js.lookup rightKey a = None
                     /\ (relatedPk <> leftKey -> relatedPk <> rightKey ->
                         Js.lookup relatedPk a = Some (cell rightKey r))
                     /\ (forall k, k <> leftKey -> k <> rightKey -> k <> relatedPk ->
                                   Js.lookup k a = Js.lookup k o))
              (rev (filter (fun r => Rows.loose_eq id (cell leftKey r)) relatedRows))
              (attachedTo leftKey rightKey relatedPk id relatedRows)).
Proof.
  split; [|split; [|split]].
  - reflexivity.
  - intros. eapply getManyToManyRelation_toOne; eassumption.
  - intros. eapply getManyToManyRelation_merges; eassumption.
  - intros. apply attachedTo_withoutJunctionKeys.
Qed.

Lemma getManyToManyRelation_merge_policy_witness :
  getManyToManyRelation Blog.models (VArr [Data.post 1 "a"; Data.post 2 "b"])
                        Data.postsWithAuthor None (Blog.driver [])
  = (Resolved (VArr [Data.post 1 "a"; Data.post 2 "b"]), Blog.driver [])
  /\
  getManyToManyRelation Blog.models (VArr [Data.post 1 "a"; Data.post 2 "b"])
                        Example.postsWithAuthorAndTags None
                        (Blog.driver [Blog.rows [Data.tagOf 1 5 "x"; Data.tagOf 2 6 "y";
                                                 Data.tagOf 1 7 "z"]])
  = (Resolved
       (VArr [VObj [("id", VNum 1); ("title", VStr "a");
                    ("tags", VArr [Data.tag 7 "z"; Data.tag 5 "x"])];
              VObj [("id", VNum 2); ("title", VStr "b");
                    ("tags", VArr [Data.tag 6 "y"])]]),
     {| replies := [];
        trace := [Statement
                    ("SELECT *,r.post,r.tag  FROM `Tag` m " ++ newline ++ indent16
                     ++ "LEFT JOIN `PostHasTags` r " ++ newline ++ indent16
                     ++ "ON (m.id = r.tag) " ++ newline ++ indent16
                     ++ "WHERE r.post IN (?)") None];
        fresh := 0; connected := [] |}).
Proof.
  split.
  - apply (proj1 (proj2 getManyToManyRelation_merge_policy) Blog.models
             [Data.post 1 "a"; Data.post 2 "b"] Data.postsWithAuthor None
             (Blog.driver []) "id").
    + reflexivity.
    + repeat constructor.
    + constructor; [|constructor].
      eexists _, _, _. split; [vm_compute; reflexivity|]. left. reflexivity.
  - refine (eq_trans
              (proj1 (proj2 (proj2 getManyToManyRelation_merge_policy)) Blog.models
                 [Data.post 1 "a"; Data.post 2 "b"] Example.postsWithAuthorAndTags None
                 (Blog.driver [Blog.rows [Data.tagOf 1 5 "x"; Data.tagOf 2 6 "y";
                                          Data.tagOf 1 7 "z"]])
                 _
                 [Some ("tags", VArr [Data.tagOf 1 5 "x"; Data.tagOf 2 6 "y";
                                      Data.tagOf 1 7 "z"]); None]
                 [{| q_name := "tags";
                     q_rows := [Data.tagOf 1 5 "x"; Data.tagOf 2 6 "y"; Data.tagOf 1 7 "z"];
                     q_rightKey := "tag"; q_relatedPk := "id" |}]
                 "post" "id" _ _ _ _ _ _ _)
              _).
    + reflexivity.
    + reflexivity.
    + discriminate.
    + repeat constructor.
    + vm_compute. reflexivity.
    + constructor; [|constructor].
      split; [reflexivity|]. split; [reflexivity|].
      eexists _, _, _. split; [vm_compute; reflexivity|]. split; reflexivity.
    + constructor; [|constructor].
      split; [discriminate|]. split; [repeat constructor|].
      simpl. repeat split; intros r [<- | [<- | [<- | []]]]; vm_compute; congruence.
    + vm_compute. reflexivity.
Defined.

(** C6, as the claim states it, fails: the one relation requested for
    the users is [posts], a reverse relation and not a many-to-many one,
    and a secondary query is sent for it all the same; the row that
    comes back is not the row that went in. *)
Lemma reverse_relation_is_queried :
  exists field_ relationship related,
    Vql.relations Example.usersWithPosts = [Vql.Name "posts"]
    /\ relationOf Blog.models "User" "posts" = OK (field_, relationship, related)
    /\ rel_type relationship = Reverse
    /\ getManyToManyRelation Blog.models (VArr [Data.ann]) Example.usersWithPosts None
                             (Blog.driver [Blog.rows [Data.postOfAnn]])
       = (Resolved
            (VArr [VObj [("id", VNum 7); ("name", VStr "ann");
                         ("posts", VArr [VObj [("id", VNum 1); ("title", VStr "t");
                                               ("author", VNum 7)]])]]),
          {| replies := [];
             trace := [Statement
                         "SELECT *,author as user,id as post FROM Post WHERE author IN (?)"
                         None];
             fresh := 0; connected := [] |}).
Proof.
  eexists _, _, _.
  split; [reflexivity|].
  split; [vm_compute; reflexivity|].
  split; [reflexivity|].
  vm_compute. reflexivity.
Qed.

(** ** The bulk insert *)

Lemma insertColumns_empty schema key :
  insertColumns schema key []
  = if existsb (keyColumn key) (Schema.fields schema) then Throw TypeError
    else OK (filter (fun f => negb (Field.is_relation f) || Field.is_to_one f)
                    (Schema.fields schema)).
Proof.
  unfold insertColumns.
  induction (Schema.fields schema) as [|f fields IH]; cbn [fold_right existsb filter].
  - reflexivity.
  - rewrite IH.
    destruct (existsb (keyColumn key) fields); simpl.
    + now rewrite orb_true_r.
    + rewrite orb_false_r. unfold keyColumn.
      destruct (negb (Field.is_relation f) || Field.is_to_one f); simpl; [|reflexivity].
      destruct (String.eqb (Field.fieldName f) key); reflexivity.
Qed.

Lemma insertAll_empty models JSON_stringify model schema key transaction w :
  schemaOf models model = Some schema ->
  pk models model = OK key ->
  insertAll models JSON_stringify model [] transaction w
  = if existsb (keyColumn key) (Schema.fields schema) then (Thrown TypeError, w)
    else (Resolved {| upserted := VArr [] |}, w).
Proof.
  intros Hschema Hpk. unfold insertAll.
  rewrite Hschema, Hpk. cbn [of_option bind]. rewrite insertColumns_empty.
  destruct (existsb (keyColumn key) (Schema.fields schema)); reflexivity.
Qed.

(** C8 fails on the code.  For the empty array the bulk insert reads
    [value[0][pk]] as soon as the schema has a column with the name of
    the primary key, and [value[0]] is [undefined]: a [TypeError] is
    thrown, no promise is returned at all; so it is for the posts of the
    blog.  Only a model without such a column gets the empty result.
    Nothing is sent to the driver either way.  The earlier revision
    resolves with the empty list for every registered model. *)
Theorem insertAll_empty_array_throws :
  (forall models JSON_stringify model schema key transaction w,
      schemaOf models model = Some schema ->
      pk models model = OK key ->
      existsb (keyColumn key) (Schema.fields schema) = true ->
      insertAll models JSON_stringify model [] transaction w = (Thrown TypeError, w))
  /\
  (forall JSON_stringify transaction w,
      insertAll Blog.models JSON_stringify "Post" [] transaction w = (Thrown TypeError, w))
  /\
  (forall models JSON_stringify model schema key transaction w,
      schemaOf models model = Some schema ->
      pk models model = OK key ->
      existsb (keyColumn key) (Schema.fields schema) = false ->
      insertAll models JSON_stringify model [] transaction w
      = (Resolved {| upserted := VArr [] |}, w))
  /\
  (forall models model schema w,
      schemaOf models model = Some schema ->
      Legacy.insertAll models model [] w = (Resolved {| upserted := VArr [] |}, w)).
Proof.
  split; [|split; [|split]].
  - intros * Hschema Hpk Hkey.
    now rewrite (@insertAll_empty _ JSON_stringify _ _ _ transaction w Hschema Hpk), Hkey.
  - reflexivity.
  - intros * Hschema Hpk Hkey.
    now rewrite (@insertAll_empty _ JSON_stringify _ _ _ transaction w Hschema Hpk), Hkey.
  - intros * Hschema. unfold Legacy.insertAll. now rewrite Hschema.
Qed.

(** ** The junction table of a removed relation *)

Lemma query_never_throws sql transaction w :
  forall e w', query sql transaction w <> (Thrown e, w').
Proof.
  intros e w'. unfold query, send, P.then_, prepareTransaction.
  destruct transaction as [t|].
  - destruct (existsb (Nat.eqb t) (connected w)).
    + simpl. destruct (P.call _ w) as [r w2].
      destruct (Js.truthy (err r)); simpl; discriminate.
    + destruct (P.call (Begin t) _) as [r w2].
      destruct (Js.truthy (err r)); [discriminate|].
      destruct (P.call _ w2) as [r' w3].
      destruct (Js.truthy (err r')); simpl; discriminate.
  - destruct (P.call _ w) as [r w2].
    destruct (Js.truthy (err r)); discriminate.
Qed.

(** ** [findByQuery]: the reasons its handler is given *)

Lemma mild_bind {A B} (r : result A) (f : A -> result B) :
  mild r -> (forall a, mild (f a)) -> mild (bind r f).
Proof. destruct r as [a|e]; simpl; auto. Qed.

Lemma mild_of_option {A} (o : option A) : mild (of_option o).
Proof. destruct o; exact I || reflexivity. Qed.

Lemma mild_fold_right {A B} (f : B -> result A -> result A) (l : list B) (init : result A) :
  mild init -> (forall b acc, mild acc -> mild (f b acc)) -> mild (fold_right f init l).
Proof. intros Hinit Hf. induction l; simpl; auto. Qed.

Lemma mild_fold_left {A B} (f : result A -> B -> result A) (l : list B) :
  (forall acc b, mild acc -> mild (f acc b)) ->
  forall init, mild init -> mild (fold_left f l init).
Proof. intros Hf. induction l; simpl; auto. Qed.

Create HintDb mild.

Ltac mild_step :=
  match goal with
  | |- True => exact I
  | |- error_truthy _ = true => reflexivity || assumption
  | |- mild (OK _) => exact I
  | |- mild (Throw _) => reflexivity || assumption
  | |- mild (bind _ _) => apply mild_bind; [|intros ?]
  | |- mild (of_option _) => apply mild_of_option
  | |- mild (fold_right _ _ _) => apply mild_fold_right; [|intros ? ? ?]
  | |- mild (fold_left _ _ _) => apply mild_fold_left; [intros ? ? ?|]
  | |- mild (let (_, _) := ?x in _) => destruct x
  | |- mild (match ?x with _ => _ end) => destruct x
  | |- mild ((match ?x with _ => _ end) _) => destruct x
  | |- mild ((fun _ => _) _) => cbv beta
  | |- mild _ => solve [auto with mild]
  end.

Ltac mild := repeat mild_step.

Lemma mild_pk models model : mild (pk models model).
Proof. unfold pk. mild. Qed.

Lemma mild_camelCase s : mild (camelCase s).
Proof. unfold camelCase. mild. Qed.

Lemma mild_pascalCase s : mild (pascalCase s).
Proof. unfold pascalCase. mild. Qed.

#[local] Hint Resolve mild_pk mild_camelCase mild_pascalCase : mild.

Lemma mild_relationOf models model name : mild (relationOf models model name).
Proof. unfold relationOf. mild. Qed.

Lemma mild_column key rows : mild (Rows.column key rows).
Proof. induction rows; simpl; mild. Qed.

#[local] Hint Resolve mild_relationOf mild_column : mild.

Lemma mild_takeMatching leftKey rightKey relatedPk id relatedRows :
  forall j, mild (takeMatching leftKey rightKey relatedPk id relatedRows j).
Proof. induction relatedRows; intros j; simpl; mild. Qed.

#[local] Hint Resolve mild_takeMatching : mild.

Lemma mild_attach primaryKey leftKey rightKey relatedPk rows relatedRows :
  mild (attach primaryKey leftKey rightKey relatedPk rows relatedRows).
Proof. induction rows; simpl; mild. Qed.

Lemma mild_assign row key v : mild (Rows.assign row key v).
Proof. unfold Rows.assign. mild. Qed.

#[local] Hint Resolve mild_attach mild_assign : mild.

Lemma mild_mergeRelation models model rows related relatedList :
  mild (mergeRelation models model rows related relatedList).
Proof. unfold mergeRelation. mild. Qed.

#[local] Hint Resolve mild_mergeRelation : mild.

Lemma mild_mergeRelations models model data :
  forall rows, mild (mergeRelations models model rows data).
Proof. induction data as [|[related relatedList] data IH]; intros rows; simpl; mild. Qed.

Lemma mild_update {A} (f : A -> result A) :
  (forall a, mild (f a)) -> forall l i, mild (update i f l).
Proof.
  intros Hf. induction l as [|x l IH]; intros [|i]; simpl; try reflexivity.
  - specialize (Hf x). destruct (f x); [exact I | exact Hf].
  - specialize (IH i). destruct (update i f l); [exact I | exact IH].
Qed.

Lemma mild_pushListValue listName v row : mild (pushListValue listName v row).
Proof. unfold pushListValue. mild. Qed.

#[local] Hint Resolve mild_mergeRelations mild_pushListValue : mild.

Lemma mild_mergeList keys rows listName listData :
  mild (mergeList keys rows listName listData).
Proof.
  unfold mergeList. mild. apply mild_update. intros. apply mild_pushListValue.
Qed.

Lemma mild_listTableName model listName : mild (listTableName model listName).
Proof. unfold listTableName. mild. Qed.

Lemma mild_normalizeRow JSON_parse schema row : mild (normalizeRow JSON_parse schema row).
Proof.
  induction row as [|[key v] row IH]; simpl; [exact I|].
  unfold normalizeCell, looksLikeObject. mild.
Qed.

#[local] Hint Resolve mild_mergeList mild_listTableName mild_normalizeRow : mild.

Lemma mild_normalizeList JSON_parse schema list :
  mild (normalizeList JSON_parse schema list).
Proof. unfold normalizeList. mild. Qed.

Lemma mild_lengthOf v : mild (lengthOf v).
Proof. unfold lengthOf. mild. Qed.

#[local] Hint Resolve mild_normalizeList mild_lengthOf : mild.

Lemma loud_resolve {A} (a : A) : loud (P.resolve a).
Proof. intros w. exact I. Qed.

Lemma loud_reject {A} e : error_truthy e = true -> loud (@P.reject A e).
Proof. intros He w. exact He. Qed.

Lemma loud_then {A B} (m : promise A) (f : A -> promise B) :
  loud m -> (forall a, loud (f a)) -> loud (m >>= f).
Proof.
  intros Hm Hf w. unfold P.then_. specialize (Hm w).
  destruct (m w) as [[a | e | e |] w1]; simpl in Hm |- *; try exact Hm.
  specialize (Hf a w1). destruct (f a w1) as [[b | e | e |] w2]; exact Hf.
Qed.

Lemma loud_catch {A} (m : promise A) (h : error -> promise A) :
  loud m -> (forall e, error_truthy e = true -> loud (h e)) -> loud (P.catch_ m h).
Proof.
  intros Hm Hh w. unfold P.catch_. specialize (Hm w).
  destruct (m w) as [[a | e | e |] w1]; simpl in Hm |- *; try exact Hm.
  specialize (Hh e Hm w1). destruct (h e w1) as [[b | e' | e' |] w2]; exact Hh.
Qed.

Lemma loud_try {A B} (r : result A) (k : A -> promise B) :
  mild r -> (forall a, loud (k a)) -> loud (P.try_ r k).
Proof.
  intros Hr Hk. destruct r as [a|e]; simpl; [apply Hk|]. intros w. exact Hr.
Qed.

Lemma loud_all {A} (steps : list (promise A)) :
  Forall loud steps -> loud (P.all steps).
Proof.
  induction 1 as [|step steps Hstep _ IH]; intros w; simpl; [exact I|].
  specialize (Hstep w).
  destruct (step w) as [[a | e | e |] w1]; simpl in Hstep |- *; try exact Hstep;
    specialize (IH w1);
    destruct (P.all steps w1) as [[others | e' | e' |] w2]; simpl in IH |- *;
    assumption.
Qed.

Lemma loud_all_map {A B} (f : B -> promise A) (l : list B) :
  (forall b, loud (f b)) -> loud (P.all (map f l)).
Proof.
  intros Hf. apply loud_all. apply Forall_forall. intros step Hin.
  apply in_map_iff in Hin as (b & <- & _). apply Hf.
Qed.

Lemma loud_prepareTransaction transaction : loud (prepareTransaction transaction).
Proof.
  intros w. unfold prepareTransaction.
  destruct (match transaction with Some t => (t, w) | None => newTransaction w end)
    as [t w0].
  destruct (existsb (Nat.eqb t) (connected w0)); [exact I|].
  destruct (P.call (Begin t) _) as [r w2].
  destruct (Js.truthy (err r)) eqn:E; [exact E | exact I].
Qed.

Lemma loud_send sql t : loud (send sql t).
Proof.
  intros w. unfold send. destruct (P.call (Statement sql t) w) as [r w1].
  destruct (Js.truthy (err r)) eqn:E; [exact E | exact I].
Qed.

Lemma loud_query sql transaction : loud (query sql transaction).
Proof.
  unfold query. destruct transaction as [t|].
  - apply loud_then; [apply loud_prepareTransaction | intros; apply loud_send].
  - apply loud_send.
Qed.

Ltac loud_step :=
  match goal with
  | |- loud (P.resolve _) => apply loud_resolve
  | |- loud (query _ _) => apply loud_query
  | |- loud (_ >>= _) => apply loud_then; [|intros ?]
  | |- loud (P.try_ _ _) => apply loud_try; [mild|intros ?]
  | |- loud (P.all (map _ _)) => apply loud_all_map; intros ?
  | |- loud (match ?x with _ => _ end) => destruct x
  | |- loud ((fun _ => _) _) => cbv beta
  | |- loud (let _ := _ in _) => cbv zeta
  end.

Ltac loud := repeat loud_step.

Lemma loud_relatedQuery models query_ ids transaction request :
  loud (relatedQuery models query_ ids transaction request).
Proof.
  unfold relatedQuery, runRelatedQuery, runReverseQueryOne2Many, runRelatedQueryMany2Many.
  loud.
Qed.

Lemma loud_getManyToManyRelation models rows query_ transaction :
  loud (getManyToManyRelation models rows query_ transaction).
Proof.
  unfold getManyToManyRelation. apply loud_try; [mild|]. intros ids.
  destruct ids as [|id ids]; [apply loud_resolve|].
  destruct (Vql.relations query_) as [|request requests]; [apply loud_resolve|].
  intros w.
  pose proof (@loud_all_map _ _
                (relatedQuery models query_ (id :: ids) transaction)
                (rev (request :: requests))
                (loud_relatedQuery models query_ (id :: ids) transaction) w) as Hall.
  destruct (P.all _ w) as [[started | e | e |] w1]; simpl in Hall |- *; try exact Hall.
  destruct (somes started) as [|first others]; [exact I|].
  pose proof (mild_mergeRelations models (Vql.model query_) (rev (first :: others))
                                  (Rows.items rows)) as Hmerge.
  destruct (mergeRelations _ _ _ _); simpl; [exact I | exact Hmerge].
Qed.

Lemma loud_getListsOver models snapshot rows query_ transaction :
  loud (getListsOver models snapshot rows query_ transaction).
Proof.
  unfold getListsOver, runListQuery. loud.
Qed.

Lemma firm_loud {A} (m : promise A) : firm m -> loud m.
Proof.
  intros Hm w. specialize (Hm w). destruct (fst (m w)); try exact Hm. contradiction.
Qed.

Lemma firm_then {A B} (m : promise A) (f : A -> promise B) :
  firm m -> (forall a, loud (f a)) -> firm (m >>= f).
Proof.
  intros Hm Hf w. unfold P.then_. specialize (Hm w).
  destruct (m w) as [[a | e | e |] w1]; simpl in Hm |- *; try exact Hm.
  specialize (Hf a w1). destruct (f a w1) as [[b | e | e |] w2]; exact Hf.
Qed.

Lemma firm_query sql transaction : firm (query sql transaction).
Proof.
  intros w. pose proof (loud_query sql transaction w) as Hloud.
  destruct (query sql transaction w) as [[rows | e | e |] w1] eqn:Hquery;
    simpl in Hloud |- *; try exact Hloud.
  now apply query_never_throws in Hquery.
Qed.

(** The chain of [findByQuery] is fulfilled with a result or rejected
    with a reason that is truthy. *)
Lemma findByQuery_chain_settles models JSON_parse query_ params transaction w :
  match fst (findByQuery_chain models JSON_parse query_ params transaction w) with
  | Resolved result => result <> None
  | Rejected e => error_truthy e = true
  | Thrown _ | Exhausted => False
  end.
Proof.
  unfold findByQuery_chain, findByQuery_from.
  match goal with
  | |- context [(?m >>= ?g) w] =>
      assert (Hfirst : firm m); [|revert Hfirst; generalize m; intros m1 Hfirst]
  end.
  { apply firm_then; [apply firm_query|]. intros rows w0.
    pose proof (loud_getManyToManyRelation models rows query_ transaction w0) as Hmany.
    destruct (getManyToManyRelation models rows query_ transaction w0)
      as [[merged | e | e |] w1]; simpl in Hmany |- *; try exact Hmany.
    - apply loud_getListsOver.
    - pose proof (loud_getListsOver models rows rows query_ transaction w1) as Hlists.
      destruct (getListsOver models rows rows query_ transaction w1)
        as [[listed | e' | e' |] w2]; simpl in Hlists |- *; assumption. }
  unfold P.then_. specialize (Hfirst w).
  destruct (m1 w) as [[rows | e | e |] w1]; simpl in Hfirst |- *; try exact Hfirst.
  match goal with
  | |- context [P.try_ ?r _] => assert (Hmild : mild r) by mild; destruct r as [result|e]
  end.
  - simpl. discriminate.
  - exact Hmild.
Qed.

(** C10, amended.  The handler of the [catch] of [findByQuery] rejects
    again, with a structured query error, exactly for a truthy reason,
    and it would fulfil the promise with [undefined] for any other one.
    But every reason that reaches it is truthy: the gateway passes the
    driver's error on only when it is truthy, and what the steps throw
    is an error object.  So [findByQuery] either throws before it
    returns a promise (what [getQueryParams] throws), or its promise is
    fulfilled with a result that has items and a total, or it is
    rejected with the structured query error around a truthy reason. *)
Theorem findByQuery_wraps_every_rejection :
  (forall reason w,
      findByQuery_catch reason w
      = if error_truthy reason then (Rejected (DatabaseError DBQuery reason), w)
        else (Resolved None, w))
  /\
  (forall models JSON_parse query_ transaction w,
      match fst (findByQuery models JSON_parse query_ transaction w) with
      | Resolved result => exists found, result = Some found
      | Rejected e =>
          exists reason, e = DatabaseError DBQuery reason /\ error_truthy reason = true
      | Thrown e => getQueryParams models query_ (Vql.model query_) = Throw e
      | Exhausted => False
      end).
Proof.
  split.
  - intros reason w. unfold findByQuery_catch. now destruct (error_truthy reason).
  - intros models JSON_parse query_ transaction w. unfold findByQuery.
    destruct (getQueryParams models query_ (Vql.model query_)) as [params|e];
      [|reflexivity].
    cbn [P.try_]. unfold P.catch_.
    pose proof (findByQuery_chain_settles models JSON_parse query_ params transaction w)
      as Hchain.
    destruct (findByQuery_chain models JSON_parse query_ params transaction w)
      as [[[found|] | e | e |] w1]; simpl in Hchain |- *; try contradiction.
    + now exists found.
    + unfold findByQuery_catch. rewrite Hchain. simpl. now exists e.
Qed.

(** C10, as the claim states it, fails: in no run is the chain of
    [findByQuery] rejected with a falsy reason, and in no run is its
    promise fulfilled with [undefined]. *)
Lemma no_run_resolves_with_undefined :
  (forall models JSON_parse query_ params transaction w reason w',
      findByQuery_chain models JSON_parse query_ params transaction w = (Rejected reason, w')
      -> error_truthy reason = true)
  /\
  ~ (exists models JSON_parse query_ transaction w w',
        findByQuery models JSON_parse query_ transaction w = (Resolved None, w')).
Proof.
  split.
  - intros models JSON_parse query_ params transaction w reason w' Hchain.
    pose proof (findByQuery_chain_settles models JSON_parse query_ params transaction w)
      as Hsettles.
    now rewrite Hchain in Hsettles.
  - intros (models & JSON_parse & query_ & transaction & w & w' & Hrun).
    unfold findByQuery in Hrun.
    destruct (getQueryParams models query_ (Vql.model query_)) as [params|e];
      [|discriminate].
    cbn [P.try_] in Hrun. unfold P.catch_ in Hrun.
    pose proof (findByQuery_chain_settles models JSON_parse query_ params transaction w)
      as Hchain.
    destruct (findByQuery_chain models JSON_parse query_ params transaction w)
      as [[[found|] | e | e |] w1]; simpl in Hchain; try contradiction; try discriminate.
    unfold findByQuery_catch in Hrun. rewrite Hchain in Hrun. discriminate.
Qed.

Lemma deleteJunctionRows_empty models model relation transaction w
      f r related relatedField table leftKey key :
  relationOf models (Model.schema model) relation = OK (f, r, related) ->
  camelCase (Schema.name related) = OK relatedField ->
  pascalCase relation = OK table ->
  camelCase (Model.schema model) = OK leftKey ->
  pk models (Model.schema model) = OK key ->
  deleteJunctionRows models model relation transaction [] w
  = (query ("DELETE FROM [object Object]Has" ++ table ++ " WHERE " ++ leftKey ++ " = "
            ++ Js.to_string (Model.get model key) ++ " AND FALSE}") transaction
     >>= (fun _ => P.resolve (VObj [("items", VArr [])]))) w.
Proof.
  intros Hrel Hfield Htable Hleft Hkey. unfold deleteJunctionRows.
  rewrite Hrel. cbn [bind]. rewrite Hfield. cbn [bind]. rewrite Htable. cbn [bind].
  rewrite Hleft. cbn [bind]. rewrite Hkey. cbn [bind P.try_].
  reflexivity.
Qed.

(** C9.  When the ids found in the junction table are none, what is
    left of [removeManyToManyRelation] is one statement, the [DELETE] on
    the junction table with [FALSE] where the ids would be, and the
    result with no items; without a transaction it is the one thing
    sent to the driver.  No [DELETE] restricted by the owner key alone
    is sent. *)
Theorem removeManyToManyRelation_empty_ids
        models JSON_parse model relation condition transaction w w1
        f r related relatedField table leftKey key :
  relationOf models (Model.schema model) relation = OK (f, r, related) ->
  camelCase (Schema.name related) = OK relatedField ->
  pascalCase relation = OK table ->
  camelCase (Model.schema model) = OK leftKey ->
  pk models (Model.schema model) = OK key ->
  junctionIds models JSON_parse related model relation condition w = (Resolved [], w1) ->
  let sql := "DELETE FROM [object Object]Has" ++ table ++ " WHERE " ++ leftKey ++ " = "
             ++ Js.to_string (Model.get model key) ++ " AND FALSE}" in
  removeManyToManyRelation models JSON_parse model relation condition transaction w
  = (query sql transaction >>= (fun _ => P.resolve (VObj [("items", VArr [])]))) w1
  /\ (transaction = None ->
      trace (snd (removeManyToManyRelation models JSON_parse model relation condition
                                           transaction w))
      = (trace w1 ++ [Statement sql None])%list).
Proof.
  intros Hrel Hfield Htable Hleft Hkey Hids sql.
  assert (Hcall :
            removeManyToManyRelation models JSON_parse model relation condition transaction w
            = (query sql transaction
               >>= (fun _ => P.resolve (VObj [("items", VArr [])]))) w1).
  { unfold removeManyToManyRelation. rewrite Hrel. cbn [bind P.try_].
    unfold P.then_ at 1. rewrite Hids.
    rewrite (@deleteJunctionRows_empty models model relation transaction w1
               f r related relatedField table leftKey key Hrel Hfield Htable Hleft Hkey).
    fold sql. unfold P.then_.
    pose proof (@query_never_throws sql transaction w1) as Hquery.
    destruct (query sql transaction w1) as [[rows | e | e |] w2]; try reflexivity.
    exfalso. exact (Hquery e w2 eq_refl). }
  split; [exact Hcall|].
  intros ->. rewrite Hcall. unfold P.then_, query, send, P.call.
  destruct (replies w1) as [|reply rest]; simpl.
  - reflexivity.
  - destruct (Js.truthy (err reply)); reflexivity.
Qed.

Lemma removeManyToManyRelation_empty_ids_witness :
  removeManyToManyRelation Blog.models Json.parse Data.thirdPost "tags" None None
                           (Blog.driver [Blog.rows []])
  = (Resolved (VObj [("items", VArr [])]),
     {| replies := [];
        trace := [Statement "SELECT * FROM PostHasTags WHERE post = 3 " None;
                  Statement "DELETE FROM [object Object]HasTags WHERE post = 3 AND FALSE}"
                            None];
        fresh := 0; connected := [] |}).
Proof.
  refine (eq_trans
            (proj1 (@removeManyToManyRelation_empty_ids
                      Blog.models Json.parse Data.thirdPost "tags" None None
                      (Blog.driver [Blog.rows []])
                      {| replies := [];
                         trace := [Statement "SELECT * FROM PostHasTags WHERE post = 3 "
                                             None];
                         fresh := 0; connected := [] |}
                      _ _ Blog.Tag "tag" "Tags" "post" "id" _ _ _ _ _ _))
            _).
  - vm_compute. reflexivity.
  - reflexivity.
  - reflexivity.
  - reflexivity.
  - reflexivity.
  - vm_compute. reflexivity.
  - vm_compute. reflexivity.
Defined.

(** ** Transactions of the write operations *)

Lemma prepareTransaction_refused w :
  beginFails w ->
  exists reason,
    prepareTransaction None w = (Rejected (Raised reason), afterBegin w).
Proof.
  intros [Hreply Hfresh]. unfold prepareTransaction, newTransaction, P.call, afterBegin.
  cbn [connected fresh replies trace]. rewrite Hfresh.
  destruct (replies w) as [|r rest]; [contradiction|].
  cbn [err tl]. rewrite Hreply. now exists (err r).
Qed.

Lemma rollback_without_transaction {A} code (chain : promise A) reason w w' :
  chain w = (Rejected reason, w') ->
  unhandled (P.catch_ chain (rollbackIfLocal code true None) w) w'.
Proof.
  intros H. unfold P.catch_. rewrite H. split; [reflexivity|]. left. reflexivity.
Qed.

Lemma try_unhandled {A B} (r : result A) (k : A -> promise B) w' :
  (forall a, r = OK a -> unhandled (k a w') w') ->
  unhandled (P.try_ r k w') w'.
Proof.
  intros H. destruct r as [a|e]; simpl.
  - now apply H.
  - split; [reflexivity|]. right. now exists e.
Qed.

Lemma then_rejected {A B} (m : promise A) (f : A -> promise B) reason w w' :
  m w = (Rejected reason, w') -> (m >>= f) w = (Rejected reason, w').
Proof.
  intros H. unfold P.then_. now rewrite H.
Qed.

Ltac refused_begin Hprep :=
  rewrite Hprep; cbn [isNone assigned];
  apply try_unhandled; intros ? _;
  repeat match goal with |- context [let '(_, _) := ?p in _] => destruct p end;
  eapply rollback_without_transaction;
  repeat apply then_rejected; reflexivity.

(** C3 fails on the code.  When a write operation is called without a
    transaction and the driver refuses to begin the one it makes, the
    handler of the operation calls [rollback] on the variable
    [transaction], which is still [undefined]: the promise is rejected
    with that [TypeError] and not with a structured error, unless the
    operation threw before it returned a promise; [begin] is all the
    driver was sent, no rollback.  So it is for each of the five write
    operations. *)
Theorem begin_failure_is_not_structured :
  forall models JSON_parse JSON_stringify w,
    beginFails w ->
    (forall fuel model val,
        unhandled (insertOne models JSON_stringify (S fuel) model val None w)
                  (afterBegin w))
    /\ (forall fuel model val,
           unhandled (updateOne models JSON_parse JSON_stringify fuel model val None w)
                     (afterBegin w))
    /\ (forall model newValues condition,
           unhandled (updateAll models model newValues condition None w) (afterBegin w))
    /\ (forall fuel model id,
           unhandled (deleteOne models JSON_parse (S fuel) model id None w) (afterBegin w))
    /\ (forall model condition,
           unhandled (deleteAll models model condition None w) (afterBegin w)).
Proof.
  intros models JSON_parse JSON_stringify w Hfail.
  destruct (prepareTransaction_refused Hfail) as [reason Hprep].
  split; [|split; [|split; [|split]]].
  - intros fuel model val. cbn [insertOne]. refused_begin Hprep.
  - intros fuel model val. unfold updateOne. refused_begin Hprep.
  - intros model newValues condition. unfold updateAll. refused_begin Hprep.
  - intros fuel model id. cbn [deleteOne]. refused_begin Hprep.
  - intros model condition. unfold deleteAll. refused_begin Hprep.
Qed.

Lemma begin_failure_is_not_structured_witness :
  beginFails (Blog.driver [Blog.failure "connection lost"])
  /\ unhandled (insertOne Blog.models (fun v => VStr (Js.to_string v)) 1 "Tag" newTag None
                          (Blog.driver [Blog.failure "connection lost"]))
               (afterBegin (Blog.driver [Blog.failure "connection lost"]))
  /\ insertOne Blog.models (fun v => VStr (Js.to_string v)) 1 "Tag" newTag None
               (Blog.driver [Blog.failure "connection lost"])
     = (Rejected TypeError,
        {| replies := []; trace := [Begin 0]; fresh := 1; connected := [0%nat] |}).
Proof.
  assert (H : beginFails (Blog.driver [Blog.failure "connection lost"]))
    by (split; reflexivity).
  split; [exact H|]. split.
  - exact (proj1 (begin_failure_is_not_structured
                    Blog.models Json.parse (fun v => VStr (Js.to_string v)) H)
                 O "Tag" newTag).
  - vm_compute. reflexivity.
Defined.

(** *** A transaction of the caller *)

Lemma extends_refl w : extends w w.
Proof.
  exists []. split; [now rewrite app_nil_r | reflexivity].
Qed.

Lemma extends_trans w1 w2 w3 : extends w1 w2 -> extends w2 w3 -> extends w1 w3.
Proof.
  intros (a & Ha & Qa) (b & Hb & Qb). exists (a ++ b)%list. split.
  - now rewrite Hb, Ha, <- app_assoc.
  - rewrite forallb_app, Qa, Qb. reflexivity.
Qed.

Lemma extends_call e w :
  bookkeeping e = false -> extends w (snd (P.call e w)).
Proof.
  intros He. unfold P.call.
  destruct (replies w); exists [e]; simpl; rewrite He; split; reflexivity.
Qed.

Lemma settle_world {A} (r : outcome A * world) : snd (P.settle r) = snd r.
Proof.
  destruct r as [[a | e | e |] w]; reflexivity.
Qed.

Lemma quietly_resolve {A} (a : A) : quietly (P.resolve a).
Proof. intros w. apply extends_refl. Qed.

Lemma quietly_reject {A} e : quietly (@P.reject A e).
Proof. intros w. apply extends_refl. Qed.

Lemma quietly_throw {A} e : quietly (@P.throw A e).
Proof. intros w. apply extends_refl. Qed.

Lemma quietly_exhausted {A} : quietly (@P.exhausted A).
Proof. intros w. apply extends_refl. Qed.

Lemma quietly_settled {A} (o : outcome A) : quietly (fun w => (o, w)).
Proof. intros w. apply extends_refl. Qed.

Lemma quietly_then {A B} (m : promise A) (f : A -> promise B) :
  quietly m -> (forall a, quietly (f a)) -> quietly (m >>= f).
Proof.
  intros Hm Hf w. unfold P.then_. specialize (Hm w).
  destruct (m w) as [[a | e | e |] w1]; simpl in Hm; try exact Hm.
  rewrite settle_world. exact (extends_trans Hm (Hf a w1)).
Qed.

Lemma quietly_catch {A} (m : promise A) (h : error -> promise A) :
  quietly m -> (forall e, quietly (h e)) -> quietly (P.catch_ m h).
Proof.
  intros Hm Hh w. unfold P.catch_. specialize (Hm w).
  destruct (m w) as [[a | e | e |] w1]; simpl in Hm; try exact Hm.
  rewrite settle_world. exact (extends_trans Hm (Hh e w1)).
Qed.

Lemma quietly_try {A B} (r : result A) (k : A -> promise B) :
  (forall a, quietly (k a)) -> quietly (P.try_ r k).
Proof.
  intros Hk. destruct r as [a|e]; simpl; [apply Hk | apply quietly_throw].
Qed.

Lemma quietly_all {A} (steps : list (promise A)) :
  Forall quietly steps -> quietly (P.all steps).
Proof.
  induction 1 as [|step steps Hstep _ IH]; intros w; simpl.
  - apply extends_refl.
  - specialize (Hstep w).
    destruct (step w) as [[a | e | e |] w1]; simpl in Hstep; try exact Hstep;
      specialize (IH w1);
      destruct (P.all steps w1) as [[others | e' | e' |] w2]; simpl in IH |- *;
      exact (extends_trans Hstep IH).
Qed.

Lemma quietly_all_map {A B} (f : B -> promise A) (l : list B) :
  (forall b, quietly (f b)) -> quietly (P.all (map f l)).
Proof.
  intros Hf. apply quietly_all. apply Forall_forall. intros step Hin.
  apply in_map_iff in Hin as (b & <- & _). apply Hf.
Qed.

Lemma quietly_detach {A B C} (first : promise A) (next : A -> promise B)
      (main : promise C) :
  quietly first -> (forall a, quietly (next a)) -> quietly main ->
  quietly (P.detach first next main).
Proof.
  intros Hfirst Hnext Hmain w. unfold P.detach. specialize (Hfirst w).
  destruct (first w) as [[a | e | e |] w1]; simpl in Hfirst |- *; try exact Hfirst;
    specialize (Hmain w1); destruct (main w1) as [o w2]; simpl in Hmain |- *;
    try exact (extends_trans Hfirst Hmain).
  specialize (Hnext a w2).
  destruct (next a w2) as [[b | e | e |] w3]; simpl in Hnext |- *;
    exact (extends_trans Hfirst (extends_trans Hmain Hnext)).
Qed.

Lemma extends_same_trace w w' : trace w' = trace w -> extends w w'.
Proof.
  intros H. exists []. split; [now rewrite app_nil_r | reflexivity].
Qed.

Lemma quietly_prepareTransaction transaction : quietly (prepareTransaction transaction).
Proof.
  intros w. unfold prepareTransaction.
  assert (Hstart : extends w (snd (match transaction with
                                   | Some t => (t, w)
                                   | None => newTransaction w
                                   end))).
  { destruct transaction; [apply extends_refl | now apply extends_same_trace]. }
  destruct (match transaction with Some t => (t, w) | None => newTransaction w end)
    as [t w0].
  simpl in Hstart.
  destruct (existsb (Nat.eqb t) (connected w0)); [exact Hstart|].
  match goal with |- context [P.call ?e ?w1] =>
    pose proof (@extends_call e w1 eq_refl) as H; destruct (P.call e w1) as [r w2] end.
  simpl in H.
  assert (Hall : extends w w2).
  { apply (extends_trans Hstart). destruct H as (added & Ha & Qa).
    exists added. split; [exact Ha | exact Qa]. }
  destruct (Js.truthy (err r)); exact Hall.
Qed.

Lemma quietly_send sql t : quietly (send sql t).
Proof.
  intros w. unfold send.
  pose proof (@extends_call (Statement sql t) w eq_refl) as H.
  destruct (P.call (Statement sql t) w) as [r w1].
  destruct (Js.truthy (err r)); exact H.
Qed.

Lemma quietly_query sql transaction : quietly (query sql transaction).
Proof.
  unfold query. destruct transaction as [t|].
  - apply quietly_then; [apply quietly_prepareTransaction | intros; apply quietly_send].
  - apply quietly_send.
Qed.

Create HintDb quiet.

#[local] Hint Resolve quietly_resolve quietly_reject quietly_throw quietly_exhausted
  quietly_settled quietly_query quietly_prepareTransaction : quiet.

Ltac quiet_step :=
  match goal with
  | |- quietly (P.resolve _) => apply quietly_resolve
  | |- quietly (P.reject _) => apply quietly_reject
  | |- quietly (P.throw _) => apply quietly_throw
  | |- quietly P.exhausted => apply quietly_exhausted
  | |- quietly (query _ _) => apply quietly_query
  | |- quietly (_ >>= _) => apply quietly_then; [|intros ?]
  | |- quietly (P.catch_ _ _) => apply quietly_catch; [|intros ?]
  | |- quietly (P.try_ _ _) => apply quietly_try; intros ?
  | |- quietly (P.all (map _ _)) => apply quietly_all_map; intros ?
  | |- quietly (P.detach _ _ _) => apply quietly_detach; [|intros ?|]
  | |- quietly (fun w => (_, w)) => apply quietly_settled
  | |- quietly (match ?x with _ => _ end) => destruct x
  | |- quietly ((fun _ => _) _) => cbv beta
  | |- quietly (let _ := _ in _) => cbv zeta
  | |- quietly _ => solve [auto with quiet]
  end.

Ltac quiet := repeat quiet_step.

Lemma quietly_relatedQuery models query_ ids transaction request :
  quietly (relatedQuery models query_ ids transaction request).
Proof.
  unfold relatedQuery, runRelatedQuery, runReverseQueryOne2Many, runRelatedQueryMany2Many.
  quiet.
Qed.

Lemma quietly_getManyToManyRelation models rows query_ transaction :
  quietly (getManyToManyRelation models rows query_ transaction).
Proof.
  unfold getManyToManyRelation. apply quietly_try. intros ids.
  destruct ids as [|id ids]; [apply quietly_resolve|].
  destruct (Vql.relations query_) as [|request requests]; [apply quietly_resolve|].
  intros w.
  pose proof (@quietly_all_map _ _
                (relatedQuery models query_ (id :: ids) transaction)
                (rev (request :: requests))
                (quietly_relatedQuery models query_ (id :: ids) transaction) w) as Hall.
  destruct (P.all _ w) as [[started | e | e |] w1]; simpl in Hall; try exact Hall.
  destruct (somes started) as [|first others]; [exact Hall|].
  rewrite settle_world. apply (extends_trans Hall).
  apply quietly_try. intros merged. apply quietly_resolve.
Qed.

Lemma quietly_getListsOver models snapshot rows query_ transaction :
  quietly (getListsOver models snapshot rows query_ transaction).
Proof.
  unfold getListsOver, runListQuery. quiet.
Qed.

#[local] Hint Resolve quietly_getManyToManyRelation quietly_getListsOver : quiet.

Lemma quietly_findByQuery_from models JSON_parse primary query_ transaction :
  quietly primary ->
  quietly (findByQuery_from models JSON_parse primary query_ transaction).
Proof.
  intros Hprimary. unfold findByQuery_from.
  apply quietly_then; [|intros rows; quiet].
  apply quietly_then; [exact Hprimary|].
  intros rows w.
  pose proof (quietly_getManyToManyRelation models rows query_ transaction w) as Hmany.
  destruct (getManyToManyRelation models rows query_ transaction w)
    as [[merged | e | e |] w1]; simpl in Hmany; try exact Hmany.
  - apply (extends_trans Hmany). apply quietly_getListsOver.
  - pose proof (quietly_getListsOver models rows rows query_ transaction w1) as Hlists.
    destruct (getListsOver models rows rows query_ transaction w1)
      as [[listed | e' | e' |] w2]; simpl in Hlists |- *;
      exact (extends_trans Hmany Hlists).
Qed.

Lemma quietly_findByQuery_catch e : quietly (findByQuery_catch e).
Proof. unfold findByQuery_catch. quiet. Qed.

Lemma quietly_findByQuery models JSON_parse query_ transaction :
  quietly (findByQuery models JSON_parse query_ transaction).
Proof.
  unfold findByQuery, findByQuery_chain.
  apply quietly_try. intros params.
  apply quietly_catch; [|apply quietly_findByQuery_catch].
  apply quietly_findByQuery_from, quietly_query.
Qed.

#[local] Hint Resolve quietly_findByQuery_from quietly_findByQuery_catch : quiet.

#[local] Hint Resolve quietly_findByQuery : quiet.

Lemma quietly_findById models JSON_parse model id option_ transaction :
  quietly (findById models JSON_parse model id option_ transaction).
Proof.
  unfold findById. quiet.
Qed.

#[local] Hint Resolve quietly_findById : quiet.

Lemma quietly_addList models model listName val transaction :
  quietly (addList models model listName val transaction).
Proof.
  unfold addList. quiet.
Qed.

#[local] Hint Resolve quietly_addList : quiet.

Lemma quietly_updateList models model listName val transaction :
  quietly (updateList models model listName val transaction).
Proof.
  unfold updateList. quiet.
Qed.

Lemma quietly_insertAll models JSON_stringify model vals transaction :
  quietly (insertAll models JSON_stringify model vals transaction).
Proof.
  unfold insertAll. quiet.
Qed.

#[local] Hint Resolve quietly_updateList quietly_insertAll : quiet.

(** The start of a write operation: [prepareTransaction], then the rest
    with what it settled to. *)
Lemma quietly_prepared {A} transaction (body : outcome nat -> promise A) :
  (forall prepare, quietly (body prepare)) ->
  quietly (fun w => let (prepare, w1) := prepareTransaction transaction w in
                    body prepare w1).
Proof.
  intros Hbody w.
  pose proof (quietly_prepareTransaction transaction w) as Hprepare.
  destruct (prepareTransaction transaction w) as [prepare w1].
  exact (extends_trans Hprepare (Hbody prepare w1)).
Qed.

Lemma quietly_commitIfLocal {A} transaction (result : A) :
  quietly (commitIfLocal false transaction result).
Proof. apply quietly_resolve. Qed.

Lemma quietly_rollbackIfLocal {A} code transaction err_ :
  quietly (@rollbackIfLocal A code false transaction err_).
Proof. apply quietly_reject. Qed.

#[local] Hint Resolve quietly_commitIfLocal quietly_rollbackIfLocal : quiet.

Lemma quietly_deleteAll models model condition t :
  quietly (deleteAll models model condition (Some t)).
Proof.
  unfold deleteAll. cbn [isNone]. cbv zeta.
  apply (quietly_prepared (Some t)
           (fun prepare => P.try_ (getCondition models model condition model) _)).
  intros prepare. quiet.
Qed.

#[local] Hint Resolve quietly_deleteAll : quiet.

Lemma quietly_stepsFor {A} models model init entries
      (step : Model.t -> string -> value -> promise A) :
  (forall m key v, quietly (step m key v)) ->
  Forall quietly (stepsFor models model init entries step).
Proof.
  intros Hstep. unfold stepsFor. apply Forall_forall. intros p Hin.
  apply in_map_iff in Hin as ([key v] & <- & _).
  apply quietly_try. intros m. apply Hstep.
Qed.

Ltac quiet_more :=
  repeat first
    [ quiet_step
    | match goal with
      | |- quietly (P.all _) => apply quietly_all
      | |- Forall quietly (_ ++ _) => apply Forall_app; split
      | |- Forall quietly (stepsFor _ _ _ _ _) => apply quietly_stepsFor; intros ? ? ?
      | |- Forall quietly (map _ _) =>
          apply Forall_forall; intros ? ?;
          match goal with
          | H : In _ (map _ _) |- _ => apply in_map_iff in H as (? & <- & _)
          end
      end ].

Lemma quietly_addRelation models
      (insertOne_ : string -> value -> option nat -> promise IUpsertResult)
      (insertAll_ : string -> list value -> option nat -> promise IUpsertResult)
      model relation val t :
  (forall m v, quietly (insertOne_ m v (Some t))) ->
  (forall m vs, quietly (insertAll_ m vs (Some t))) ->
  quietly (addRelation models insertOne_ insertAll_ model relation val (Some t)).
Proof.
  intros Hone Hall.
  unfold addRelation, addOneToManyRelation, addManyToManyRelation. quiet.
Qed.

Lemma quietly_removeOneToManyRelation models JSON_parse
      (deleteOne_ : string -> value -> option nat -> promise IDeleteResult)
      model relation t :
  (forall m id, quietly (deleteOne_ m id (Some t))) ->
  quietly (removeOneToManyRelation models JSON_parse deleteOne_ model relation (Some t)).
Proof.
  intros Hone. unfold removeOneToManyRelation. cbv zeta.
  apply quietly_try. intros [[f relationship] related]. quiet.
Qed.

Lemma quietly_removeManyToManyRelation models JSON_parse model relation condition t :
  quietly (removeManyToManyRelation models JSON_parse model relation condition (Some t)).
Proof.
  unfold removeManyToManyRelation, junctionIds, deleteJunctionRows. quiet.
Qed.

Lemma quietly_removeRelation models JSON_parse
      (deleteOne_ : string -> value -> option nat -> promise IDeleteResult)
      model relation condition t :
  (forall m id, quietly (deleteOne_ m id (Some t))) ->
  quietly (removeRelation models JSON_parse deleteOne_ model relation condition (Some t)).
Proof.
  intros Hone. unfold removeRelation.
  apply quietly_try. intros [relationship safeCondition].
  destruct (rel_type relationship).
  - now apply quietly_removeOneToManyRelation.
  - now apply quietly_removeOneToManyRelation.
  - apply quietly_removeManyToManyRelation.
  - apply quietly_resolve.
Qed.

Lemma assigned_some t prepare : exists t', assigned (Some t) prepare = Some t'.
Proof.
  destruct prepare; simpl; eauto.
Qed.

Lemma quietly_insertOne models JSON_stringify :
  forall fuel model val t,
    quietly (insertOne models JSON_stringify fuel model val (Some t)).
Proof.
  induction fuel as [|fuel IH]; intros model val t.
  - apply quietly_exhausted.
  - cbn [insertOne isNone]. cbv zeta.
    apply (quietly_prepared (Some t)
             (fun prepare =>
                P.try_ (getAnalysedValue models JSON_stringify model val) _)).
    intros prepare. destruct (assigned_some t prepare) as [t' ->].
    apply quietly_try. intros analysedValue.
    apply quietly_catch; [|intros e; apply quietly_rollbackIfLocal].
    apply quietly_then; [|intros rows; apply quietly_commitIfLocal].
    apply quietly_then; [quiet|]. intros insertResult.
    apply quietly_try. intros id.
    apply quietly_then; [|intros done; quiet].
    apply quietly_all. apply Forall_app. split.
    + apply quietly_stepsFor. intros m key v.
      apply quietly_addRelation; [intros; apply IH | intros; apply quietly_insertAll].
    + apply quietly_stepsFor. intros m key v. quiet.
Qed.

Lemma quietly_deleteOne models JSON_parse :
  forall fuel model id t,
    quietly (deleteOne models JSON_parse fuel model id (Some t)).
Proof.
  induction fuel as [|fuel IH]; intros model id t.
  - apply quietly_exhausted.
  - cbn [deleteOne isNone]. cbv zeta.
    apply (quietly_prepared (Some t)
             (fun prepare => P.try_ (of_option (schemaOf models model)) _)).
    intros prepare. destruct (assigned_some t prepare) as [t' ->].
    apply quietly_try. intros schema.
    apply quietly_catch; [|intros e; apply quietly_rollbackIfLocal].
    apply quietly_then; [|intros result; apply quietly_commitIfLocal].
    apply quietly_then; [quiet|]. intros deleteResult.
    apply quietly_try. intros instance.
    apply quietly_then; [|intros done; quiet].
    apply quietly_all_map. intros f.
    apply quietly_removeRelation. intros; apply IH.
Qed.

Lemma quietly_updateRelations models JSON_stringify fuel model relation relatedValues t :
  quietly (updateRelations models JSON_stringify fuel model relation relatedValues (Some t)).
Proof.
  unfold updateRelations. cbv zeta. apply quietly_try. intros [ids sql].
  apply quietly_then; [apply quietly_query|]. intros deleted.
  apply quietly_addRelation;
    [intros; apply quietly_insertOne | intros; apply quietly_insertAll].
Qed.

Lemma quietly_relationUpdates models JSON_stringify fuel model val schema t :
  forall entries assignments steps,
    relationUpdates models JSON_stringify fuel model val schema entries (Some t)
    = OK (assignments, steps) ->
    Forall quietly steps.
Proof.
  intros entries. unfold relationUpdates.
  assert (Hstart : forall a s, OK ([] : list string, [] : list (promise IUpsertResult))
                               = OK (a, s) -> Forall quietly s).
  { intros a s H. injection H as <- <-. constructor. }
  revert Hstart.
  generalize (OK ([] : list string, [] : list (promise IUpsertResult))) as acc.
  induction (rev entries) as [|[relation relationValue] rest IH]; intros acc Hacc.
  - exact Hacc.
  - cbn [fold_left]. apply IH. clear IH.
    intros a s. destruct acc as [[assignments steps]|e]; [|discriminate].
    specialize (Hacc assignments steps eq_refl). cbn [bind].
    destruct (negb (Js.truthy relationValue)
              && negb match relationValue with VNum 0 => true | _ => false end).
    { intros H. injection H as <- <-. exact Hacc. }
    destruct (Schema.getField schema relation) as [f|]; [|discriminate]. cbn [of_option bind].
    destruct (Field.relation f) as [relationship|]; [|discriminate]. cbn [of_option bind].
    destruct (rel_type relationship).
    + destruct (if negb (Js.truthy (Js.to_number relationValue)) && isObjectType relationValue
                then _ else _) as [fk|]; [|discriminate].
      cbn [bind]. destruct (Js.truthy fk || _); intros H; injection H as <- <-; exact Hacc.
    + destruct (if negb (Js.truthy (Js.to_number relationValue)) && isObjectType relationValue
                then _ else _) as [fk|]; [|discriminate].
      cbn [bind]. destruct (Js.truthy fk || _); intros H; injection H as <- <-; exact Hacc.
    + destruct (negb (Js.truthy relationValue)); intros H; injection H as <- <-;
        [exact Hacc|].
      apply Forall_app. split; [exact Hacc|]. constructor; [|constructor].
      apply quietly_try. intros m. apply quietly_updateRelations.
    + intros H. injection H as <- <-. exact Hacc.
Qed.

Lemma quietly_try_ok {A B} (r : result A) (k : A -> promise B) :
  (forall a, r = OK a -> quietly (k a)) -> quietly (P.try_ r k).
Proof.
  intros Hk. destruct r as [a|e]; simpl; [now apply Hk | apply quietly_throw].
Qed.

Lemma quietly_updateOne models JSON_parse JSON_stringify fuel model val t :
  quietly (updateOne models JSON_parse JSON_stringify fuel model val (Some t)).
Proof.
  unfold updateOne. cbn [isNone]. cbv zeta.
  apply (quietly_prepared (Some t) (fun prepare => P.try_ _ _)).
  intros prepare. destruct (assigned_some t prepare) as [t' ->].
  apply quietly_try. intros [[[analysedValue key] id] schema].
  apply quietly_catch; [|intros e; apply quietly_rollbackIfLocal].
  apply quietly_then; [|intros found; quiet].
  apply quietly_then; [|intros updated; apply quietly_commitIfLocal].
  apply quietly_then; [|intros [t0 assignments]; quiet].
  apply quietly_then; [apply quietly_settled|]. intros t0.
  apply quietly_try_ok. intros [assignments steps] Hsteps.
  apply quietly_then; [|intros done; quiet].
  apply quietly_all. apply Forall_app. split.
  - exact (quietly_relationUpdates _ _ _ _ _ _ _ _ Hsteps).
  - apply quietly_stepsFor. intros m name v. quiet.
Qed.

Lemma quietly_updateAll models model newValues condition t :
  quietly (updateAll models model newValues condition (Some t)).
Proof.
  unfold updateAll. cbn [isNone]. cbv zeta.
  apply (quietly_prepared (Some t) (fun prepare => P.try_ _ _)).
  intros prepare. quiet.
Qed.

(** X1.  A write operation that is given a transaction sends the driver
    no commit and no rollback, whatever the driver answers and however
    the operation ends: what it adds to the trace holds neither, for
    each of the five write operations and the operations they start. *)
Theorem supplied_transaction_is_left_open :
  forall models JSON_parse JSON_stringify t,
    (forall fuel model val,
        quietly (insertOne models JSON_stringify fuel model val (Some t)))
    /\ (forall fuel model val,
           quietly (updateOne models JSON_parse JSON_stringify fuel model val (Some t)))
    /\ (forall model newValues condition,
           quietly (updateAll models model newValues condition (Some t)))
    /\ (forall fuel model id,
           quietly (deleteOne models JSON_parse fuel model id (Some t)))
    /\ (forall model condition,
           quietly (deleteAll models model condition (Some t))).
Proof.
  intros models JSON_parse JSON_stringify t.
  split; [|split; [|split; [|split]]]; intros.
  - apply quietly_insertOne.
  - apply quietly_updateOne.
  - apply quietly_updateAll.
  - apply quietly_deleteOne.
  - apply quietly_deleteAll.
Qed.

(** *** A transaction of the operation's own *)

Lemma call_trace e w : trace (snd (P.call e w)) = (trace w ++ [e])%list.
Proof.
  unfold P.call. destruct (replies w); reflexivity.
Qed.

Lemma commit_step {A} t (x : A) w :
  exists w',
    trace w' = (trace w ++ [Commit t])%list
    /\ (commitIfLocal true (Some t) x w = (Resolved x, w')
        \/ exists reason, commitIfLocal true (Some t) x w = (Rejected reason, w')).
Proof.
  unfold commitIfLocal, commit, P.then_.
  pose proof (call_trace (Commit t) w) as Htrace.
  destruct (P.call (Commit t) w) as [r w']. exists w'. split; [exact Htrace|].
  destruct (Js.truthy (err r)); [right; eauto | left; reflexivity].
Qed.

Lemma rollback_step {A} code t reason w :
  exists w',
    trace w' = (trace w ++ [Rollback t])%list
    /\ @rollbackIfLocal A code true (Some t) reason w = (Rejected (Err code reason), w').
Proof.
  unfold rollbackIfLocal, rollback, P.then_.
  pose proof (call_trace (Rollback t) w) as Htrace.
  destruct (P.call (Rollback t) w) as [r w']. exists w'. split; [exact Htrace|].
  reflexivity.
Qed.

Lemma then_never_throws {A B} (m : promise A) (f : A -> promise B) w :
  (forall e w', m w <> (Thrown e, w')) ->
  forall e w', (m >>= f) w <> (Thrown e, w').
Proof.
  intros Hm e w'. unfold P.then_.
  destruct (m w) as [[a | e0 | e0 |] w1] eqn:E; try discriminate.
  - destruct (f a w1) as [[b | e1 | e1 |] w2]; simpl; discriminate.
  - exfalso. exact (Hm e0 w1 eq_refl).
Qed.

Lemma rolled_back {A} code t begun reason w :
  ownedOutcome code t begun (P.settle (@rollbackIfLocal A code true (Some t) reason w)).
Proof.
  destruct (@rollback_step A code t reason w) as (w' & Htrace & ->).
  unfold ownedOutcome. simpl. split; [eauto|].
  exists (trace w), []. split; [exact Htrace | reflexivity].
Qed.

(** The chain of a write operation that commits last. *)
Lemma owned_chain {A B} code t begun (chain : promise B) (g : B -> A) w :
  (forall e w', chain w <> (Thrown e, w')) ->
  ownedOutcome code t begun
    (P.catch_ (chain >>= (fun b => commitIfLocal true (Some t) (g b)))
              (rollbackIfLocal code true (Some t)) w).
Proof.
  intros Hchain. unfold P.catch_, P.then_.
  destruct (chain w) as [[b | e | e |] w1].
  - destruct (commit_step t (g b) w1) as (w2 & Htrace & [-> | [reason ->]]); simpl.
    + unfold ownedOutcome. simpl. exists (trace w1), []. split; [exact Htrace | reflexivity].
    + apply rolled_back.
  - apply rolled_back.
  - exfalso. exact (Hchain e w1 eq_refl).
  - exact I.
Qed.

(** The chain of [updateOne], which reads the row once more after the
    commit. *)
Lemma owned_chain_then {A B C} code t begun (chain : promise B) (x : C)
      (after : C -> promise A) w :
  (forall e w', chain w <> (Thrown e, w')) ->
  (forall a, quietly (after a)) ->
  ownedOutcome code t begun
    (P.catch_ (chain >>= (fun _ => commitIfLocal true (Some t) x) >>= after)
              (rollbackIfLocal code true (Some t)) w).
Proof.
  intros Hchain Hafter. unfold P.catch_, P.then_.
  destruct (chain w) as [[b | e | e |] w1].
  - destruct (commit_step t x w1) as (w2 & Htrace & [-> | [reason ->]]); simpl.
    + pose proof (Hafter x w2) as (added & Hadded & Hquiet).
      destruct (after x w2) as [[a | e | e |] w3]; simpl in Hadded |- *.
      * unfold ownedOutcome. simpl. exists (trace w1), added. split; [|exact Hquiet].
        rewrite Hadded, Htrace, <- app_assoc. reflexivity.
      * apply rolled_back.
      * apply rolled_back.
      * exact I.
    + apply rolled_back.
  - apply rolled_back.
  - exfalso. exact (Hchain e w1 eq_refl).
  - exact I.
Qed.

Lemma try_owned {A B} code t (r : result A) (k : A -> promise B) w :
  (forall a, ownedOutcome code t w (k a w)) -> ownedOutcome code t w (P.try_ r k w).
Proof.
  intros H. destruct r as [a|e]; simpl; [apply H | reflexivity].
Qed.

Lemma rolled_back_last {A} code t begun reason w :
  closedOutcome code t begun (P.settle (@rollbackIfLocal A code true (Some t) reason w)).
Proof.
  destruct (@rollback_step A code t reason w) as (w' & Htrace & ->).
  unfold closedOutcome. simpl. split; eauto.
Qed.

(** The chain of a write operation whose steps follow one another. *)
Lemma closed_chain {A B} code t begun (chain : promise B) (g : B -> A) w :
  firm chain ->
  closedOutcome code t begun
    (P.catch_ (chain >>= (fun b => commitIfLocal true (Some t) (g b)))
              (rollbackIfLocal code true (Some t)) w).
Proof.
  intros Hchain. unfold P.catch_, P.then_. specialize (Hchain w).
  destruct (chain w) as [[b | e | e |] w1]; simpl in Hchain; try contradiction.
  - destruct (commit_step t (g b) w1) as (w2 & Htrace & [-> | [reason ->]]); simpl.
    + unfold closedOutcome. simpl. now exists (trace w1).
    + apply rolled_back_last.
  - apply rolled_back_last.
Qed.

Lemma try_closed {A B} code t (r : result A) (k : A -> promise B) w :
  (forall a, closedOutcome code t w (k a w)) -> closedOutcome code t w (P.try_ r k w).
Proof.
  intros H. destruct r as [a|e]; simpl; [apply H | reflexivity].
Qed.

Lemma firm_settled {A} (a : A) : firm (fun w => (Resolved a, w)).
Proof. intros w. exact I. Qed.

Ltac unthrown :=
  repeat (apply then_never_throws); intros; discriminate.

Ltac owned Hprep :=
  rewrite Hprep; cbn [isNone assigned];
  apply try_owned; intros ?;
  repeat match goal with |- context [let '(_, _) := ?p in _] => destruct p end;
  first [ apply owned_chain; unthrown
        | apply owned_chain_then; [unthrown | intros; auto with quiet] ].

Ltac closed Hprep :=
  rewrite Hprep; cbn [isNone assigned];
  apply try_closed; intros ?;
  repeat match goal with |- context [let '(_, _) := ?p in _] => destruct p end;
  apply closed_chain;
  repeat (apply firm_then; [|intros ?; loud]); apply firm_settled.

(** X2.  A write operation that is given no transaction and whose own
    transaction the driver begins.  [insertOne], [updateOne] and
    [deleteOne] end, unless the bound on nested operations is reached,
    in one of three ways: fulfilled, and then the commit of the
    transaction was sent and no commit or rollback after it; rejected
    with the structured error of the operation, and then the rollback of
    the transaction was sent and no commit or rollback after it; or
    thrown before a promise is returned, and then nothing was sent after
    the begin: the transaction stays open.  [updateAll] and [deleteAll],
    whose steps follow one another, end in one of the three ways too,
    and the commit, or the rollback, is the last call the driver got. *)
Theorem own_transaction_is_settled :
  forall models JSON_parse JSON_stringify w t w1,
    prepareTransaction None w = (Resolved t, w1) ->
    (forall fuel model val,
        ownedOutcome DBInsert t w1 (insertOne models JSON_stringify fuel model val None w))
    /\ (forall fuel model val,
           ownedOutcome DBQuery t w1
             (updateOne models JSON_parse JSON_stringify fuel model val None w))
    /\ (forall model newValues condition,
           closedOutcome DBUpdate t w1 (updateAll models model newValues condition None w))
    /\ (forall fuel model id,
           ownedOutcome DBDelete t w1 (deleteOne models JSON_parse fuel model id None w))
    /\ (forall model condition,
           closedOutcome DBDelete t w1 (deleteAll models model condition None w)).
Proof.
  intros models JSON_parse JSON_stringify w t w1 Hprep.
  split; [|split; [|split; [|split]]].
  - intros [|fuel] model val; [exact I|]. cbn [insertOne]. owned Hprep.
  - intros fuel model val. unfold updateOne. owned Hprep.
  - intros model newValues condition. unfold updateAll. closed Hprep.
  - intros [|fuel] model id; [exact I|]. cbn [deleteOne]. owned Hprep.
  - intros model condition. unfold deleteAll. closed Hprep.
Qed.

Lemma own_transaction_is_settled_witness :
  insertOne Blog.models (fun v => VStr (Js.to_string v)) 1 "Tag" newTag None
            (Blog.driver [Blog.rows []; Blog.failure "deadlock"])
  = (Rejected (Err DBInsert (Raised (VObj [("message", VStr "deadlock")]))),
     {| replies := [];
        trace := [Begin 0;
                  Statement "INSERT INTO [Tag] (label) VALUES (x);SELECT SCOPE_IDENTITY() as id;"
                            (Some 0%nat);
                  Rollback 0];
        fresh := 1; connected := [0%nat] |})
  /\ ownedOutcome DBInsert 0
       {| replies := [Blog.failure "deadlock"]; trace := [Begin 0];
          fresh := 1; connected := [0%nat] |}
       (insertOne Blog.models (fun v => VStr (Js.to_string v)) 1 "Tag" newTag None
                  (Blog.driver [Blog.rows []; Blog.failure "deadlock"]))
  /\ closedOutcome DBDelete 0
       {| replies := [Blog.failure "deadlock"]; trace := [Begin 0];
          fresh := 1; connected := [0%nat] |}
       (deleteAll Blog.models "Tag" (Connector None And []) None
                  (Blog.driver [Blog.rows []; Blog.failure "deadlock"])).
Proof.
  split; [|split].
  - vm_compute. reflexivity.
  - refine (proj1 (@own_transaction_is_settled
                     Blog.models Json.parse (fun v => VStr (Js.to_string v))
                     (Blog.driver [Blog.rows []; Blog.failure "deadlock"]) 0%nat _ _)
                  1%nat "Tag" newTag).
    vm_compute. reflexivity.
  - refine (proj2 (proj2 (proj2 (proj2
              (@own_transaction_is_settled
                 Blog.models Json.parse (fun v => VStr (Js.to_string v))
                 (Blog.driver [Blog.rows []; Blog.failure "deadlock"]) 0%nat _ _))))
              "Tag" (Connector None And [])).
    vm_compute. reflexivity.
Defined.

(** ** Instances *)

Lemma normalizeList_never_throws_witness :
  exists rows',
    normalizeList Json.parse Blog.Post
                  (VArr [VObj [("title", VStr "t"); ("author", VStr "x'y")]])
    = OK (VArr rows')
    /\ Forall2 (normalizedRow Json.parse Blog.Post)
               [VObj [("title", VStr "t"); ("author", VStr "x'y")]] rows'.
Proof.
  apply (proj1 (normalizeList_never_throws Json.parse Blog.Post)). reflexivity.
Defined.

Lemma insertAll_empty_array_throws_witness :
  insertAll Blog.models (fun v => VStr (Js.to_string v)) "Tag" [] None (Blog.driver [])
  = (Thrown TypeError, Blog.driver []).
Proof.
  apply (proj1 insertAll_empty_array_throws Blog.models (fun v => VStr (Js.to_string v))
               "Tag" Blog.Tag "id" None (Blog.driver [])); reflexivity.
Defined.

(** * Further properties of the driver *)

(** ** The condition translator and the query compiler *)

Lemma childrenCondition_skip models model before leaf after :
  getCondition models model leaf model = OK "" ->
  childrenCondition models model (before ++ leaf :: after)
  = childrenCondition models model (before ++ after).
Proof.
  intros Hleaf. induction before as [|child rest IH]; simpl.
  - rewrite Hleaf. simpl.
    destruct (childrenCondition models model after); reflexivity.
  - rewrite IH. reflexivity.
Qed.

(** X3.  A comparison on a field the schema of its model does not
    declare compiles to the empty string, and a connector compiles as if
    the comparison were not among its children: the filter is dropped
    without an error. *)
Theorem getCondition_drops_unknown_field :
  forall models model alias own connector before after leafModel operator c schema,
    schemaOf models (model_or leafModel (model_or own model)) = Some schema ->
    Schema.getField schema (field c) = None ->
    getCondition models (model_or own model) (Leaf leafModel operator (Some c)) alias
    = OK ""
    /\ getCondition models model
         (Connector own connector (before ++ Leaf leafModel operator (Some c) :: after))
         alias
       = getCondition models model (Connector own connector (before ++ after)) alias.
Proof.
  intros models model alias own connector before after leafModel operator c schema
         Hschema Hfield.
  assert (Hleaf : forall a,
             getCondition models (model_or own model) (Leaf leafModel operator (Some c)) a
             = OK "").
  { intros a. simpl. rewrite Hschema. simpl. now rewrite Hfield. }
  split; [apply Hleaf|].
  rewrite !getCondition_connector.
  now rewrite (childrenCondition_skip _ _ before _ after (Hleaf _)).
Qed.

Lemma getCondition_drops_unknown_field_witness :
  getCondition Blog.models "Post"
    (Connector None And [Blog.compare EqualTo "titel" (VStr "open");
                         Blog.compare EqualTo "title" (VStr "open")]) "Post"
  = getCondition Blog.models "Post"
      (Connector None And [Blog.compare EqualTo "title" (VStr "open")]) "Post".
Proof.
  exact (proj2 (@getCondition_drops_unknown_field
                  Blog.models "Post" "Post" None And [] [Blog.compare EqualTo "title" (VStr "open")]
                  None EqualTo
                  {| field := "titel"; cvalue := VStr "open"; isValueOfTypeField := false |}
                  Blog.Post eq_refl eq_refl)).
Defined.

Lemma compileJoins_unknown_alias models alias join_ rest st :
  schemaOf models alias = None ->
  compileJoins models alias (join_ :: rest) st = Throw TypeError.
Proof.
  intros Halias. destruct join_ as [[type field_] vql]. simpl. now rewrite Halias.
Qed.

Lemma getQueryParams_unknown_alias models query_ alias :
  schemaOf models alias = None ->
  Vql.joins query_ <> [] ->
  exists e, getQueryParams models query_ alias = Throw e.
Proof.
  intros Halias Hjoins. unfold getQueryParams. rewrite compileQuery_unfold. cbv zeta.
  destruct (of_option (schemaOf models (Vql.model query_))) as [schema|e]; [|now eexists].
  cbn [bind].
  destruct (ownOrderBy models query_ schema alias) as [[orderBy flag]|e]; [|now eexists].
  cbn [bind].
  destruct (projection models schema alias (Vql.fields query_) (Vql.relations query_))
    as [fields|e]; [|now eexists].
  cbn [bind].
  destruct (relationFields models query_ schema alias (Vql.relations query_))
    as [expanded|e]; [|now eexists].
  cbn [bind].
  destruct (match Vql.condition query_ with
            | Some c => getCondition models (Vql.model query_) c alias
            | None => OK ""
            end) as [condition|e]; [|now eexists].
  cbn [bind].
  destruct (Vql.joins query_) as [|join_ rest]; [congruence|].
  rewrite (@compileJoins_unknown_alias models alias join_ rest _ Halias).
  eexists. reflexivity.
Qed.

(** X4.  [getQueryParams] looks the joined field up in the model that
    is registered under the current alias.  So a query with a join
    compiled under an alias that is no model name throws; and as a
    joined query is compiled under the alias Model_field, a join inside
    a joined query makes the whole compilation throw, unless a model is
    registered under that very name. *)
Theorem getQueryParams_nested_join_throws :
  (forall models query_ alias,
      schemaOf models alias = None ->
      Vql.joins query_ <> [] ->
      exists e, getQueryParams models query_ alias = Throw e)
  /\
  (forall models query_ alias type field_ inner rest aliased f related,
      Vql.joins query_ = (type, field_, inner) :: rest ->
      schemaOf models alias = Some aliased ->
      Schema.getField aliased field_ = Some f ->
      schemaOf models (Vql.model inner) = Some related ->
      schemaOf models (Vql.model inner ++ "_" ++ field_) = None ->
      Vql.joins inner <> [] ->
      exists e, getQueryParams models query_ alias = Throw e).
Proof.
  split; [exact getQueryParams_unknown_alias|].
  intros models query_ alias type field_ inner rest aliased f related
         Hjoins Haliased Hfield Hrelated Hnone Hinner.
  unfold getQueryParams. rewrite compileQuery_unfold. cbv zeta.
  destruct (of_option (schemaOf models (Vql.model query_))) as [schema|e]; [|now eexists].
  cbn [bind].
  destruct (ownOrderBy models query_ schema alias) as [[orderBy flag]|e]; [|now eexists].
  cbn [bind].
  destruct (projection models schema alias (Vql.fields query_) (Vql.relations query_))
    as [fields|e]; [|now eexists].
  cbn [bind].
  destruct (relationFields models query_ schema alias (Vql.relations query_))
    as [expanded|e]; [|now eexists].
  cbn [bind].
  destruct (match Vql.condition query_ with
            | Some c => getCondition models (Vql.model query_) c alias
            | None => OK ""
            end) as [condition|e]; [|now eexists].
  cbn [bind]. rewrite Hjoins. cbn [compileJoins]. cbv zeta.
  rewrite Haliased. cbn [of_option bind]. rewrite Hfield, Hrelated.
  destruct (pk models (Vql.model inner)) as [key|e]; [|now eexists]. cbn [bind].
  destruct (@getQueryParams_unknown_alias models inner _ Hnone Hinner) as [e ->].
  cbn [bind]. eexists. reflexivity.
Qed.

Lemma getQueryParams_nested_join_throws_witness :
  exists e, getQueryParams Blog.models postsOfAuthors "Post" = Throw e.
Proof.
  refine (proj2 getQueryParams_nested_join_throws Blog.models postsOfAuthors "Post"
                _ _ _ _ Blog.Post _ Blog.User eq_refl _ _ _ _ _).
  - reflexivity.
  - vm_compute. reflexivity.
  - reflexivity.
  - reflexivity.
  - discriminate.
Defined.

(** ** The gateway *)

Lemma existsb_eqb_head t l : existsb (Nat.eqb t) (t :: l) = true.
Proof.
  simpl. now rewrite Nat.eqb_refl.
Qed.

Lemma send_never_throws sql t w : P.settle (send sql t w) = send sql t w.
Proof.
  unfold send. destruct (P.call _ w) as [r w1]. now destruct (Js.truthy (err r)).
Qed.

(** X5.  [prepareTransaction] has a transaction object begun at most
    once: once it has run for a transaction, whatever the driver
    answered to the begin, it resolves with that transaction at once
    and sends nothing, so a statement on a transaction whose begin
    failed goes to the driver without a begin. *)
Theorem prepareTransaction_begins_once :
  forall t w,
    let w' := snd (prepareTransaction (Some t) w) in
    (trace w' = trace w \/ trace w' = (trace w ++ [Begin t])%list)
    /\ prepareTransaction (Some t) w' = (Resolved t, w')
    /\ forall sql, query sql (Some t) w' = send sql (Some t) w'.
Proof.
  intros t w w'.
  assert (Hconnected : existsb (Nat.eqb t) (connected w') = true
                       /\ (trace w' = trace w \/ trace w' = (trace w ++ [Begin t])%list)).
  { subst w'. unfold prepareTransaction.
    destruct (existsb (Nat.eqb t) (connected w)) eqn:Hc.
    - split; [exact Hc | now left].
    - unfold P.call. cbn [replies trace fresh connected].
      destruct (replies w) as [|r rest];
        [cbn [err quiet Js.truthy]|destruct (Js.truthy (err r))];
        cbn [snd connected trace]; (split; [apply existsb_eqb_head | now right]). }
  destruct Hconnected as [Hconnected Htrace].
  assert (Hagain : prepareTransaction (Some t) w' = (Resolved t, w')).
  { unfold prepareTransaction. now rewrite Hconnected. }
  split; [exact Htrace|]. split; [exact Hagain|].
  intros sql. unfold query, P.then_. rewrite Hagain. apply send_never_throws.
Qed.

(** ** Reading *)

Lemma getQueryParams_registered models query_ alias params :
  getQueryParams models query_ alias = OK params ->
  exists schema, schemaOf models (Vql.model query_) = Some schema.
Proof.
  unfold getQueryParams. rewrite compileQuery_unfold. cbv zeta.
  destruct (schemaOf models (Vql.model query_)) as [schema|]; [eauto | discriminate].
Qed.

Lemma query_rejects_truthy sql transaction w e w' :
  query sql transaction w = (Rejected e, w') -> error_truthy e = true.
Proof.
  assert (Hsend : forall t w0, send sql t w0 = (Rejected e, w') -> error_truthy e = true).
  { intros t w0. unfold send. destruct (P.call _ w0) as [r w1].
    destruct (Js.truthy (err r)) eqn:Herr; intros H; inversion H; subst. exact Herr. }
  unfold query. destruct transaction as [t|]; [|apply Hsend].
  unfold P.then_, prepareTransaction.
  destruct (existsb (Nat.eqb t) (connected w)).
  - rewrite send_never_throws. apply Hsend.
  - destruct (P.call (Begin t) _) as [r w1].
    destruct (Js.truthy (err r)) eqn:Herr.
    + intros H; inversion H; subst. exact Herr.
    + rewrite send_never_throws. apply Hsend.
Qed.

(** X6.  When the primary statement of [findByQuery] is answered with no
    rows, nothing else is sent to the driver, whatever relations and
    lists the query asks for, and the result has no items and the total
    0. *)
Theorem findByQuery_without_rows :
  forall models JSON_parse query_ params transaction w w',
    getQueryParams models query_ (Vql.model query_) = OK params ->
    query (selectStatement query_ params) transaction w = (Resolved (VArr []), w') ->
    findByQuery models JSON_parse query_ transaction w
    = (Resolved (Some {| items := VArr []; total := VNum 0 |}), w').
Proof.
  intros models JSON_parse query_ params transaction w w' Hparams Hquery.
  destruct (getQueryParams_registered _ _ _ Hparams) as [schema Hschema].
  destruct (pk_registered _ _ Hschema) as [key Hkey].
  unfold findByQuery. rewrite Hparams. cbn [P.try_].
  unfold P.catch_, findByQuery_chain, findByQuery_from, P.then_. rewrite Hquery.
  cbn [getManyToManyRelation Rows.items P.try_ P.resolve P.settle].
  unfold getListsOver. rewrite Hkey. cbn [bind Rows.items Rows.column P.try_ P.resolve].
  cbn [P.settle]. rewrite Hschema. reflexivity.
Qed.

Lemma findByQuery_without_rows_witness :
  findByQuery Blog.models Json.parse Example.postsWithTags None
              (Blog.driver [Blog.rows []])
  = (Resolved (Some {| items := VArr []; total := VNum 0 |}),
     {| replies := [];
        trace := [Statement
                    "SELECT [Post].id,[Post].title,[Post].meta,[Post].author FROM [Post]    "
                    None];
        fresh := 0; connected := [] |}).
Proof.
  refine (@findByQuery_without_rows Blog.models Json.parse Example.postsWithTags
            _ None (Blog.driver [Blog.rows []]) _ _ _).
  - vm_compute. reflexivity.
  - vm_compute. reflexivity.
Defined.

(** X7.  When the primary statement of [findByQuery] fails, on the pool
    or on a transaction, the promise is rejected with the structured
    query error that wraps the driver's error, and nothing else is sent:
    the failure of the statement never takes the way of the falsy
    reason. *)
Theorem findByQuery_wraps_driver_error :
  forall models JSON_parse query_ params transaction w e w',
    getQueryParams models query_ (Vql.model query_) = OK params ->
    query (selectStatement query_ params) transaction w = (Rejected e, w') ->
    findByQuery models JSON_parse query_ transaction w
    = (Rejected (DatabaseError DBQuery e), w').
Proof.
  intros models JSON_parse query_ params transaction w e w' Hparams Hquery.
  pose proof (query_rejects_truthy _ _ _ Hquery) as Htruthy.
  unfold findByQuery. rewrite Hparams. cbn [P.try_].
  unfold P.catch_, findByQuery_chain, findByQuery_from, P.then_. rewrite Hquery.
  unfold findByQuery_catch. rewrite Htruthy. reflexivity.
Qed.

Lemma findByQuery_wraps_driver_error_witness :
  findByQuery Blog.models Json.parse Example.postsWithTags (Some 3%nat)
              (Blog.driver [Blog.failure "no connection"])
  = (Rejected (DatabaseError DBQuery (Raised (VObj [("message", VStr "no connection")]))),
     {| replies := []; trace := [Begin 3]; fresh := 0; connected := [3%nat] |}).
Proof.
  refine (@findByQuery_wraps_driver_error Blog.models Json.parse Example.postsWithTags
            _ (Some 3%nat) (Blog.driver [Blog.failure "no connection"]) _ _ _ _).
  - vm_compute. reflexivity.
  - vm_compute. reflexivity.
Defined.

Lemma rightHandSide_throws_TypeError c e :
  rightHandSide c = Throw e -> e = TypeError.
Proof.
  unfold rightHandSide. destruct (isValueOfTypeField c); [discriminate|].
  destruct (Js.get (cvalue c) "id") as [id|]; simpl; [|congruence].
  destruct (escape _) as [escaped|e'] eqn:Hescape; simpl; [discriminate|].
  intros H. injection H as <-.
  unfold escape in Hescape.
  destruct (match id with VUndefined => cvalue c | _ => Js.to_number id end);
    congruence.
Qed.

Lemma childrenCondition_throws_TypeError models m children e :
  Forall (fun child => forall model alias e',
            getCondition models model child alias = Throw e' -> e' = TypeError) children ->
  childrenCondition models m children = Throw e -> e = TypeError.
Proof.
  induction 1 as [|child rest Hchild _ IHrest]; simpl; [discriminate|].
  destruct (getCondition models m child m) as [compiled|e'] eqn:Hcompiled; simpl.
  - destruct (childrenCondition models m rest) as [others|e'']; simpl; [discriminate|].
    intros H. injection H as <-. now apply IHrest.
  - intros H. injection H as <-. exact (Hchild _ _ _ Hcompiled).
Qed.

Lemma getCondition_throws_TypeError models :
  forall c model alias e,
    getCondition models model c alias = Throw e -> e = TypeError.
Proof.
  induction c as [own operator comparison | own operator children IH]
    using Condition_induction; intros model alias e.
  - simpl. destruct (schemaOf models (model_or own model)) as [schema|]; simpl; [|congruence].
    destruct comparison as [c|]; simpl; [|congruence].
    destruct (Schema.getField schema (field c)); [|discriminate].
    destruct (rightHandSide c) as [rhs|e'] eqn:Hrhs; simpl; [discriminate|].
    intros H. injection H as <-. exact (rightHandSide_throws_TypeError _ Hrhs).
  - rewrite getCondition_connector.
    destruct (childrenCondition models (model_or own model) children) as [fragments|e']
      eqn:Hchildren; simpl; [discriminate|].
    intros H. injection H as <-.
    exact (childrenCondition_throws_TypeError _ _ IH Hchildren).
Qed.

Lemma childrenCondition_throws models model leaf :
  getCondition models model leaf model = Throw TypeError ->
  forall children,
    In leaf children -> childrenCondition models model children = Throw TypeError.
Proof.
  intros Hleaf. induction children as [|child rest IH]; intros Hin; [contradiction|].
  simpl. destruct (getCondition models model child model) as [compiled|e] eqn:Hchild.
  - destruct Hin as [-> | Hin]; [congruence|]. simpl. now rewrite (IH Hin).
  - simpl. now rewrite (getCondition_throws_TypeError _ _ _ _ Hchild).
Qed.
Lemma getQueryParams_condition_throws models model condition option_ schema :
  schemaOf models model = Some schema ->
  opt_base option_ = noOption ->
  getCondition models model condition model = Throw TypeError ->
  getQueryParams models (valuesQuery model condition option_) model = Throw TypeError.
Proof.
  intros Hschema Hbase Hcondition.
  destruct option_ as [base off page lim]. cbn in Hbase. subst base.
  unfold getQueryParams. rewrite compileQuery_unfold. cbv zeta.
  cbn [valuesQuery Vql.model Vql.fields Vql.relations Vql.condition Vql.joins
       opt_base opt_fields opt_relations opt_orderBy opt_limit opt_offset opt_page noOption].
  rewrite Hschema. cbn [of_option bind].
  unfold ownOrderBy, valuesQuery.
  cbn [Vql.orderBy Vql.model opt_base opt_orderBy noOption].
  destruct (pk_registered _ _ Hschema) as [k Hk]. rewrite Hk.
  destruct (Str.non_empty _); cbn [bind projection relationFields]; now rewrite Hcondition.
Qed.

Lemma getQueryParams_no_condition models model option_ params :
  getQueryParams models (valuesQuery model (Connector None And []) option_) model
  = OK params ->
  ICalculatedQueryOptions.condition params = ""
  /\ ICalculatedQueryOptions.join params = "".
Proof.
  unfold getQueryParams. rewrite compileQuery_unfold. cbv zeta.
  destruct (of_option _) as [schema|]; [|discriminate]. cbn [bind].
  destruct (ownOrderBy _ _ _ _) as [[orderBy flag]|]; [|discriminate]. cbn [bind].
  destruct (projection _ _ _ _ _) as [fields|]; [|discriminate]. cbn [bind].
  destruct (relationFields _ _ _ _ _) as [expanded|]; [|discriminate].
  cbn [bind valuesQuery Vql.condition Vql.joins getCondition compileJoins].
  intros H. injection H as <-. split; reflexivity.
Qed.

(** X8.  [find] with a model name takes the way of [findById] only for
    an id whose number is truthy.  For 0 (and [NaN], [false], the empty
    string, an empty array or object) it compares the own properties of
    the id, of which there are none: the query has no condition at all,
    so the statement selects the rows of the table without a [WHERE]. *)
Theorem find_falsy_id_selects_all :
  forall models JSON_parse model arg2 option_ w,
    Js.truthy (Js.to_number arg2) = false ->
    entriesOf arg2 = OK [] ->
    find models JSON_parse (inl model) arg2 option_ None w
    = P.settle (findByQuery models JSON_parse
                  (valuesQuery model (Connector None And []) option_) None w)
    /\ forall params,
         getQueryParams models (valuesQuery model (Connector None And []) option_) model
         = OK params ->
         ICalculatedQueryOptions.condition params = ""
         /\ selectStatement (valuesQuery model (Connector None And []) option_) params
            = "SELECT " ++ ICalculatedQueryOptions.fields params ++ " FROM [" ++ model
              ++ "]   "
              ++ (if Str.non_empty (ICalculatedQueryOptions.orderBy params)
                  then "ORDER BY " ++ ICalculatedQueryOptions.orderBy params else "")
              ++ " " ++ ICalculatedQueryOptions.limit params.
Proof.
  intros models JSON_parse model arg2 option_ w Hfalsy Hentries. split.
  - unfold find, P.then_. cbn [P.resolve]. rewrite Hfalsy.
    unfold findByModelValues. rewrite Hentries. reflexivity.
  - intros params Hparams.
    destruct (getQueryParams_no_condition _ _ _ Hparams) as [Hcondition Hjoin].
    split; [exact Hcondition|].
    unfold selectStatement. rewrite Hcondition, Hjoin. cbn [Str.non_empty valuesQuery Vql.model].
    repeat (f_equal; try reflexivity).
Qed.

Lemma find_falsy_id_selects_all_witness :
  find Blog.models Json.parse (inl "Tag") (VNum 0) noPagedOption None
       (Blog.driver [Blog.rows [Data.tag 5 "x"; Data.tag 6 "y"]])
  = (Resolved (Some {| items := VArr [Data.tag 5 "x"; Data.tag 6 "y"]; total := VNum 2 |}),
     {| replies := [];
        trace := [Statement "SELECT [Tag].id,[Tag].label FROM [Tag]    " None];
        fresh := 0; connected := [] |}).
Proof.
  refine (eq_trans
            (proj1 (@find_falsy_id_selects_all Blog.models Json.parse "Tag" (VNum 0)
                      noPagedOption
                      (Blog.driver [Blog.rows [Data.tag 5 "x"; Data.tag 6 "y"]])
                      eq_refl eq_refl))
            _).
  vm_compute. reflexivity.
Defined.

Lemma leaf_undefined_throws models model schema key :
  schemaOf models model = Some schema ->
  Schema.getField schema key <> None ->
  getCondition models model (equalTo key VUndefined) model = Throw TypeError.
Proof.
  intros Hschema Hfield. unfold equalTo. simpl. rewrite Hschema. simpl.
  destruct (Schema.getField schema key); [reflexivity | contradiction].
Qed.

(** X9.  [count] with a model name compares every own property of the
    model values, one that is [undefined] too ([find] leaves those
    out).  When such a property is a field of the schema, the value
    cannot be escaped: the promise is rejected with a [TypeError] and
    no statement is sent. *)
Theorem count_undefined_value_rejects :
  forall models model schema modelValues entries key option_ w,
    schemaOf models model = Some schema ->
    opt_base option_ = noOption ->
    entriesOf modelValues = OK entries ->
    In (key, VUndefined) entries ->
    Schema.getField schema key <> None ->
    count models (inl model) modelValues option_ None w = (Rejected TypeError, w).
Proof.
  intros models model schema modelValues entries key option_ w
         Hschema Hbase Hentries Hin Hfield.
  unfold count, P.then_. cbn [P.resolve].
  unfold countByModelValues. rewrite Hentries. cbn [P.try_].
  unfold countByQuery.
  rewrite (@getQueryParams_condition_throws models model _ option_ schema Hschema Hbase).
  - reflexivity.
  - rewrite getCondition_connector. cbn [model_or].
    rewrite (@childrenCondition_throws models model (equalTo key VUndefined)
               (leaf_undefined_throws models model key Hschema Hfield)).
    + reflexivity.
    + apply in_map_iff. now exists (key, VUndefined).
Qed.

Lemma count_undefined_value_rejects_witness :
  count Blog.models (inl "Tag") (VObj [("id", VNum 5); ("label", VUndefined)])
        noPagedOption None (Blog.driver [])
  = (Rejected TypeError, Blog.driver []).
Proof.
  apply (@count_undefined_value_rejects Blog.models "Tag" Blog.Tag
           (VObj [("id", VNum 5); ("label", VUndefined)])
           [("id", VNum 5); ("label", VUndefined)] "label").
  - reflexivity.
  - reflexivity.
  - reflexivity.
  - right. left. reflexivity.
  - discriminate.
Defined.

(** X10.  [countByQuery] has no handler of its own: when its statement
    fails the promise is rejected with the driver's error as it is, not
    with a structured error; when the statement is answered with no row
    the promise is rejected with a [TypeError]; otherwise the total is
    the [total] column of the first row. *)
Theorem countByQuery_outcomes :
  forall models query_ params transaction w,
    getQueryParams models query_ (Vql.model query_) = OK params ->
    (forall e w',
        query (countStatement query_ params) transaction w = (Rejected e, w') ->
        countByQuery models query_ transaction w = (Rejected e, w'))
    /\ (forall w',
           query (countStatement query_ params) transaction w = (Resolved (VArr []), w') ->
           countByQuery models query_ transaction w = (Rejected TypeError, w'))
    /\ (forall first rest w',
           query (countStatement query_ params) transaction w
           = (Resolved (VArr (VObj first :: rest)), w') ->
           countByQuery models query_ transaction w
           = (Resolved {| items := VUndefined;
                          total := match Js.lookup "total" first with
                                   | Some n => n
                                   | None => VUndefined
                                   end |}, w')).
Proof.
  intros models query_ params transaction w Hparams.
  unfold countByQuery. rewrite Hparams. cbn [P.try_]. fold (countStatement query_ params).
  unfold P.then_.
  split; [|split].
  - intros e w' ->. reflexivity.
  - intros w' ->. reflexivity.
  - intros first rest w' ->. reflexivity.
Qed.

Lemma countByQuery_outcomes_witness :
  countByQuery Blog.models Example.postsWithTags None
               (Blog.driver [Blog.failure "timeout"])
  = (Rejected (Raised (VObj [("message", VStr "timeout")])),
     {| replies := [];
        trace := [Statement "SELECT COUNT(*) as total FROM [Post]  " None];
        fresh := 0; connected := [] |}).
Proof.
  refine (proj1 (@countByQuery_outcomes Blog.models Example.postsWithTags _ None
                   (Blog.driver [Blog.failure "timeout"]) _) _ _ _).
  - vm_compute. reflexivity.
  - vm_compute. reflexivity.
Defined.

Lemma prepareTransaction_connected t w :
  existsb (Nat.eqb t) (connected w) = true ->
  prepareTransaction (Some t) w = (Resolved t, w).
Proof.
  intros H. unfold prepareTransaction. now rewrite H.
Qed.

Lemma query_connected sql t w :
  existsb (Nat.eqb t) (connected w) = true ->
  query sql (Some t) w = send sql (Some t) w.
Proof.
  intros H. unfold query, P.then_. rewrite (prepareTransaction_connected _ _ H).
  apply send_never_throws.
Qed.

(** X11.  [increase] sends its update on the transaction it is given
    and then reads the row back with [findById] without a transaction:
    once the update is answered, what is left of [increase] is that
    [findById] on the pool, so inside a transaction that is not
    committed yet the row is read from outside of it. *)
Theorem increase_reads_back_on_the_pool :
  forall models JSON_parse model id field_ key transaction w updated w1,
    pk models model = OK key ->
    match transaction with
    | Some t => existsb (Nat.eqb t) (connected w) = true
    | None => True
    end ->
    send (increaseStatement model field_ key) transaction w = (Resolved updated, w1) ->
    increase models JSON_parse model id field_ transaction w
    = P.settle (findById models JSON_parse model id noOption None w1).
Proof.
  intros models JSON_parse model id field_ key transaction w updated w1
         Hkey Hconnected Hsend.
  unfold increase. fold (increaseStatement model field_ key). rewrite Hkey.
  cbn [P.try_]. unfold P.then_ at 1. unfold P.then_ at 1.
  destruct transaction as [t|].
  - unfold P.then_ at 1. rewrite (prepareTransaction_connected _ _ Hconnected).
    cbn [P.resolve P.settle]. fold (increaseStatement model field_ key).
    rewrite (query_connected _ _ _ Hconnected), Hsend. reflexivity.
  - cbn [P.resolve query]. fold (increaseStatement model field_ key).
    rewrite Hsend. reflexivity.
Qed.

Lemma increase_reads_back_on_the_pool_witness :
  increase Blog.models Json.parse "Tag" (VNum 5) "uses" (Some 0%nat)
           {| replies := [Blog.rows []; Blog.rows [Data.tag 5 "x"]];
              trace := [Begin 0]; fresh := 1; connected := [0%nat] |}
  = (Resolved (Some {| items := VArr [Data.tag 5 "x"]; total := VNum 1 |}),
     {| replies := [];
        trace := [Begin 0;
                  Statement "UPDATE `Tag` SET `uses` = `uses` + (?) WHERE id = ?"
                            (Some 0%nat);
                  Statement
                    ("SELECT [Tag].id,[Tag].label FROM [Tag]  WHERE ([Tag].id = 5) "
                     ++ "ORDER BY id  OFFSET 0 ROWS FETCH NEXT 1 ROWS ONLY ")
                    None];
        fresh := 1; connected := [0%nat] |}).
Proof.
  refine (eq_trans
            (@increase_reads_back_on_the_pool Blog.models Json.parse "Tag" (VNum 5) "uses"
               "id" (Some 0%nat)
               {| replies := [Blog.rows []; Blog.rows [Data.tag 5 "x"]];
                  trace := [Begin 0]; fresh := 1; connected := [0%nat] |}
               _ _ eq_refl eq_refl _)
            _).
  - vm_compute. reflexivity.
  - vm_compute. reflexivity.
Defined.

(** ** Writing *)

(** X12.  [insertOne] reads the new row back by [insertResult.insertId].
    The gateway resolves with the record set of the driver, an array,
    which has no such property: after an insert of plain properties
    that is answered with a record set, what is left of [insertOne] is
    the statement that selects the row whose key is [undefined], on the
    transaction, and then the commit (or the rollback). *)
Theorem insertOne_reads_back_undefined :
  forall models JSON_stringify fuel model val analysedValue key w t w1 first rest w2,
    getAnalysedValue models JSON_stringify model val = OK analysedValue ->
    relations analysedValue = [] ->
    lists analysedValue = [] ->
    pk models model = OK key ->
    prepareTransaction None w = (Resolved t, w1) ->
    query (insertStatement model analysedValue) (Some t) w1
    = (Resolved (VArr (VObj first :: rest)), w2) ->
    insertOne models JSON_stringify (S fuel) model val None w
    = P.catch_
        (query (readBackStatement model key VUndefined) (Some t)
         >>= (fun rows => commitIfLocal true (Some t) {| upserted := rows |}))
        (rollbackIfLocal DBInsert true (Some t)) w2.
Proof.
  intros models JSON_stringify fuel model val analysedValue key w t w1 first rest w2
         Hvalue Hrelations Hlists Hkey Hprepare Hinsert.
  cbn [insertOne]. rewrite Hprepare. cbn [isNone assigned]. rewrite Hvalue.
  cbn [P.try_]. fold (insertStatement model analysedValue).
  rewrite Hrelations, Hlists. unfold stepsFor. cbn [map app P.all].
  unfold P.catch_. unfold P.then_ at 1 2 3.
  rewrite Hinsert. cbn [P.settle at_ nth Js.get of_option bind P.try_ String.eqb Ascii.eqb
                        Bool.eqb].
  unfold P.then_ at 1. cbn [P.resolve P.settle]. rewrite Hkey. cbn [P.try_].
  fold (readBackStatement model key VUndefined).
  unfold P.then_.
  pose proof (@query_never_throws (readBackStatement model key VUndefined) (Some t) w2)
    as Hquery.
  destruct (query (readBackStatement model key VUndefined) (Some t) w2)
    as [[rows | e | e |] w3]; cbn [P.settle]; try reflexivity.
  exfalso. exact (Hquery e w3 eq_refl).
Qed.

Lemma insertOne_reads_back_undefined_witness :
  insertOne Blog.models (fun v => VStr (Js.to_string v)) 1 "Tag" newTag None
            (Blog.driver [Blog.rows []; Blog.rows [VObj [("id", VNum 9)]];
                          Blog.rows []; Blog.rows []])
  = (Resolved {| upserted := VArr [] |},
     {| replies := [];
        trace := [Begin 0;
                  Statement
                    "INSERT INTO [Tag] (label) VALUES (x);SELECT SCOPE_IDENTITY() as id;"
                    (Some 0%nat);
                  Statement "SELECT * FROM [Tag] WHERE id = undefined" (Some 0%nat);
                  Commit 0];
        fresh := 1; connected := [0%nat] |}).
Proof.
  refine (eq_trans
            (@insertOne_reads_back_undefined Blog.models (fun v => VStr (Js.to_string v))
               O "Tag" newTag _ "id"
               (Blog.driver [Blog.rows []; Blog.rows [VObj [("id", VNum 9)]];
                             Blog.rows []; Blog.rows []])
               0%nat _ [("id", VNum 9)] [] _ _ _ _ _ _ _)
            _).
  - vm_compute. reflexivity.
  - reflexivity.
  - reflexivity.
  - reflexivity.
  - vm_compute. reflexivity.
  - vm_compute. reflexivity.
  - vm_compute. reflexivity.
Defined.

Lemma then_resolved {A B} (m : promise A) (f : A -> promise B) a w w' :
  m w = (Resolved a, w') -> (m >>= f) w = P.settle (f a w').
Proof.
  intros H. unfold P.then_. now rewrite H.
Qed.

Lemma settle_query sql transaction w :
  P.settle (query sql transaction w) = query sql transaction w.
Proof.
  pose proof (@query_never_throws sql transaction w) as H.
  destruct (query sql transaction w) as [[a | e | e |] w']; try reflexivity.
  exfalso. exact (H e w' eq_refl).
Qed.

Lemma settle_then {A B} (m : promise A) (f : A -> promise B) w :
  (forall e w', m w <> (Thrown e, w')) ->
  P.settle ((m >>= f) w) = (m >>= f) w.
Proof.
  intros H. unfold P.then_.
  destruct (m w) as [[a | e | e |] w'] eqn:Hm; try reflexivity.
  - now destruct (f a w') as [[b | e | e |] w''].
  - exfalso. exact (H e w' eq_refl).
Qed.

Lemma settle_commitIfLocal {A} localTransaction t (x : A) w :
  P.settle (commitIfLocal localTransaction (Some t) x w)
  = commitIfLocal localTransaction (Some t) x w.
Proof.
  destruct localTransaction; [|reflexivity].
  destruct (commit_step t x w) as (w' & _ & [-> | [reason ->]]); reflexivity.
Qed.

(** X13.  [deleteAll] first selects the keys of the rows under the
    condition.  When there is none, no [DELETE] is sent: what is left is
    the commit of an own transaction and the empty result.  Otherwise
    one [DELETE] for exactly these keys, last row first, is sent on the
    transaction; the junction and list tables of the rows are not
    touched. *)
Theorem deleteAll_deletes_selected_keys :
  forall models model condition sqlCondition key transaction w t w1,
    getCondition models model condition model = OK sqlCondition ->
    pk models model = OK key ->
    prepareTransaction transaction w = (Resolved t, w1) ->
    (forall w2,
        query (selectKeys model key sqlCondition) (Some t) w1 = (Resolved (VArr []), w2) ->
        deleteAll models model condition transaction w
        = P.catch_ (commitIfLocal (isNone transaction) (Some t) {| deleted := VArr [] |})
                   (rollbackIfLocal DBDelete (isNone transaction) (Some t)) w2)
    /\
    (forall row rows w2,
        query (selectKeys model key sqlCondition) (Some t) w1
        = (Resolved (VArr (row :: rows)), w2) ->
        Forall (fun r => Js.is_nullish r = false) (row :: rows) ->
        let ids := rev (map (cell key) (row :: rows)) in
        deleteAll models model condition transaction w
        = P.catch_
            (query (deleteKeysStatement model key ids) (Some t)
             >>= (fun _ => commitIfLocal (isNone transaction) (Some t)
                             {| deleted := VArr ids |}))
            (rollbackIfLocal DBDelete (isNone transaction) (Some t)) w2).
Proof.
  intros models model condition sqlCondition key transaction w t w1
         Hcondition Hkey Hprepare.
  split.
  - intros w2 Hselect. unfold deleteAll. rewrite Hprepare. cbn [assigned].
    rewrite Hcondition, Hkey. cbn [P.try_]. unfold P.catch_.
    unfold P.then_ at 1 2 3. rewrite Hselect.
    cbn [P.settle Rows.items Rows.column bind P.try_ P.resolve].
    now rewrite settle_commitIfLocal.
  - intros row rows w2 Hselect Hrows ids. unfold deleteAll.
    rewrite Hprepare. cbn [assigned].
    rewrite Hcondition, Hkey. cbn [P.try_]. unfold P.catch_.
    unfold P.then_ at 1 2 3. rewrite Hselect.
    cbn [P.settle Rows.items bind]. rewrite (column_cells key Hrows). fold ids.
    cbn [bind P.try_].
    assert (Hsome : exists id others, ids = id :: others).
    { destruct ids as [|id others] eqn:Hids; [|eauto].
      apply (f_equal (@List.length _)) in Hids. subst ids.
      rewrite length_rev, length_map in Hids. discriminate. }
    destruct Hsome as (id & others & Hids). rewrite Hids.
    fold (deleteKeysStatement model key (id :: others)).
    unfold P.then_.
    pose proof (@query_never_throws (deleteKeysStatement model key (id :: others))
                  (Some t) w2) as Hquery.
    destruct (query (deleteKeysStatement model key (id :: others)) (Some t) w2)
      as [[deleted | e | e |] w3]; cbn [P.settle P.resolve];
      rewrite ?settle_commitIfLocal; try reflexivity.
    exfalso. exact (Hquery e w3 eq_refl).
Qed.

Lemma deleteAll_deletes_selected_keys_witness :
  deleteAll Blog.models "Tag" (Blog.compare EqualTo "label" (VStr "x")) None
            (Blog.driver [Blog.rows []; Blog.rows [Data.tag 5 "x"; Data.tag 6 "x"];
                          Blog.rows []; Blog.rows []])
  = (Resolved {| deleted := VArr [VNum 6; VNum 5] |},
     {| replies := [];
        trace := [Begin 0;
                  Statement "SELECT id FROM [Tag] WHERE ([Tag].label = N'x')" (Some 0%nat);
                  Statement "DELETE FROM [Tag] WHERE id IN (6,5)" (Some 0%nat);
                  Commit 0];
        fresh := 1; connected := [0%nat] |}).
Proof.
  refine (eq_trans
            (proj2 (@deleteAll_deletes_selected_keys Blog.models "Tag"
                      (Blog.compare EqualTo "label" (VStr "x")) _ "id" None
                      (Blog.driver [Blog.rows []; Blog.rows [Data.tag 5 "x"; Data.tag 6 "x"];
                                    Blog.rows []; Blog.rows []])
                      0%nat _ _ eq_refl _)
                   (Data.tag 5 "x") [Data.tag 6 "x"] _ _ _)
            _).
  - vm_compute. reflexivity.
  - vm_compute. reflexivity.
  - vm_compute. reflexivity.
  - repeat constructor.
  - vm_compute. reflexivity.
Defined.

(** X14.  [updateAll] first selects the keys of the rows under the
    condition.  When there is none, no [UPDATE] is sent and the result
    is empty.  Otherwise it sends one [UPDATE] for these keys, whose
    text sets every declared field but the primary key to the new value
    between quotes, as it is, and ends in a closing brace after the list
    of keys, and then selects the rows again; all on the transaction. *)
Theorem updateAll_updates_selected_keys :
  forall models model newValues condition sqlCondition assignments key transaction w t w1,
    getCondition models model condition model = OK sqlCondition ->
    assignmentsOf models model newValues = OK assignments ->
    pk models model = OK key ->
    prepareTransaction transaction w = (Resolved t, w1) ->
    (forall w2,
        query (selectKeys model key sqlCondition) (Some t) w1 = (Resolved (VArr []), w2) ->
        updateAll models model newValues condition transaction w
        = P.catch_ (commitIfLocal (isNone transaction) (Some t) {| upserted := VArr [] |})
                   (rollbackIfLocal DBUpdate (isNone transaction) (Some t)) w2)
    /\
    (forall row rows w2,
        query (selectKeys model key sqlCondition) (Some t) w1
        = (Resolved (VArr (row :: rows)), w2) ->
        Forall (fun r => Js.is_nullish r = false) (row :: rows) ->
        let ids := rev (map (cell key) (row :: rows)) in
        updateAll models model newValues condition transaction w
        = P.catch_
            (query (updateKeysStatement model key assignments ids) (Some t)
             >>= (fun _ => query (selectRowsStatement model key ids) (Some t))
             >>= (fun updated => commitIfLocal (isNone transaction) (Some t)
                                   {| upserted := updated |}))
            (rollbackIfLocal DBUpdate (isNone transaction) (Some t)) w2).
Proof.
  intros models model newValues condition sqlCondition assignments key transaction w t w1
         Hcondition Hassignments Hkey Hprepare.
  assert (Hstart :
            updateAll models model newValues condition transaction w
            = P.catch_
                ((fun w0 => (Resolved t, w0))
                 >>= (fun t0 => query (selectKeys model key sqlCondition) (Some t0))
                 >>= (fun rows =>
                        P.try_
                          (let* ids := Rows.column key (Rows.items rows) in OK (key, ids))
                          (fun '(key, ids) =>
                             match ids with
                             | [] => P.resolve (VArr [])
                             | _ =>
                                 query (updateKeysStatement model key assignments ids) (Some t)
                                 >>= (fun _ =>
                                        query (selectRowsStatement model key ids) (Some t))
                             end))
                 >>= (fun rows => commitIfLocal (isNone transaction) (Some t)
                                    {| upserted := rows |}))
                (rollbackIfLocal DBUpdate (isNone transaction) (Some t)) w1).
  { unfold updateAll. rewrite Hprepare. cbn [assigned]. rewrite Hcondition. cbn [bind].
    fold (assignmentsOf models model newValues). rewrite Hassignments.
    cbn [bind P.try_]. rewrite Hkey. reflexivity. }
  rewrite Hstart. clear Hstart. split.
  - intros w2 Hselect. unfold P.catch_. unfold P.then_ at 1 2 3. rewrite Hselect.
    cbn [P.settle Rows.items Rows.column bind P.try_ P.resolve].
    now rewrite settle_commitIfLocal.
  - intros row rows w2 Hselect Hrows ids. unfold P.catch_.
    unfold P.then_ at 1 2 3. rewrite Hselect.
    cbn [P.settle Rows.items bind]. rewrite (column_cells key Hrows). fold ids.
    cbn [bind P.try_].
    assert (Hsome : exists id others, ids = id :: others).
    { destruct ids as [|id others] eqn:Hids; [|eauto].
      apply (f_equal (@List.length _)) in Hids. subst ids.
      rewrite length_rev, length_map in Hids. discriminate. }
    destruct Hsome as (id & others & Hids). rewrite Hids.
    rewrite settle_then by apply query_never_throws.
    unfold P.then_ at 1.
    destruct ((query (updateKeysStatement model key assignments (id :: others)) (Some t)
               >>= (fun _ => query (selectRowsStatement model key (id :: others)) (Some t)))
                w2) as [[updated | e | e |] w3]; rewrite ?settle_commitIfLocal; reflexivity.
Qed.

Lemma updateAll_updates_selected_keys_witness :
  updateAll Blog.models "Tag"
            (VObj [("label", VStr "y"); ("id", VNum 1); ("nope", VNum 2)])
            (Blog.compare EqualTo "label" (VStr "x")) None
            (Blog.driver [Blog.rows []; Blog.rows [Data.tag 5 "x"; Data.tag 6 "x"];
                          Blog.rows []; Blog.rows [Data.tag 5 "y"]; Blog.rows []])
  = (Resolved {| upserted := VArr [Data.tag 5 "y"] |},
     {| replies := [];
        trace := [Begin 0;
                  Statement "SELECT id FROM [Tag] WHERE ([Tag].label = N'x')" (Some 0%nat);
                  Statement "UPDATE [Tag] SET [Tag].label = 'y'  WHERE id IN (6,5)}"
                            (Some 0%nat);
                  Statement "SELECT * FROM [Tag] WHERE id IN (6,5)" (Some 0%nat);
                  Commit 0];
        fresh := 1; connected := [0%nat] |}).
Proof.
  refine (eq_trans
            (proj2 (@updateAll_updates_selected_keys Blog.models "Tag"
                      (VObj [("label", VStr "y"); ("id", VNum 1); ("nope", VNum 2)])
                      (Blog.compare EqualTo "label" (VStr "x")) _ _ "id" None
                      (Blog.driver [Blog.rows []; Blog.rows [Data.tag 5 "x"; Data.tag 6 "x"];
                                    Blog.rows []; Blog.rows [Data.tag 5 "y"]; Blog.rows []])
                      0%nat _ _ _ eq_refl _)
                   (Data.tag 5 "x") [Data.tag 6 "x"] _ _ _)
            _).
  - vm_compute. reflexivity.
  - vm_compute. reflexivity.
  - vm_compute. reflexivity.
  - vm_compute. reflexivity.
  - repeat constructor.
  - vm_compute. reflexivity.
Defined.

(** ** The table definitions *)

(** X15.  [columnDefinition] returns the empty string exactly for a list
    field and for a many-to-many or reverse relation, the fields that
    get no column; these are also the only fields for which [getType]
    has no type, so the text of a column never holds [undefined] for
    its type: it is the field's name between backquotes, the type, and
    the constraints. *)
Theorem columnDefinition_is_typed :
  forall c : Ddl.column,
    (Ddl.columnDefinition c = "" <-> Ddl.hasNoColumn c = true)
    /\ (Ddl.getType c = None <-> Ddl.hasNoColumn c = true)
    /\ (Ddl.hasNoColumn c = false ->
        exists type constraints,
          Ddl.getType c = Some type
          /\ Ddl.columnDefinition c
             = "`" ++ Field.fieldName (Ddl.field c) ++ "` " ++ type ++ constraints).
Proof.
  intros c.
  assert (Htype : Ddl.getType c = None <-> Ddl.hasNoColumn c = true).
  { unfold Ddl.getType, Ddl.hasNoColumn.
    destruct (Field.type (Ddl.field c)) as [| | | | | | | | | | | | | | |r];
      try (split; discriminate); try (split; reflexivity);
      try (destruct (Field.primary (Ddl.field c)); split; discriminate).
    destruct (rel_type r); split; try discriminate; reflexivity. }
  split; [|split; [exact Htype|]].
  - unfold Ddl.columnDefinition. destruct (Ddl.hasNoColumn c); split; try reflexivity;
      discriminate.
  - intros Hcolumn. unfold Ddl.columnDefinition. rewrite Hcolumn.
    destruct (Ddl.getType c) as [type|].
    + eexists type, _. split; [reflexivity|]. cbv zeta. reflexivity.
    + destruct Htype as [Hnone _]. specialize (Hnone eq_refl). congruence.
Qed.

Lemma join_last sep (l : list string) x :
  exists body, Str.join sep (l ++ [x]) = body ++ x.
Proof.
  induction l as [|y rest [body IH]].
  - exists "". reflexivity.
  - destruct rest as [|z rest'].
    + exists (y ++ sep). simpl. now rewrite append_assoc.
    + exists (y ++ sep ++ body).
      change (Str.join sep ((y :: z :: rest') ++ [x]))
        with (y ++ sep ++ Str.join sep ((z :: rest') ++ [x])).
      rewrite IH. now rewrite !append_assoc.
Qed.

Lemma keyIndex_some columns :
  forall acc key,
    fold_left
      (fun key c =>
         if Field.primary (Ddl.field c) then Some (Field.fieldName (Ddl.field c)) else key)
      columns acc = Some key ->
    acc = Some key
    \/ exists c, In c columns /\ Field.primary (Ddl.field c) = true
                 /\ Field.fieldName (Ddl.field c) = key.
Proof.
  induction columns as [|c rest IH]; intros acc key H; simpl in H.
  - now left.
  - destruct (IH _ _ H) as [Hacc | (c' & Hin & Hprimary & Hname)].
    + destruct (Field.primary (Ddl.field c)) eqn:Hprimary.
      * right. exists c. injection Hacc as Hacc. repeat split; auto. now left.
      * now left.
    + right. exists c'. repeat split; auto. now right.
Qed.

Lemma keyIndex_stays columns :
  forall name,
    fold_left
      (fun key c =>
         if Field.primary (Ddl.field c) then Some (Field.fieldName (Ddl.field c)) else key)
      columns (Some name) <> None.
Proof.
  induction columns as [|c rest IH]; intros name; simpl; [discriminate|].
  destruct (Field.primary (Ddl.field c)); apply IH.
Qed.

Lemma keyIndex_none columns :
  forall acc,
    fold_left
      (fun key c =>
         if Field.primary (Ddl.field c) then Some (Field.fieldName (Ddl.field c)) else key)
      columns acc = None ->
    forall c, In c columns -> Field.primary (Ddl.field c) = false.
Proof.
  induction columns as [|c rest IH]; intros acc H c' Hin; [contradiction|].
  simpl in H. destruct Hin as [<- | Hin].
  - destruct (Field.primary (Ddl.field c)) eqn:Hprimary; [|reflexivity].
    exfalso. exact (keyIndex_stays _ _ H).
  - exact (IH _ H c' Hin).
Qed.

(** X16.  Every table definition ends in its primary key.  For a schema
    of the registry whose primary fields, if any, carry one name, and
    not the empty one, that key is the primary key [pk] answers for the
    model, the one every statement of the driver addresses rows by: the
    primary field, or [id] when the schema has none, for which the
    definition adds an identity column. *)
Theorem createDefinition_key_is_pk :
  forall models (s : Ddl.schema) check,
    schemaOf models (Ddl.name s) = Some (registered s) ->
    (forall c1 c2,
        In c1 (Ddl.columns s) -> In c2 (Ddl.columns s) ->
        Field.primary (Ddl.field c1) = true -> Field.primary (Ddl.field c2) = true ->
        Field.fieldName (Ddl.field c1) = Field.fieldName (Ddl.field c2)) ->
    (forall c, In c (Ddl.columns s) -> Field.primary (Ddl.field c) = true ->
               Field.fieldName (Ddl.field c) <> "") ->
    exists body key,
      pk models (Ddl.name s) = OK key
      /\ Ddl.ownColumn (Ddl.createDefinition (Ddl.columns s) check)
         = body ++ "PRIMARY KEY (" ++ key ++ ")".
Proof.
  intros models s check Hschema Hone Hnamed.
  unfold pk. rewrite Hschema. cbn [of_option bind registered Schema.fields].
  unfold Ddl.createDefinition. cbv zeta. cbn [Ddl.ownColumn].
  destruct (Ddl.keyIndex (Ddl.columns s)) as [key|] eqn:Hkey.
  - destruct (keyIndex_some _ _ Hkey) as [Hacc | (c & Hin & Hprimary & Hname)];
      [discriminate|].
    assert (Hnonempty : Str.non_empty key = true).
    { subst key. specialize (Hnamed c Hin Hprimary).
      now destruct (Field.fieldName (Ddl.field c)). }
    rewrite Hnonempty.
    destruct (List.find (fun c0 => String.eqb (Field.fieldName (Ddl.field c0)) key)
                        (Ddl.columns s)) as [found|] eqn:Hfound.
    + apply find_some in Hfound as [_ Hsame]. apply String.eqb_eq in Hsame.
      destruct (List.find Field.primary (map Ddl.field (Ddl.columns s))) as [f|] eqn:Hfirst.
      * apply find_some in Hfirst as [Hf Hfp].
        apply in_map_iff in Hf as (c' & <- & Hin').
        rewrite (Hone c' c Hin' Hin Hfp Hprimary), Hname, <- Hsame.
        destruct (join_last Ddl.separator
                    (flat_map
                       (fun c0 =>
                          if Str.non_empty (Ddl.columnDefinition c0)
                             && negb (Ddl.multilingual c0 && check)
                          then [Ddl.columnDefinition c0] else []) (Ddl.columns s))
                    ("PRIMARY KEY (" ++ Field.fieldName (Ddl.field found) ++ ")"))
          as [body Hbody].
        exists body, (Field.fieldName (Ddl.field found)). split; [reflexivity | exact Hbody].
      * exfalso.
        pose proof (find_none _ _ Hfirst (Ddl.field c) (in_map Ddl.field _ _ Hin)) as Hno.
        congruence.
    + exfalso.
      pose proof (find_none _ _ Hfound c Hin) as Hno. cbv beta in Hno.
      rewrite Hname, String.eqb_refl in Hno. discriminate.
  - pose proof (keyIndex_none _ _ Hkey) as Hnone.
    destruct (List.find Field.primary (map Ddl.field (Ddl.columns s))) as [f|] eqn:Hfirst.
    + exfalso. apply find_some in Hfirst as [Hf Hfp].
      apply in_map_iff in Hf as (c' & <- & Hin'). rewrite (Hnone c' Hin') in Hfp.
      discriminate.
    + destruct (join_last Ddl.separator
                  (flat_map
                     (fun c0 =>
                        if Str.non_empty (Ddl.columnDefinition c0)
                           && negb (Ddl.multilingual c0 && check)
                        then [Ddl.columnDefinition c0] else []) (Ddl.columns s)
                   ++ [Ddl.columnDefinition (Ddl.plain "id" TInteger true)])
                  "PRIMARY KEY (id)") as [body Hbody].
      exists body, "id". split; [reflexivity | exact Hbody].
Qed.

Lemma createDefinition_key_is_pk_witness :
  exists body key,
    pk [registered tagTable] "Tag" = OK key
    /\ Ddl.ownColumn (Ddl.createDefinition (Ddl.columns tagTable) true)
       = body ++ "PRIMARY KEY (" ++ key ++ ")".
Proof.
  apply (@createDefinition_key_is_pk [registered tagTable] tagTable true).
  - reflexivity.
  - intros c1 c2 [<- | [<- | []]] [<- | [<- | []]]; intros; try reflexivity; discriminate.
  - intros c [<- | [<- | []]]; intros; discriminate.
Defined.

Lemma schemaOf_name models name schema :
  schemaOf models name = Some schema -> Schema.name schema = name.
Proof.
  unfold schemaOf. intros H. apply find_some in H as [_ H]. now apply String.eqb_eq.
Qed.

Lemma getField_name schema name f :
  Schema.getField schema name = Some f -> Field.fieldName f = name.
Proof.
  unfold Schema.getField. intros H. apply find_some in H as [_ H]. now apply String.eqb_eq.
Qed.

Lemma relationOf_names models model relation f r related :
  relationOf models model relation = OK (f, r, related) ->
  Field.fieldName f = relation
  /\ Field.relation f = Some r
  /\ Schema.name related = rel_model r.
Proof.
  unfold relationOf.
  destruct (schemaOf models model) as [schema|]; [|discriminate]. cbn [of_option bind].
  destruct (Schema.getField schema relation) as [f'|] eqn:Hfield; [|discriminate].
  cbn [of_option bind].
  destruct (Field.relation f') as [r'|] eqn:Hrelation; [|discriminate].
  cbn [of_option bind].
  destruct (schemaOf models (rel_model r')) as [related'|] eqn:Hrelated; [|discriminate].
  cbn [of_option bind]. intros H. injection H as <- <- <-.
  repeat split; [exact (getField_name _ _ Hfield) | exact Hrelation
                 | exact (schemaOf_name _ _ Hrelated)].
Qed.

Lemma escaped_values (render : value -> string) entries escaped :
  Forall2 (fun entry e => escape entry = OK e) entries escaped ->
  fold_right
    (fun entry acc =>
       let* rest := acc in
       let* e := escape entry in
       OK (render e :: rest))
    (OK []) entries
  = OK (map render escaped).
Proof.
  induction 1 as [|entry e entries escaped Hentry _ IH]; simpl; [reflexivity|].
  rewrite IH. simpl. now rewrite Hentry.
Qed.

(** X17.  The tables the table definition makes for a many-to-many
    field and for a list field are the tables the write operations fill:
    [addManyToManyRelation] inserts into the junction table of
    [relationTable], under the names of its two key columns, and
    [addList] inserts into the table of [listTable], under the names of
    its columns [fk] and [value]. *)
Theorem created_tables_are_the_written_ones :
  (forall models insertAll_ model relation c r related key ownKey n transaction table w,
      relationOf models (Model.schema model) relation = OK (Ddl.field c, r, related) ->
      pk models (Schema.name related) = OK key ->
      pk models (Model.schema model) = OK ownKey ->
      0 < n ->
      Ddl.relationTable c (Model.schema model) = OK table ->
      exists idColumn ownerColumn relatedColumn,
        Ddl.columns table = [idColumn; ownerColumn; relatedColumn]
        /\ addManyToManyRelation models insertAll_ model relation (VNum n) transaction w
           = P.catch_
               (query ("INSERT INTO " ++ Ddl.name table ++ newline ++ indent20 ++ "(["
                       ++ Field.fieldName (Ddl.field ownerColumn) ++ "],["
                       ++ Field.fieldName (Ddl.field relatedColumn) ++ "]) VALUES ("
                       ++ Js.to_string (Model.get model ownKey) ++ "," ++ Str.of_Z n ++ ")")
                      transaction
                >>= (fun insertResult => P.resolve {| upserted := insertResult |}))
               (fun err_ => P.reject (Err DBInsert err_)) w)
  /\
  (forall models model c entry entries escaped key transaction table w,
      pk models (Model.schema model) = OK key ->
      Forall2 (fun e s => escape e = OK s) (entry :: entries) escaped ->
      Ddl.listTable c (Model.schema model) = OK table ->
      exists idColumn fkColumn valueColumn,
        Ddl.columns table = [idColumn; fkColumn; valueColumn]
        /\ addList models model (Field.fieldName (Ddl.field c)) (VArr (entry :: entries))
                   transaction w
           = query ("INSERT INTO " ++ Ddl.name table ++ " (["
                    ++ Field.fieldName (Ddl.field fkColumn) ++ "],["
                    ++ Field.fieldName (Ddl.field valueColumn) ++ "]) VALUES "
                    ++ Str.join ","
                         (map (fun s => "(" ++ Js.to_string (Model.get model key) ++ " , "
                                        ++ Js.to_string s ++ ")") escaped))
                   transaction w).
Proof.
  split.
  - intros models insertAll_ model relation c r related key ownKey n transaction table w
           Hrelation Hkey HownKey Hpositive Htable.
    destruct (relationOf_names _ _ _ Hrelation) as (Hname & Hfield & Hrelated).
    unfold Ddl.relationTable in Htable. rewrite Hname, Hfield in Htable.
    destruct (pascalCase relation) as [suffix|] eqn:Hsuffix; [|discriminate].
    cbn [bind] in Htable.
    destruct (camelCase (Model.schema model)) as [owner|] eqn:Howner; [|discriminate].
    cbn [bind of_option] in Htable.
    destruct (camelCase (rel_model r)) as [other|] eqn:Hother; [|discriminate].
    cbn [bind] in Htable. injection Htable as <-.
    eexists _, _, _. split; [reflexivity|].
    cbn [Ddl.name Ddl.columns Ddl.plain Ddl.field Field.fieldName].
    unfold addManyToManyRelation. rewrite Hrelation. cbn [bind]. rewrite Hkey. cbn [bind].
    unfold partitionRelated.
    assert (Hn : isPositive (VNum n) = true).
    { unfold isPositive. simpl. now apply Z.ltb_lt. }
    rewrite Hn. cbn [bind P.try_ Js.to_number].
    unfold P.catch_. unfold P.then_ at 1 2 3. cbn [P.resolve P.settle].
    rewrite HownKey. cbn [fold_right bind escape app Js.to_string].
    rewrite Hsuffix, Howner. cbn [bind]. rewrite Hrelated, Hother. cbn [bind P.try_ Str.join].
    rewrite !append_assoc. cbn [append]. unfold P.then_.
    match goal with
    | |- context [query ?sql transaction w] =>
        pose proof (@query_never_throws sql transaction w) as Hquery;
        destruct (query sql transaction w) as [[a | e | e |] w']
    end; try reflexivity.
    exfalso. exact (Hquery e w' eq_refl).
  - intros models model c entry entries escaped key transaction table w
           Hkey Hescaped Htable.
    unfold Ddl.listTable in Htable.
    destruct (pascalCase (Field.fieldName (Ddl.field c))) as [suffix|] eqn:Hsuffix;
      [|discriminate].
    cbn [bind] in Htable. injection Htable as <-.
    eexists _, _, _. split; [reflexivity|].
    cbn [Ddl.name Ddl.columns Ddl.plain Ddl.field Field.fieldName].
    unfold addList. rewrite Hkey. cbn [bind].
    rewrite (escaped_values
               (fun s => "(" ++ Js.to_string (Model.get model key) ++ " , "
                         ++ Js.to_string s ++ ")") Hescaped).
    cbn [bind]. unfold listTableName. rewrite Hsuffix. cbn [bind P.try_].
    rewrite !append_assoc. reflexivity.
Qed.

Lemma created_tables_are_the_written_ones_witness :
  (exists idColumn ownerColumn relatedColumn,
      Ddl.relationTable (columnOf tagsField) "Post"
      = OK {| Ddl.name := "PostHasTags";
              Ddl.columns := [idColumn; ownerColumn; relatedColumn] |}
      /\ Field.fieldName (Ddl.field ownerColumn) = "post"
      /\ Field.fieldName (Ddl.field relatedColumn) = "tag")
  /\ snd (addManyToManyRelation Blog.models (insertAll Blog.models (fun v => v))
            Data.thirdPost "tags" (VNum 5) None (Blog.driver []))
     = snd (query ("INSERT INTO PostHasTags" ++ newline ++ indent20
                   ++ "([post],[tag]) VALUES (3,5)") None (Blog.driver [])).
Proof.
  split.
  - eexists _, _, _. repeat split.
  - destruct (proj1 created_tables_are_the_written_ones
                Blog.models (insertAll Blog.models (fun v => v)) Data.thirdPost "tags"
                (columnOf tagsField)
                {| rel_model := "Tag"; rel_type := Many2Many; isWeek := false |}
                Blog.Tag "id" "id" 5 None
                {| Ddl.name := "PostHasTags";
                   Ddl.columns := [Ddl.plain "id" TInteger true;
                                   Ddl.plain "post" TInteger false;
                                   Ddl.plain "tag" TInteger false] |}
                (Blog.driver []) eq_refl eq_refl eq_refl eq_refl eq_refl)
      as (idColumn & ownerColumn & relatedColumn & Hcolumns & ->).
    injection Hcolumns as <- <- <-. reflexivity.
Defined.

(** ** The earlier revision *)

Lemma legacy_insertRow_reversed item columns cells :
  Forall2 (fun f s => legacyCell item f = OK s) columns cells ->
  Legacy.insertRow columns (VObj item) = OK ("(" ++ Str.join "," (rev cells) ++ ")").
Proof.
  intros Hcells. unfold Legacy.insertRow.
  match goal with
  | |- (let* cells := ?fold in _) = _ => assert (Hfold : fold = OK (rev cells))
  end.
  { induction Hcells as [|f s columns cells Hcell _ IH]; [reflexivity|].
    cbn [fold_right]. rewrite IH. cbn [bind rev]. unfold legacyCell in Hcell.
    destruct (Js.lookup (Field.fieldName f) item) as [v|].
    - destruct (escape v) as [e|]; [|discriminate]. cbn [bind] in Hcell |- *.
      now injection Hcell as <-.
    - now injection Hcell as <-. }
  now rewrite Hfold.
Qed.

(** X18.  The bulk insert of the earlier revision names the columns in
    the order of the schema and lists the values of a row in the
    reverse order, so with two columns or more a value stands under the
    wrong column; and the table name is followed by a closing brace. *)
Theorem legacy_insertAll_reverses_values :
  forall models model schema item cells w,
    schemaOf models model = Some schema ->
    Forall2 (fun f s => legacyCell item f = OK s) (legacyColumns schema) cells ->
    Legacy.insertAll models model [VObj item] w
    = P.catch_
        (Legacy.query
           ("INSERT INTO " ++ model ++ "} ("
            ++ Str.join "," (map Field.fieldName (legacyColumns schema))
            ++ ") VALUES (" ++ Str.join "," (rev cells) ++ ")")
         >>= (fun insertResult => P.resolve {| upserted := insertResult |}))
        (fun err_ => P.reject (Err DBInsert err_)) w.
Proof.
  intros models model schema item cells w Hschema Hcells.
  unfold Legacy.insertAll. rewrite Hschema. cbn [of_option bind fold_right].
  fold (legacyColumns schema).
  rewrite (@legacy_insertRow_reversed item _ _ Hcells). cbn [bind app P.try_ Str.join].
  reflexivity.
Qed.

Lemma legacy_insertAll_reverses_values_witness :
  Legacy.insertAll Blog.models "Tag" [VObj [("id", VNum 5); ("label", VStr "x")]]
                   (Blog.driver [])
  = (Resolved {| upserted := VObj [("recordset", VArr [])] |},
     {| replies := [];
        trace := [Statement "INSERT INTO Tag} (id,label) VALUES (N'x',5)" None];
        fresh := 0; connected := [] |}).
Proof.
  refine (eq_trans
            (@legacy_insertAll_reverses_values Blog.models "Tag" Blog.Tag
               [("id", VNum 5); ("label", VStr "x")] ["5"; "N'x'"] (Blog.driver [])
               eq_refl _)
            _).
  - repeat constructor.
  - vm_compute. reflexivity.
Defined.

(** X19.  [removeOneToManyRelation] starts the deletion of an owned
    related row and waits for it nowhere.  For an owned relation whose
    foreign key is a truthy number, on the pool or on a transaction that
    is begun: the promise is settled by the [UPDATE] that sets the
    foreign key to 0 alone, sent first and answered first; the
    [deleteOne] of the related row sends its calls after it, and whether
    it is fulfilled, rejected or throws changes nothing of the
    outcome. *)
Theorem removeOneToManyRelation_drops_cascade_outcome :
  forall models JSON_parse deleteOne_ model relation f r related key id transaction
         w o w1,
    relationOf models (Model.schema model) relation = OK (f, r, related) ->
    isWeek r = true ->
    Js.truthy (Js.to_number (Model.get model relation)) = true ->
    pk models (Model.schema model) = OK key ->
    escape (Model.get model key) = OK id ->
    match transaction with
    | Some t => existsb (Nat.eqb t) (connected w) = true
    | None => True
    end ->
    P.catch_
      (query ("UPDATE [" ++ Model.schema model ++ "] SET " ++ relation ++ " = 0 WHERE "
              ++ key ++ " = " ++ Js.to_string id) transaction
       >>= (fun updateResult => P.resolve (VObj [("items", updateResult)])))
      (fun err_ => P.reject (Err DBUpdate err_)) w
    = (o, w1) ->
    fst (deleteOne_ (Schema.name related) (Js.to_number (Model.get model relation))
                    transaction w1) <> Exhausted ->
    removeOneToManyRelation models JSON_parse deleteOne_ model relation transaction w
    = (o, snd (deleteOne_ (Schema.name related) (Js.to_number (Model.get model relation))
                          transaction w1)).
Proof.
  intros models JSON_parse deleteOne_ model relation f r related key id transaction
         w o w1 Hrel Hweak Hkey Hpk Hid _ Hupdate Hfuel.
  unfold removeOneToManyRelation. rewrite Hrel. cbn [P.try_].
  rewrite Hweak, Hkey, Hpk. cbn [bind]. rewrite Hid. cbn [bind P.try_].
  unfold P.detach. unfold P.resolve at 1.
  match goal with
  | |- (let (o0, w2) := ?main w in _) = _ => replace (main w) with (o, w1)
  end.
  - unfold P.then_ at 1.
    destruct (deleteOne_ (Schema.name related) (Js.to_number (Model.get model relation))
                         transaction w1) as [[deleted_ | e | e |] w2];
      try reflexivity.
    now contradiction Hfuel.
  - rewrite <- Hupdate. unfold P.catch_, P.then_, P.resolve.
    destruct (query _ transaction w) as [[updated | e | e |] w2] eqn:Hquery;
      try reflexivity.
    now apply query_never_throws in Hquery.
Qed.

Lemma removeOneToManyRelation_drops_cascade_outcome_witness :
  removeOneToManyRelation owners (fun _ => None) (deleteOne owners (fun _ => None) 3)
    member "picture" (Some 0%nat)
    {| replies := [Blog.rows []; Blog.failure "locked"]; trace := [];
       fresh := 1; connected := [0%nat] |}
  = (Resolved (VObj [("items", VArr [])]),
     {| replies := [];
        trace := [Statement "UPDATE [Member] SET picture = 0 WHERE id = 4" (Some 0%nat);
                  Statement "DELETE FROM [Picture] WHERE code = 9" (Some 0%nat)];
        fresh := 1; connected := [0%nat] |}).
Proof.
  refine (eq_trans
            (@removeOneToManyRelation_drops_cascade_outcome owners (fun _ => None)
               (deleteOne owners (fun _ => None) 3) member "picture" _ _ _ "id" (VNum 4)
               (Some 0%nat)
               {| replies := [Blog.rows []; Blog.failure "locked"]; trace := [];
                  fresh := 1; connected := [0%nat] |}
               (Resolved (VObj [("items", VArr [])]))
               {| replies := [Blog.failure "locked"];
                  trace := [Statement "UPDATE [Member] SET picture = 0 WHERE id = 4"
                                      (Some 0%nat)];
                  fresh := 1; connected := [0%nat] |}
               eq_refl eq_refl eq_refl eq_refl eq_refl eq_refl _ _)
            _).
  - vm_compute. reflexivity.
  - vm_compute. discriminate.
  - vm_compute. reflexivity.
Defined.

(** X20.  [addOneToManyRelation] with a number for the related row.  A
    negative number is refused before anything is sent, with a plain
    error that is not wrapped in the structured update error.  Any other
    number is written by one [UPDATE] that addresses the owning row by
    the primary key of the related model: the column it compares and
    the property of the owner it reads are those of the related model's
    key, whatever the key of the owner is. *)
Theorem addOneToManyRelation_addresses_by_related_key :
  forall models insertOne_ model relation f r related key n transaction w,
    relationOf models (Model.schema model) relation = OK (f, r, related) ->
    pk models (Schema.name related) = OK key ->
    (n < 0 ->
     addOneToManyRelation models insertOne_ model relation (VNum n) transaction w
     = (Rejected (JsError ("invalid <<" ++ relation ++ ">> related model id")), w))
    /\ (0 <= n ->
        addOneToManyRelation models insertOne_ model relation (VNum n) transaction w
        = P.catch_
            (query ("UPDATE [" ++ Model.schema model ++ "] SET [" ++ relation ++ "] = '"
                    ++ Str.of_Z n ++ "' WHERE " ++ key ++ "='"
                    ++ Js.to_string (Model.get model key) ++ "' ") transaction
             >>= (fun updateResult => P.resolve {| upserted := updateResult |}))
            (fun err_ => P.reject (Err DBUpdate err_)) w).
Proof.
  intros models insertOne_ model relation f r related key n transaction w Hrel Hpk.
  unfold addOneToManyRelation. rewrite Hrel. cbn [bind]. rewrite Hpk. cbn [bind].
  replace (isWeek r && isObjectType (VNum n)) with false
    by (now destruct (isWeek r)).
  cbn [bind P.try_].
  replace (Js.truthy (Js.to_number (VNum n)) || isZero (VNum n)) with true
    by (unfold isZero; cbn; now destruct n).
  cbn [P.try_ Js.to_number isNegative]. split; intros Hn.
  - apply Z.ltb_lt in Hn. now rewrite Hn.
  - apply Z.ltb_ge in Hn. rewrite Hn.
    unfold P.catch_, P.then_, P.resolve.
    destruct (query _ transaction w) as [[updated|e|e|] w1] eqn:Hquery;
      try reflexivity.
    now apply query_never_throws in Hquery.
Qed.

Lemma addOneToManyRelation_addresses_by_related_key_witness :
  addOneToManyRelation owners (fun _ _ _ => P.exhausted) member "picture" (VNum 7) None
    (Blog.driver [])
  = (Resolved {| upserted := VArr [] |},
     {| replies := [];
        trace := [Statement "UPDATE [Member] SET [picture] = '7' WHERE code='undefined' "
                            None];
        fresh := 0; connected := [] |}).
Proof.
  refine (eq_trans
            (proj2 (@addOneToManyRelation_addresses_by_related_key owners
                      (fun _ _ _ => P.exhausted) member "picture" _ _ _ "code" 7 None
                      (Blog.driver []) eq_refl eq_refl) _)
            _).
  - lia.
  - vm_compute. reflexivity.
Defined.
